(** * The ontology mapping resolver of [bin/trait_mapping/trait_mapping.py]

    A shallow embedding of the trait-mapping script: the classes
    [OntologyUri], [OxOMapping], [OxOResult], [ZoomaConfidence],
    [ZoomaEntry], [ZoomaMapping], [OntologyEntry] and [Trait], the Zooma,
    OLS and OxO clients, the per-trait cascade [process_trait] and the
    output functions, followed by the properties proved about them.

    Conventions of the embedding.
    - A Python [str] is a [string], the list of its UTF-8 bytes; [lower]
      and [upper] change the ASCII letters only, and a digit is one of
      [0]..[9].  Where free text is lower-cased ([get_trait_names]),
      [str.lower] is a parameter.
    - A Python exception is a value of [exn]; a function that can raise
      returns a [result].  [None] is [None] of an [option].
    - A decoded JSON document is a [json]; numbers are integers.
    - The remote services are parameters, gathered in the record [Env].
    - The finished-mapping set of a trait, a Python [set] of
      [OntologyEntry] (hashed and compared by value), is a [gset] of
      pairs. *)

From Stdlib Require Import ZArith Ascii String.
From stdpp Require Import base option list strings gmap pretty sorting.

Set Warnings "-register-all,-clear-no-such-hyp".

Local Open Scope string_scope.
Local Open Scope Z_scope.

(** ** Exceptions and results *)

Inductive exn : Type :=
  | TypeError
  | AttributeError
  | IndexError
  | ValueError
  | JSONDecodeError
  | KeyError (key : string).

Inductive result (A : Type) : Type :=
  | Ok (a : A)
  | Raise (e : exn).
Arguments Ok {A} a.
Arguments Raise {A} e.

Definition rbind {A B : Type} (r : result A) (k : A -> result B) : result B :=
  match r with
  | Ok a => k a
  | Raise e => Raise e
  end.

Notation "x <- r ;; k" := (rbind r (fun x => k))
  (at level 100, r at next level, right associativity).

(** A [for] loop whose body can raise: the first exception ends the loop. *)
Fixpoint mapM {A B : Type} (f : A -> result B) (l : list A) : result (list B) :=
  match l with
  | [] => Ok []
  | a :: l' => b <- f a ;; bs <- mapM f l' ;; Ok (b :: bs)
  end.

(** ** Python strings *)

Module Py.

Definition lower_char (c : ascii) : ascii :=
  let n := nat_of_ascii c in
  if ((65 <=? n) && (n <=? 90))%nat then ascii_of_nat (n + 32) else c.

Definition upper_char (c : ascii) : ascii :=
  let n := nat_of_ascii c in
  if ((97 <=? n) && (n <=? 122))%nat then ascii_of_nat (n - 32) else c.

Fixpoint smap (f : ascii -> ascii) (s : string) : string :=
  match s with
  | EmptyString => EmptyString
  | String c s' => String (f c) (smap f s')
  end.

(** [s.lower()] and [s.upper()] on the ASCII letters.  A string holds the
    UTF-8 bytes of a Python string and a byte outside ASCII is kept: the
    results agree with Python for a string of ASCII characters, and for
    every string when [s.lower()] is compared with an ASCII constant or
    looked up in a table of ASCII keys. *)
Definition lower (s : string) : string := smap lower_char s.
Definition upper (s : string) : string := smap upper_char s.

(** [x in s] for two strings *)
Fixpoint contains (x s : string) : bool :=
  String.prefix x s ||
  match s with
  | EmptyString => false
  | String _ s' => contains x s'
  end.

(** [s.rstrip(c)] for a one-character argument *)
Fixpoint rstrip (c : ascii) (s : string) : string :=
  match s with
  | EmptyString => EmptyString
  | String a s' =>
      match rstrip c s' with
      | EmptyString => if Ascii.eqb a c then EmptyString else String a EmptyString
      | r => String a r
      end
  end.

(** [s.split(sep)] for a one-character separator: never an empty list. *)
Fixpoint split (sep : ascii) (s : string) : list string :=
  match s with
  | EmptyString => [EmptyString]
  | String a s' =>
      if Ascii.eqb a sep then EmptyString :: split sep s'
      else match split sep s' with
           | h :: t => String a h :: t
           | [] => [String a EmptyString]
           end
  end.

(** [s[n:]] *)
Fixpoint drop (n : nat) (s : string) : string :=
  match n, s with
  | O, _ => s
  | S n', String _ s' => drop n' s'
  | S _, EmptyString => EmptyString
  end.


Definition is_digit (c : ascii) : bool :=
  let n := nat_of_ascii c in ((48 <=? n) && (n <=? 57))%nat.

Fixpoint sfilter (p : ascii -> bool) (s : string) : string :=
  match s with
  | EmptyString => EmptyString
  | String c s' => if p c then String c (sfilter p s') else sfilter p s'
  end.

(** [sep.join(l)] *)
Fixpoint join (sep : string) (l : list string) : string :=
  match l with
  | [] => EmptyString
  | [s] => s
  | s :: l' => s +:+ sep +:+ join sep l'
  end.

(** [template.format(arg)] for a template with one replacement field. *)
Fixpoint format1 (template arg : string) : string :=
  match template with
  | EmptyString => EmptyString
  | String "{" (String "}" rest) => arg +:+ rest
  | String c rest => String c (format1 rest arg)
  end.

(** [l[-k]] for [k >= 1]: [IndexError] when the list is shorter. *)
Definition index_from_end {A : Type} (l : list A) (k : nat) : result A :=
  match k with
  | O => Raise IndexError
  | S k' => match reverse l !! k' with
            | Some a => Ok a
            | None => Raise IndexError
            end
  end.

(** [for x in v] on [None] or a list *)
Definition iter_list {A : Type} (v : option (list A)) : result (list A) :=
  match v with
  | Some l => Ok l
  | None => Raise TypeError
  end.

(** [l.sort()]: a stable sort that compares with [<] only.  On a strict
    weak order every stable comparison sort returns the same list; it is
    written here as the stable insertion sort. *)
Fixpoint insert_sorted {A : Type} (lt : A -> A -> bool) (x : A) (l : list A) : list A :=
  match l with
  | [] => [x]
  | y :: l' => if lt y x then y :: insert_sorted lt x l' else x :: l
  end.

Fixpoint sort {A : Type} (lt : A -> A -> bool) (l : list A) : list A :=
  match l with
  | [] => []
  | x :: l' => insert_sorted lt x (sort lt l')
  end.

(** [l.sort(reverse=True)]: the list is reversed, sorted and reversed
    again, which keeps elements that compare equal in their input order. *)
Definition sort_reverse {A : Type} (lt : A -> A -> bool) (l : list A) : list A :=
  reverse (sort lt (reverse l)).

End Py.

(** ** JSON values, as [json.loads] decodes them *)

Inductive json : Type :=
  | JNull
  | JBool (b : bool)
  | JNum (n : Z)
  | JStr (s : string)
  | JList (l : list json)
  | JObj (o : list (string * json)).

Module Json.

(** A decoded object is a dict: the association list has distinct keys,
    in insertion order. *)
Fixpoint assoc (k : string) (o : list (string * json)) : option json :=
  match o with
  | [] => None
  | (k', v) :: o' => if String.eqb k k' then Some v else assoc k o'
  end.

(** [v[k]] for a string key [k] *)
Definition getitem (v : json) (k : string) : result json :=
  match v with
  | JObj o => match assoc k o with
              | Some x => Ok x
              | None => Raise (KeyError k)
              end
  | _ => Raise TypeError
  end.

Fixpoint chars (s : string) : list json :=
  match s with
  | EmptyString => []
  | String c s' => JStr (String c EmptyString) :: chars s'
  end.

(** [for x in v]: the elements of a list, the keys of a dict, the
    characters of a string. *)
Definition iter (v : json) : result (list json) :=
  match v with
  | JList l => Ok l
  | JObj o => Ok (map (fun kv => JStr (fst kv)) o)
  | JStr s => Ok (chars s)
  | _ => Raise TypeError
  end.

(** [len(v)] *)
Definition len (v : json) : result nat :=
  match v with
  | JList l => Ok (List.length l)
  | JObj o => Ok (List.length o)
  | JStr s => Ok (String.length s)
  | _ => Raise TypeError
  end.

(** The truth value of [v] *)
Definition truthy (v : json) : bool :=
  match v with
  | JNull => false
  | JBool b => b
  | JNum n => negb (n =? 0)
  | JStr s => negb (String.eqb s EmptyString)
  | JList l => match l with [] => false | _ => true end
  | JObj o => match o with [] => false | _ => true end
  end.

(** The records below are typed.  Where the script stores a decoded value
    in an attribute that it later uses as a string or an integer, the
    value is checked when it is stored: Python keeps a value of another
    type and raises [TypeError] or [AttributeError] at its first use as a
    string or an integer ([quote], [split], [lower], [join], [<]). *)
Definition as_str (v : json) : result string :=
  match v with
  | JStr s => Ok s
  | _ => Raise TypeError
  end.

Definition as_int (v : json) : result Z :=
  match v with
  | JNum n => Ok n
  | _ => Raise TypeError
  end.

(** [v.upper()] *)
Definition upper (v : json) : result string :=
  match v with
  | JStr s => Ok (Py.upper s)
  | _ => Raise AttributeError
  end.

End Json.

(** ** Classes *)

Module OntologyUri.

Definition db_to_uri_dict : gmap string string :=
  list_to_map
    [ ("orphanet", "http://www.orpha.net/ORDO/Orphanet_{}");
      ("omim", "http://identifiers.org/omim/{}");
      ("efo", "http://www.ebi.ac.uk/efo/EFO_{}");
      ("mesh", "http://identifiers.org/mesh/{}");
      ("medgen", "http://identifiers.org/medgen/{}");
      ("human phenotype ontology", "http://purl.obolibrary.org/obo/HP_{}");
      ("hp", "http://purl.obolibrary.org/obo/HP_{}") ].

Record t : Type := mk { id_ : string; db : string; uri : string }.

(** [db_to_uri_dict[key]] *)
Definition template (key : string) : result string :=
  match db_to_uri_dict !! key with
  | Some tpl => Ok tpl
  | None => Raise (KeyError key)
  end.

Definition __init__ (id_ db : string) : result t :=
  if String.eqb (Py.lower db) "human phenotype ontology" then
    tpl <- template (Py.lower db) ;;
    Ok (mk id_ db (Py.format1 tpl (Py.drop 3 id_)))
  else
    tpl <- template (Py.lower db) ;;
    Ok (mk id_ db (Py.format1 tpl id_)).

Definition __str__ (self : t) : string := uri self.

End OntologyUri.

(** [db, id_ = curie.split(":")] *)
Definition split_curie (curie : string) : result (string * string) :=
  match Py.split ":" curie with
  | [db; id_] => Ok (db, id_)
  | _ => Raise ValueError
  end.

Module OxOMapping.

Record t : Type := mk {
  label : string;
  db : string;
  id_ : string;
  uri : OntologyUri.t;
  distance : Z;
  query_id : string;
  in_efo : bool;
  is_current : bool;
  ontology_label : string
}.

Definition __init__ (label curie : string) (distance : Z) (query_id : string) : result t :=
  parts <- split_curie curie ;;
  let db := fst parts in
  let id_ := snd parts in
  uri <- OntologyUri.__init__ id_ db ;;
  Ok (mk label db id_ uri distance query_id false false EmptyString).

(** What [__eq__] returns: [False], or a tuple of booleans. *)
Inductive eq_value : Type :=
  | EqBool (b : bool)
  | EqTuple (fields : list bool).

(** The truth value of the returned object: a tuple is true unless empty. *)
Definition truth (v : eq_value) : bool :=
  match v with
  | EqBool b => b
  | EqTuple fields => match fields with [] => false | _ => true end
  end.

(** The right operand of [==]: another [OxOMapping], or an object of any
    other class. *)
Inductive operand (Other : Type) : Type :=
  | Same (m : t)
  | Foreign (o : Other).
Arguments Same {Other} m.
Arguments Foreign {Other} o.

Definition __eq__ {Other : Type} (self : t) (other : operand Other) : eq_value :=
  match other with
  | Foreign _ => EqBool false
  | Same other =>
      EqTuple [ String.eqb (label self) (label other);
                String.eqb (db self) (db other);
                String.eqb (id_ self) (id_ other);
                distance self =? distance other;
                Bool.eqb (in_efo self) (in_efo other);
                Bool.eqb (is_current self) (is_current other);
                String.eqb (ontology_label self) (ontology_label other) ]
  end.

(** [(other.distance, self.in_efo, self.is_current) <
     (self.distance, other.in_efo, other.is_current)]: the first pair of
    components that differ decides. *)
Definition __lt__ (self other : t) : bool :=
  if negb (distance other =? distance self) then distance other <? distance self
  else if negb (Bool.eqb (in_efo self) (in_efo other)) then
    negb (in_efo self) && in_efo other
  else negb (is_current self) && is_current other.

End OxOMapping.

Module OxOResult.

Record t : Type := mk {
  query_id : string;
  label : string;
  db : string;
  id_ : string;
  uri : OntologyUri.t;
  oxo_mapping_list : list OxOMapping.t
}.

Definition __init__ (query_id label curie : string) : result t :=
  parts <- split_curie curie ;;
  let db := fst parts in
  let id_ := snd parts in
  uri <- OntologyUri.__init__ id_ db ;;
  Ok (mk query_id label db id_ uri []).

Definition set_oxo_mapping_list (self : t) (l : list OxOMapping.t) : t :=
  mk (query_id self) (label self) (db self) (id_ self) (uri self) l.

End OxOResult.

Module ZoomaConfidence.

Inductive t : Type := LOW | MEDIUM | GOOD | HIGH.

Definition value (c : t) : Z :=
  match c with
  | LOW => 1
  | MEDIUM => 2
  | GOOD => 3
  | HIGH => 4
  end.

Definition __eq__ (self other : t) : bool := value self =? value other.
Definition __lt__ (self other : t) : bool := value self <? value other.

Definition __str__ (self : t) : string :=
  match self with
  | LOW => "LOW"
  | MEDIUM => "MEDIUM"
  | GOOD => "GOOD"
  | HIGH => "HIGH"
  end.

(** [ZoomaConfidence[name]] *)
Definition by_name (name : string) : result t :=
  if String.eqb name "LOW" then Ok LOW
  else if String.eqb name "MEDIUM" then Ok MEDIUM
  else if String.eqb name "GOOD" then Ok GOOD
  else if String.eqb name "HIGH" then Ok HIGH
  else Raise (KeyError name).

End ZoomaConfidence.

Module ZoomaEntry.

Record t : Type := mk {
  uri : string;
  confidence : ZoomaConfidence.t;
  source : string;
  ontology_label : string;
  in_efo : bool;
  is_current : bool
}.

(** The arguments are values of the decoded response; [uri] and [source]
    are typed with [Json.as_str]. *)
Definition __init__ (uri confidence source : json) : result t :=
  name <- Json.upper confidence ;;
  confidence <- ZoomaConfidence.by_name name ;;
  uri <- Json.as_str uri ;;
  source <- Json.as_str source ;;
  Ok (mk uri confidence source EmptyString false false).

(** [(self.confidence, self.in_efo, self.is_current) <
     (other.confidence, other.in_efo, other.is_current)]: the first pair of
    components that differ decides. *)
Definition __lt__ (self other : t) : bool :=
  if negb (ZoomaConfidence.__eq__ (confidence self) (confidence other)) then
    ZoomaConfidence.__lt__ (confidence self) (confidence other)
  else if negb (Bool.eqb (in_efo self) (in_efo other)) then
    negb (in_efo self) && in_efo other
  else negb (is_current self) && is_current other.

Definition set_ontology_label (self : t) (l : string) : t :=
  mk (uri self) (confidence self) (source self) l (in_efo self) (is_current self).
Definition set_in_efo (self : t) (b : bool) : t :=
  mk (uri self) (confidence self) (source self) (ontology_label self) b (is_current self).
Definition set_is_current (self : t) (b : bool) : t :=
  mk (uri self) (confidence self) (source self) (ontology_label self) (in_efo self) b.

End ZoomaEntry.

Module ZoomaMapping.

Record t : Type := mk {
  zooma_label : json;
  confidence : string;
  source : string;
  zooma_entry_list : list ZoomaEntry.t
}.

(** The arguments are values of the decoded response; [confidence] and
    [source] are typed with [Json.as_str], [zooma_label] is never used and
    is kept as it is. *)
Definition __init__ (uri_list zooma_label confidence source : json) : result t :=
  uris <- Json.iter uri_list ;;
  entries <- mapM (fun uri => ZoomaEntry.__init__ uri confidence source) uris ;;
  confidence <- Json.as_str confidence ;;
  source <- Json.as_str source ;;
  Ok (mk zooma_label confidence source entries).

Definition set_zooma_entry_list (self : t) (l : list ZoomaEntry.t) : t :=
  mk (zooma_label self) (confidence self) (source self) l.

(** The test of the two loops over mapping groups:
    [mapping.confidence.lower() != "high"] is false. *)
Definition is_high (self : t) : bool :=
  String.eqb (Py.lower (confidence self)) "high".

End ZoomaMapping.

Module OntologyEntry.

Record t : Type := mk { uri : string; label : string }.

#[global] Instance eq_dec : EqDecision t.
Proof. solve_decision. Defined.

#[global] Instance countable : Countable t :=
  inj_countable' (fun e => (uri e, label e)) (fun p => mk (fst p) (snd p))
    (fun e => match e with mk _ _ => eq_refl end).

End OntologyEntry.

Module Trait.

Record t : Type := mk {
  name : string;
  frequency : Z;
  zooma_mapping_list : option (list ZoomaMapping.t);
  oxo_xref_list : option (list OxOResult.t);
  finished_mapping_set : gset OntologyEntry.t
}.

Definition __init__ (name : string) (frequency : Z) : t :=
  mk name frequency (Some []) (Some []) ∅.

Definition set_zooma_mapping_list (self : t) (l : option (list ZoomaMapping.t)) : t :=
  mk (name self) (frequency self) l (oxo_xref_list self) (finished_mapping_set self).
Definition set_oxo_xref_list (self : t) (l : option (list OxOResult.t)) : t :=
  mk (name self) (frequency self) (zooma_mapping_list self) l (finished_mapping_set self).

(** [self.finished_mapping_set.add(ontology_entry)] *)
Definition add_finished (self : t) (e : OntologyEntry.t) : t :=
  mk (name self) (frequency self) (zooma_mapping_list self) (oxo_xref_list self)
     ({[ e ]} ∪ finished_mapping_set self).

Definition is_finished (self : t) : bool :=
  (0 <? size (finished_mapping_set self))%nat.

(** The body of the inner loop of [process_zooma_mappings]. *)
Definition zooma_entry_step (self : t) (entry : ZoomaEntry.t) : t :=
  if ZoomaEntry.in_efo entry && ZoomaEntry.is_current entry then
    let ontology_entry :=
      OntologyEntry.mk (ZoomaEntry.uri entry) (ZoomaEntry.ontology_label entry) in
    add_finished self ontology_entry
  else self.

(** The body of its outer loop. *)
Definition zooma_mapping_step (self : t) (mapping : ZoomaMapping.t) : t :=
  if negb (ZoomaMapping.is_high mapping) then self
  else foldl zooma_entry_step self (ZoomaMapping.zooma_entry_list mapping).

Definition process_zooma_mappings (self : t) : result t :=
  mappings <- Py.iter_list (zooma_mapping_list self) ;;
  Ok (foldl zooma_mapping_step self mappings).

(** The body of the inner loop of [process_oxo_mappings]. *)
Definition oxo_mapping_step (self : t) (mapping : OxOMapping.t) : t :=
  if OxOMapping.in_efo mapping && OxOMapping.is_current mapping
     && (OxOMapping.distance mapping =? 1) then
    let uri := OntologyUri.__str__ (OxOMapping.uri mapping) in
    let ontology_label := OxOMapping.ontology_label mapping in
    let ontology_entry := OntologyEntry.mk uri ontology_label in
    add_finished self ontology_entry
  else self.

(** The body of its outer loop. *)
Definition oxo_result_step (self : t) (result_ : OxOResult.t) : t :=
  foldl oxo_mapping_step self (OxOResult.oxo_mapping_list result_).

Definition process_oxo_mappings (self : t) : result t :=
  results <- Py.iter_list (oxo_xref_list self) ;;
  Ok (foldl oxo_result_step self results).

End Trait.

(** ** Output *)

(** A cell of a row handed to [csv.writer.writerow]. *)
Inductive cell : Type :=
  | CStr (s : string)
  | CInt (n : Z).

(** The rows written so far to the two writers of [main]. *)
Record Writers : Type := mkWriters {
  mapping_rows : list (list cell);
  curation_rows : list (list cell)
}.

Definition output_trait_mapping (trait : Trait.t) (w : Writers) : Writers :=
  mkWriters
    (mapping_rows w ++
     map (fun ontology_entry =>
            [CStr (Trait.name trait); CStr (OntologyEntry.uri ontology_entry);
             CStr (OntologyEntry.label ontology_entry)])
         (elements (Trait.finished_mapping_set trait)))%list
    (curation_rows w).

Definition get_zooma_mappings_for_curation (trait : Trait.t) : result (list ZoomaEntry.t) :=
  mappings <- Py.iter_list (Trait.zooma_mapping_list trait) ;;
  let zooma_entry_list :=
    flat_map (fun zooma_mapping =>
                List.filter (fun zooma_entry =>
                               ZoomaEntry.in_efo zooma_entry && ZoomaEntry.is_current zooma_entry)
                       (ZoomaMapping.zooma_entry_list zooma_mapping))
             mappings in
  Ok (Py.sort_reverse ZoomaEntry.__lt__ zooma_entry_list).

Definition get_oxo_mappings_for_curation (trait : Trait.t) : result (list OxOMapping.t) :=
  results <- Py.iter_list (Trait.oxo_xref_list trait) ;;
  let oxo_mapping_list :=
    flat_map (fun oxo_result =>
                List.filter (fun oxo_mapping =>
                               OxOMapping.in_efo oxo_mapping && OxOMapping.is_current oxo_mapping)
                       (OxOResult.oxo_mapping_list oxo_result))
             results in
  Ok (Py.sort_reverse OxOMapping.__lt__ oxo_mapping_list).

(** The two kinds of cell of a curation row. *)
Definition zooma_cell (zooma_entry : ZoomaEntry.t) : cell :=
  let cell := [ZoomaEntry.uri zooma_entry; ZoomaEntry.ontology_label zooma_entry;
               ZoomaConfidence.__str__ (ZoomaEntry.confidence zooma_entry);
               ZoomaEntry.source zooma_entry] in
  CStr (Py.join "|" cell).

Definition oxo_cell (oxo_mapping : OxOMapping.t) : cell :=
  let cell := [OntologyUri.__str__ (OxOMapping.uri oxo_mapping);
               OxOMapping.ontology_label oxo_mapping;
               pretty (OxOMapping.distance oxo_mapping);
               OxOMapping.query_id oxo_mapping] in
  CStr (Py.join "|" cell).

Definition output_for_curation (trait : Trait.t) (w : Writers) : result Writers :=
  let output_row := [CStr (Trait.name trait); CInt (Trait.frequency trait)] in
  zooma_entry_list <- get_zooma_mappings_for_curation trait ;;
  let output_row := (output_row ++ map zooma_cell zooma_entry_list)%list in
  oxo_mapping_list <- get_oxo_mappings_for_curation trait ;;
  let output_row := (output_row ++ map oxo_cell oxo_mapping_list)%list in
  Ok (mkWriters (mapping_rows w) (curation_rows w ++ [output_row])%list).

Definition output_trait (trait : Trait.t) (w : Writers) : result Writers :=
  if Trait.is_finished trait then Ok (output_trait_mapping trait w)
  else output_for_curation trait w.

Definition get_uris_for_oxo (zooma_mapping_list : list ZoomaMapping.t) : gset string :=
  foldl (fun uri_set mapping =>
           if negb (ZoomaMapping.is_high mapping) then uri_set
           else uri_set ∪ list_to_set (map ZoomaEntry.uri (ZoomaMapping.zooma_entry_list mapping)))
        ∅ zooma_mapping_list.

(** ** The remote services *)

(** What [.json()] gives on a response: the decoded document, or a
    [JSONDecodeError]. *)
Inductive http_reply : Type :=
  | Decoded (v : json)
  | NotJson.

Module Response.

Record t : Type := mk { status_code : Z; body : http_reply }.

Definition json (self : t) : result json :=
  match body self with
  | Decoded v => Ok v
  | NotJson => Raise JSONDecodeError
  end.

End Response.

(** The payload of a POST request to OxO, see [build_oxo_payload]. *)
Record OxoPayload : Type := mkPayload {
  ids : list string;
  mappingTarget : list string;
  payload_distance : Z
}.

(** The filters of [ArgParser], a dict with these three keys. *)
Record Filters : Type := mkFilters {
  ontologies : string;
  required : string;
  preferred : string
}.

(** The services as the script sees them.  Zooma and OLS answer a request
    the same way throughout a run (their callers are memoised with
    [lru_cache]); the answer of OxO may change from one POST to the next
    and depends on the number of POSTs sent before.
    - [zooma_get url] is [requests.get(url).json()] in [zooma_query_helper];
    - [ols_query_helper url] is the function of that name: the label of
      the defining term, or [None];
    - [ols_efo_query uri] is the function of that name;
    - [oxo_post n url payload] is [requests.post(url, data=payload).json()]
      in [oxo_query_helper], [n] POSTs having been sent before. *)
Record Env : Type := mkEnv {
  zooma_get : string -> http_reply;
  ols_query_helper : string -> option string;
  ols_efo_query : string -> Response.t;
  oxo_post : nat -> string -> OxoPayload -> http_reply
}.

(** A decoded [null] is Python's [None]. *)
Definition json_or_none (r : http_reply) : option json :=
  match r with
  | Decoded JNull => None
  | Decoded v => Some v
  | NotJson => None
  end.

(** The POST requests sent to OxO so far, oldest first. *)
Definition World : Type := list OxoPayload.

(** Computations that can raise and that talk to OxO. *)
Definition M (A : Type) : Type := World -> result A * World.

Definition mret {A : Type} (a : A) : M A := fun w => (Ok a, w).

Definition mbind {A B : Type} (m : M A) (k : A -> M B) : M B :=
  fun w => match m w with
           | (Ok a, w') => k a w'
           | (Raise e, w') => (Raise e, w')
           end.

Definition lift {A : Type} (r : result A) : M A := fun w => (r, w).

Notation "x <~ m ;; k" := (mbind m (fun x => k))
  (at level 100, m at next level, right associativity).

Section Services.

Variable env : Env.

(** *** Zooma functions *)

Fixpoint request_retry_helper {A : Type} (function : string -> option A)
    (retry_count : nat) (url : string) : option A :=
  match retry_count with
  | O => None
  | S n =>
      match function url with
      | Some return_value => Some return_value
      | None => request_retry_helper function n url
      end
  end.

Definition zooma_query_helper (url : string) : option json :=
  json_or_none (zooma_get env url).

Definition build_ols_query (ontology_uri : string) : string :=
  "http://www.ebi.ac.uk/ols/api/terms?iri=" +:+ ontology_uri.

Definition get_ontology_label_from_ols (ontology_uri : string) : option string :=
  let url := build_ols_query ontology_uri in
  request_retry_helper (ols_query_helper env) 4 url.

(** *** OLS functions *)

Definition is_current_and_in_efo (uri : string) : result bool :=
  let response := ols_efo_query env uri in
  if negb (Response.status_code response =? 200) then Ok false
  else
    response_json <- Response.json response ;;
    is_obsolete <- Json.getitem response_json "is_obsolete" ;;
    Ok (negb (Json.truthy is_obsolete)).

Definition is_in_efo (uri : string) : bool :=
  let response := ols_efo_query env uri in
  Response.status_code response =? 200.

Definition build_zooma_query (trait_name : string) (filters : Filters) (zooma_host : string)
    : string :=
  let url := zooma_host +:+ "/spot/zooma/v2/api/services/annotate?propertyValue=" +:+ trait_name in
  let url_filters :=
    [ "required:[" +:+ required filters +:+ "]";
      "ontologies:[" +:+ ontologies filters +:+ "]";
      "preferred:[" +:+ preferred filters +:+ "]" ] in
  url +:+ "&filter=" +:+ Py.join "," url_filters.

(** The body of the loop of [get_mappings_for_trait]. *)
Definition mapping_of_result (result_ : json) : result ZoomaMapping.t :=
  uris <- Json.getitem result_ "semanticTags" ;;
  annotated <- Json.getitem result_ "annotatedProperty" ;;
  zooma_label <- Json.getitem annotated "propertyValue" ;;
  confidence <- Json.getitem result_ "confidence" ;;
  derived <- Json.getitem result_ "derivedFrom" ;;
  provenance <- Json.getitem derived "provenance" ;;
  source <- Json.getitem provenance "source" ;;
  source_name <- Json.getitem source "name" ;;
  ZoomaMapping.__init__ uris zooma_label confidence source_name.

Definition get_mappings_for_trait (zooma_response : json) : result (list ZoomaMapping.t) :=
  results <- Json.iter zooma_response ;;
  mapM mapping_of_result results.

(** The body of the inner loop of [get_ontology_mappings]. *)
Definition enrich_zooma_entry (zooma_entry : ZoomaEntry.t) : result ZoomaEntry.t :=
  let label := get_ontology_label_from_ols (ZoomaEntry.uri zooma_entry) in
  let zooma_entry :=
    match label with
    | Some label => ZoomaEntry.set_ontology_label zooma_entry label
    | None => zooma_entry
    end in
  uri_is_current_and_in_efo <- is_current_and_in_efo (ZoomaEntry.uri zooma_entry) ;;
  if negb uri_is_current_and_in_efo then
    let uri_is_in_efo := is_in_efo (ZoomaEntry.uri zooma_entry) in
    Ok (ZoomaEntry.set_in_efo zooma_entry uri_is_in_efo)
  else
    Ok (ZoomaEntry.set_is_current
          (ZoomaEntry.set_in_efo zooma_entry uri_is_current_and_in_efo)
          uri_is_current_and_in_efo).

Definition get_ontology_mappings (trait_name : string) (filters : Filters) (zooma_host : string)
    : result (option (list ZoomaMapping.t)) :=
  let url := build_zooma_query trait_name filters zooma_host in
  let zooma_response := request_retry_helper zooma_query_helper 4 url in
  match zooma_response with
  | None => Ok None
  | Some zooma_response =>
      mappings <- get_mappings_for_trait zooma_response ;;
      mappings <- mapM (fun mapping =>
                          entries <- mapM enrich_zooma_entry
                                          (ZoomaMapping.zooma_entry_list mapping) ;;
                          Ok (ZoomaMapping.set_zooma_entry_list mapping entries))
                       mappings ;;
      Ok (Some mappings)
  end.

(** *** OxO functions *)

Definition URI_DB_TO_DB_DICT : gmap string string :=
  list_to_map
    [ ("ordo", "Orphanet");
      ("omim", "OMIM");
      ("efo", "EFO");
      ("mesh", "MeSH");
      ("obo", "HP") ].

(** [NON_NUMERIC_RE.sub("", s)]: the ASCII digits of [s], which are all
    its decimal digits when [s] is a string of ASCII characters. *)
Definition strip_non_numeric (s : string) : string := Py.sfilter Py.is_digit s.

Definition uri_to_oxo_format (uri : string) : result (option string) :=
  if negb (existsb (fun x => Py.contains x (Py.lower uri))
                   (elements (dom URI_DB_TO_DB_DICT))) then Ok None
  else
    let uri := Py.rstrip "/" uri in
    let uri_list := Py.split "/" uri in
    last <- Py.index_from_end uri_list 1 ;;
    let id_ := strip_non_numeric last in
    segment <- Py.index_from_end uri_list 2 ;;
    match URI_DB_TO_DB_DICT !! Py.lower segment with
    | None => Raise (KeyError (Py.lower segment))
    | Some db => Ok (Some (db +:+ ":" +:+ id_))
    end.

(** The set is visited in the order of [elements]. *)
Definition uris_to_oxo_format (uri_set : gset string) : result (list string) :=
  oxo_ids <- mapM uri_to_oxo_format (elements uri_set) ;;
  Ok (omap id oxo_ids).

Definition build_oxo_payload (id_list target_list : list string) (distance : Z) : OxoPayload :=
  mkPayload id_list target_list distance.

(** [oxo_query_helper] sends one POST. *)
Definition oxo_query_helper (url : string) (payload : OxoPayload) (w : World)
    : option json * World :=
  (json_or_none (oxo_post env (List.length w) url payload), (w ++ [payload])%list).

Fixpoint oxo_retry_loop (retry_count : nat) (url : string) (payload : OxoPayload) (w : World)
    : option json * World :=
  match retry_count with
  | O => (None, w)
  | S n =>
      match oxo_query_helper url payload w with
      | (Some return_value, w') => (Some return_value, w')
      | (None, w') => oxo_retry_loop n url payload w'
      end
  end.

Definition oxo_request_retry_helper (retry_count : nat) (url : string)
    (id_list target_list : list string) (distance : Z) (w : World) : option json * World :=
  let payload := build_oxo_payload id_list target_list distance in
  oxo_retry_loop retry_count url payload w.

(** The body of the inner loop of [get_oxo_results_from_response]. *)
Definition parse_oxo_mapping (query_id : string) (mapping_response : json)
    : result OxOMapping.t :=
  mapping_label <- Json.getitem mapping_response "label" ;;
  mapping_curie <- Json.getitem mapping_response "curie" ;;
  mapping_distance <- Json.getitem mapping_response "distance" ;;
  mapping_label <- Json.as_str mapping_label ;;
  mapping_curie <- Json.as_str mapping_curie ;;
  mapping_distance <- Json.as_int mapping_distance ;;
  oxo_mapping <- OxOMapping.__init__ mapping_label mapping_curie mapping_distance query_id ;;
  let uri := OntologyUri.__str__ (OxOMapping.uri oxo_mapping) in
  let ontology_label :=
    match get_ontology_label_from_ols uri with
    | Some ontology_label => ontology_label
    | None => OxOMapping.ontology_label oxo_mapping
    end in
  uri_is_current_and_in_efo <- is_current_and_in_efo uri ;;
  if negb uri_is_current_and_in_efo then
    let uri_is_in_efo := is_in_efo uri in
    Ok (OxOMapping.mk (OxOMapping.label oxo_mapping) (OxOMapping.db oxo_mapping)
          (OxOMapping.id_ oxo_mapping) (OxOMapping.uri oxo_mapping)
          (OxOMapping.distance oxo_mapping) (OxOMapping.query_id oxo_mapping)
          uri_is_in_efo (OxOMapping.is_current oxo_mapping) ontology_label)
  else
    Ok (OxOMapping.mk (OxOMapping.label oxo_mapping) (OxOMapping.db oxo_mapping)
          (OxOMapping.id_ oxo_mapping) (OxOMapping.uri oxo_mapping)
          (OxOMapping.distance oxo_mapping) (OxOMapping.query_id oxo_mapping)
          uri_is_current_and_in_efo uri_is_current_and_in_efo ontology_label).

(** The body of the outer loop: [None] when the result is skipped. *)
Definition parse_oxo_result (result_ : json) : result (option OxOResult.t) :=
  mapping_response_list <- Json.getitem result_ "mappingResponseList" ;;
  n <- Json.len mapping_response_list ;;
  if (n =? 0)%nat then Ok None
  else
    query_id <- Json.getitem result_ "queryId" ;;
    label <- Json.getitem result_ "label" ;;
    curie <- Json.getitem result_ "curie" ;;
    query_id <- Json.as_str query_id ;;
    label <- Json.as_str label ;;
    curie <- Json.as_str curie ;;
    oxo_result <- OxOResult.__init__ query_id label curie ;;
    mapping_responses <- Json.iter mapping_response_list ;;
    mappings <- mapM (parse_oxo_mapping query_id) mapping_responses ;;
    Ok (Some (OxOResult.set_oxo_mapping_list oxo_result mappings)).

Definition get_oxo_results_from_response (oxo_response : json) : result (list OxOResult.t) :=
  embedded <- Json.getitem oxo_response "_embedded" ;;
  results <- Json.getitem embedded "searchResults" ;;
  results <- Json.iter results ;;
  oxo_result_list <- mapM parse_oxo_result results ;;
  Ok (omap id oxo_result_list).

Definition get_oxo_results (id_list target_list : list string) (distance : Z)
    : M (option (list OxOResult.t)) :=
  fun w =>
    let url := "http://www.ebi.ac.uk/spot/oxo/api/search?size=5000" in
    match oxo_request_retry_helper 4 url id_list target_list distance w with
    | (None, w') => (Ok None, w')
    | (Some oxo_response, w') =>
        (oxo_results <- get_oxo_results_from_response oxo_response ;; Ok (Some oxo_results), w')
    end.

(** *** The cascade *)

(** [any([entry.is_current for mapping in l for entry in mapping.zooma_entry_list])] *)
Definition any_entry_is_current (l : list ZoomaMapping.t) : bool :=
  existsb (fun mapping => existsb ZoomaEntry.is_current (ZoomaMapping.zooma_entry_list mapping)) l.

Definition process_trait (trait : Trait.t) (filters : Filters) (zooma_host : string)
    (oxo_target_list : list string) (oxo_distance : Z) : M Trait.t :=
  zooma_mappings <~ lift (get_ontology_mappings (Trait.name trait) filters zooma_host) ;;
  let trait := Trait.set_zooma_mapping_list trait zooma_mappings in
  trait <~ lift (Trait.process_zooma_mappings trait) ;;
  if Trait.is_finished trait then mret trait
  else
    n <~ lift (match Trait.zooma_mapping_list trait with
               | Some l => Ok (List.length l)
               | None => Raise TypeError
               end) ;;
    if (n =? 0)%nat then mret trait
    else
      mappings <~ lift (Py.iter_list (Trait.zooma_mapping_list trait)) ;;
      if any_entry_is_current mappings then mret trait
      else
        let uris_for_oxo_set := get_uris_for_oxo mappings in
        if (size uris_for_oxo_set =? 0)%nat then mret trait
        else
          oxo_input_id_list <~ lift (uris_to_oxo_format uris_for_oxo_set) ;;
          oxo_result_list <~ get_oxo_results oxo_input_id_list oxo_target_list oxo_distance ;;
          let trait := Trait.set_oxo_xref_list trait oxo_result_list in
          trait <~ lift (Trait.process_oxo_mappings trait) ;;
          mret trait.

(** The loop of [main] over the counted trait names: an exception ends
    the run. *)
Fixpoint main_loop (traits : list (string * Z)) (filters : Filters) (zooma_host : string)
    (oxo_target_list : list string) (oxo_distance : Z) (out : Writers) : M Writers :=
  match traits with
  | [] => mret out
  | (trait_name, freq) :: rest =>
      let trait := Trait.__init__ trait_name freq in
      trait <~ process_trait trait filters zooma_host oxo_target_list oxo_distance ;;
      out <~ lift (output_trait trait out) ;;
      main_loop rest filters zooma_host oxo_target_list oxo_distance out
  end.

End Services.

(** ** Vocabulary of the statements *)

(** [p] is the (URI, label) pair of an entry of a HIGH-confidence group of
    [l] that is in EFO and current. *)
Definition zooma_finishing (l : list ZoomaMapping.t) (p : OntologyEntry.t) : Prop :=
  exists mapping entry,
    mapping ∈ l /\ ZoomaMapping.is_high mapping = true /\
    entry ∈ ZoomaMapping.zooma_entry_list mapping /\
    ZoomaEntry.in_efo entry = true /\ ZoomaEntry.is_current entry = true /\
    p = OntologyEntry.mk (ZoomaEntry.uri entry) (ZoomaEntry.ontology_label entry).

(** [p] is the (URI, label) pair of a cross-reference of [l] that is in
    EFO, current and at distance 1. *)
Definition oxo_finishing (l : list OxOResult.t) (p : OntologyEntry.t) : Prop :=
  exists result_ mapping,
    result_ ∈ l /\ mapping ∈ OxOResult.oxo_mapping_list result_ /\
    OxOMapping.in_efo mapping = true /\ OxOMapping.is_current mapping = true /\
    OxOMapping.distance mapping = 1 /\
    p = OntologyEntry.mk (OntologyUri.__str__ (OxOMapping.uri mapping))
                         (OxOMapping.ontology_label mapping).

(** The row of the mapping file for a finished mapping. *)
Definition mapping_row (trait_name : string) (p : OntologyEntry.t) : list cell :=
  [CStr trait_name; CStr (OntologyEntry.uri p); CStr (OntologyEntry.label p)].

(** What [output_trait] may do to the two files for a trait [t] named
    [trait_name] of frequency [freq]: append one row per finished mapping
    to the mapping file ([pairs] lists the finished-mapping set, each pair
    once, in the order in which the set is visited), or one row to the
    curation file. *)
Definition one_kind_of_row (trait_name : string) (freq : Z) (t : Trait.t)
    (out out' : Writers) : Prop :=
  (Trait.finished_mapping_set t <> ∅ /\
   (exists pairs,
      NoDup pairs /\
      (forall p, p ∈ pairs <-> p ∈ Trait.finished_mapping_set t) /\
      List.length pairs = size (Trait.finished_mapping_set t) /\
      (0 < List.length pairs)%nat /\
      mapping_rows out' = (mapping_rows out ++ map (mapping_row trait_name) pairs)%list) /\
   curation_rows out' = curation_rows out) \/
  (Trait.finished_mapping_set t = ∅ /\
   mapping_rows out' = mapping_rows out /\
   exists zs os,
     get_zooma_mappings_for_curation t = Ok zs /\
     get_oxo_mappings_for_curation t = Ok os /\
     curation_rows out' =
       (curation_rows out ++
        [[CStr trait_name; CInt freq] ++ map zooma_cell zs ++ map oxo_cell os])%list).

(** The entries that [get_zooma_mappings_for_curation] collects before it
    sorts them. *)
Definition zooma_candidates (l : list ZoomaMapping.t) : list ZoomaEntry.t :=
  flat_map (fun zooma_mapping =>
              List.filter (fun zooma_entry =>
                             ZoomaEntry.in_efo zooma_entry && ZoomaEntry.is_current zooma_entry)
                          (ZoomaMapping.zooma_entry_list zooma_mapping))
           l.

(** The rank that [ZoomaEntry.__lt__] compares: confidence first, then
    membership of EFO, then currency. *)
Definition zooma_rank (e : ZoomaEntry.t) : Z :=
  4 * ZoomaConfidence.value (ZoomaEntry.confidence e)
  + 2 * Z.b2z (ZoomaEntry.in_efo e) + Z.b2z (ZoomaEntry.is_current e).

(** What one step of the loops of the finish rules adds to the set. *)
Definition zooma_entry_adds (entry : ZoomaEntry.t) (p : OntologyEntry.t) : Prop :=
  ZoomaEntry.in_efo entry = true /\ ZoomaEntry.is_current entry = true /\
  p = OntologyEntry.mk (ZoomaEntry.uri entry) (ZoomaEntry.ontology_label entry).

Definition zooma_mapping_adds (mapping : ZoomaMapping.t) (p : OntologyEntry.t) : Prop :=
  ZoomaMapping.is_high mapping = true /\
  exists entry, entry ∈ ZoomaMapping.zooma_entry_list mapping /\ zooma_entry_adds entry p.

Definition oxo_mapping_adds (mapping : OxOMapping.t) (p : OntologyEntry.t) : Prop :=
  OxOMapping.in_efo mapping = true /\ OxOMapping.is_current mapping = true /\
  OxOMapping.distance mapping = 1 /\
  p = OntologyEntry.mk (OntologyUri.__str__ (OxOMapping.uri mapping))
                       (OxOMapping.ontology_label mapping).

Definition oxo_result_adds (result_ : OxOResult.t) (p : OntologyEntry.t) : Prop :=
  exists mapping, mapping ∈ OxOResult.oxo_mapping_list result_ /\ oxo_mapping_adds mapping p.

(** The order of the ranks. *)
Definition rank_le {A : Type} (rank : A -> Z) : relation A :=
  fun x y => rank x <= rank y.

(** [process_trait] once Zooma has answered with the groups [l]. *)
Definition after_zooma (env : Env) (t1 : Trait.t) (l : list ZoomaMapping.t)
    (oxo_target_list : list string) (oxo_distance : Z) (w : World) : result Trait.t * World :=
  if Trait.is_finished t1 then (Ok t1, w)
  else if (List.length l =? 0)%nat then (Ok t1, w)
  else if any_entry_is_current l then (Ok t1, w)
  else if (size (get_uris_for_oxo l) =? 0)%nat then (Ok t1, w)
  else
    match uris_to_oxo_format (get_uris_for_oxo l) with
    | Raise e => (Raise e, w)
    | Ok oxo_input_id_list =>
        match get_oxo_results env oxo_input_id_list oxo_target_list oxo_distance w with
        | (Raise e, w') => (Raise e, w')
        | (Ok oxo_result_list, w') =>
            (Trait.process_oxo_mappings (Trait.set_oxo_xref_list t1 oxo_result_list), w')
        end
    end.

(** ** Sample inputs *)

Module Sample.

Definition filters : Filters :=
  mkFilters "efo,ordo,hp" "cttv,eva-clinvar,gwas" "eva-clinvar,cttv,gwas".

Definition zooma_host : string := "https://www.ebi.ac.uk".

Definition oxo_target_list : list string := ["Orphanet"; "efo"; "hp"].

Definition provenance (name : string) : json :=
  JObj [("provenance", JObj [("source", JObj [("name", JStr name)])])].

(** One result object of a Zooma response. *)
Definition zooma_result (confidence uri : string) : json :=
  JObj [ ("semanticTags", JList [JStr uri]);
         ("annotatedProperty", JObj [("propertyValue", JStr "intellectual disability")]);
         ("confidence", JStr confidence);
         ("derivedFrom", provenance "eva-clinvar") ].


Definition orphanet_uri : string := "http://www.orpha.net/ORDO/Orphanet_199318".
Definition efo_uri : string := "http://www.ebi.ac.uk/efo/EFO_0003847".
Definition go_uri : string := "http://purl.org/obo/owl/GO#GO_0000001".

(** OLS knows one current term of EFO. *)
Definition ols (uri : string) : Response.t :=
  if String.eqb uri efo_uri
  then Response.mk 200 (Decoded (JObj [("is_obsolete", JBool false)]))
  else Response.mk 404 NotJson.

Definition oxo_response : json :=
  JObj [("_embedded", JObj [("searchResults", JList [
    JObj [ ("queryId", JStr "Orphanet:199318"); ("label", JStr "q");
           ("curie", JStr "Orphanet:199318");
           ("mappingResponseList",
            JList [JObj [ ("label", JStr "m"); ("curie", JStr "EFO:0003847");
                          ("distance", JNum 1) ]]) ]])])].

(** Every service is down. *)
Definition env_down : Env :=
  mkEnv (fun _ => NotJson) (fun _ => None) (fun _ => Response.mk 404 NotJson)
        (fun _ _ _ => NotJson).


(** Zooma answers with a HIGH-confidence Orphanet term that is not in EFO;
    OxO answers at the third POST with a direct cross-reference to EFO. *)
Definition env_oxo : Env :=
  mkEnv (fun _ => Decoded (JList [zooma_result "HIGH" orphanet_uri]))
        (fun _ => Some "intellectual disability") ols
        (fun n _ _ => if (n <? 2)%nat then NotJson else Decoded oxo_response).


(** Zooma answers with an empty list. *)
Definition env_empty : Env :=
  mkEnv (fun _ => Decoded (JList [])) (fun _ => None) ols (fun _ _ _ => NotJson).

(** Zooma answers with a HIGH-confidence term that is current in EFO. *)
Definition env_finished : Env :=
  mkEnv (fun _ => Decoded (JList [zooma_result "HIGH" efo_uri]))
        (fun _ => Some "intellectual disability") ols
        (fun _ _ _ => Decoded oxo_response).

Definition entry (uri : string) (c : ZoomaConfidence.t) : ZoomaEntry.t :=
  ZoomaEntry.mk uri c "eva-clinvar" "label" true true.

Definition mapping (confidence : string) (entries : list ZoomaEntry.t) : ZoomaMapping.t :=
  ZoomaMapping.mk (JStr "x") confidence "eva-clinvar" entries.

Definition mapping_of (zooma_label confidence : string) (entries : list ZoomaEntry.t)
    : ZoomaMapping.t :=
  ZoomaMapping.mk (JStr zooma_label) confidence "eva-clinvar" entries.

Definition trait (mappings : list ZoomaMapping.t) : Trait.t :=
  Trait.mk "t" 5 (Some mappings) (Some []) ∅.

Definition oxo_mapping (distance : Z) : OxOMapping.t :=
  OxOMapping.mk "m" "EFO" "0003847" (OntologyUri.mk "0003847" "EFO" efo_uri)
                distance "Orphanet:199318" true true "label".

Definition oxo_trait (mappings : list OxOMapping.t) : Trait.t :=
  Trait.mk "t" 5 (Some [])
    (Some [OxOResult.mk "Orphanet:199318" "q" "Orphanet" "199318"
             (OntologyUri.mk "199318" "Orphanet" orphanet_uri) mappings]) ∅.

End Sample.

(** ** The rest of the script *)

(** A loop that threads an accumulator and whose body can raise. *)
Fixpoint foldM {A B : Type} (f : B -> A -> result B) (acc : B) (l : list A) : result B :=
  match l with
  | [] => Ok acc
  | a :: l' => acc' <- f acc a ;; foldM f acc' l'
  end.

Module JsonOps.

(** [v == s] for a string [s] *)
Definition eq_str (v : json) (s : string) : bool :=
  match v with
  | JStr s' => String.eqb s' s
  | _ => false
  end.

(** [k in v] for a string [k]: a key of a dict, an element of a list, a
    part of a string. *)
Definition contains (k : string) (v : json) : result bool :=
  match v with
  | JObj o => Ok (match Json.assoc k o with Some _ => true | None => false end)
  | JList l => Ok (existsb (fun x => eq_str x k) l)
  | JStr s => Ok (Py.contains k s)
  | _ => Raise TypeError
  end.

(** [v.lower()]; [str_lower] stands for [str.lower]. *)
Definition lower (str_lower : string -> string) (v : json) : result string :=
  match v with
  | JStr s => Ok (str_lower s)
  | _ => Raise AttributeError
  end.

End JsonOps.

(** *** Parsing trait names *)

(** The body of the inner loop of [get_trait_names]: [names] is
    [trait_list[-1]]. *)
Definition trait_name_step (names : list json) (name : json) : result (list json) :=
  element_value <- Json.getitem name "elementValue" ;;
  type_ <- Json.getitem element_value "type" ;;
  if JsonOps.eq_str type_ "Preferred" then
    element_value <- Json.getitem name "elementValue" ;;
    value <- Json.getitem element_value "value" ;;
    Ok (value :: names)
  else if existsb (JsonOps.eq_str type_) ["EFO URL"; "EFO id"; "EFO name"] then
    Ok names
  else
    element_value <- Json.getitem name "elementValue" ;;
    value <- Json.getitem element_value "value" ;;
    Ok (names ++ [value])%list.

(** The body of its outer loop: the names kept for one trait. *)
Definition names_of_trait (trait : json) : result (list json) :=
  names <- Json.getitem trait "name" ;;
  names <- Json.iter names ;;
  foldM trait_name_step [] names.

(** Trait names are free text, and [str.lower] changes letters of every
    alphabet: the functions that lower-case trait names take [str.lower]
    as the parameter [str_lower] and assume nothing of it. *)
Section TraitNames.

Context (str_lower : string -> string).

(** The body of the second loop: [None] when the trait is skipped. *)
Definition first_name_lower (trait : list json) : result (option string) :=
  match trait with
  | [] => Ok None
  | first :: _ => s <- JsonOps.lower str_lower first ;; Ok (Some s)
  end.

(** The [if] of [get_trait_names]: the trait set of a record, in the
    format with or without the level [clinvarSet]. *)
Definition trait_set_of_record (clinvar_json : json) : result json :=
  has_clinvar_set <- JsonOps.contains "clinvarSet" clinvar_json ;;
  if has_clinvar_set then
    clinvar_set <- Json.getitem clinvar_json "clinvarSet" ;;
    assertion <- Json.getitem clinvar_set "referenceClinVarAssertion" ;;
    Json.getitem assertion "traitSet"
  else
    assertion <- Json.getitem clinvar_json "referenceClinVarAssertion" ;;
    Json.getitem assertion "traitSet".

Definition get_trait_names (clinvar_json : json) : result (list string) :=
  trait_set <- trait_set_of_record clinvar_json ;;
  traits <- Json.getitem trait_set "trait" ;;
  traits <- Json.iter traits ;;
  trait_list <- mapM names_of_trait traits ;;
  trait_names_to_return <- mapM first_name_lower trait_list ;;
  Ok (omap id trait_names_to_return).

(** [parse_trait_names] on the records that [clinvar_jsons] yields, one
    per line of the file. *)
Definition parse_trait_names (records : list json) : result (list string) :=
  new_trait_names <- mapM get_trait_names records ;;
  Ok (concat new_trait_names).

End TraitNames.

(** *** Counting and the main method *)

(** [Counter(l)], as the list of its items: the distinct elements in the
    order of their first occurrence, with their counts. *)
Fixpoint counter_add (k : string) (c : list (string * Z)) : list (string * Z) :=
  match c with
  | [] => [(k, 1)]
  | (k', n) :: c' =>
      if String.eqb k k' then (k', n + 1) :: c' else (k', n) :: counter_add k c'
  end.

Definition Counter (l : list string) : list (string * Z) :=
  foldl (fun c k => counter_add k c) [] l.

(** [c[k]] on a counter: 0 for an element that was not counted. *)
Fixpoint counter_get (k : string) (c : list (string * Z)) : Z :=
  match c with
  | [] => 0
  | (k', n) :: c' => if String.eqb k k' then n else counter_get k c'
  end.

(** [main], from the records of the input file to the rows of the two
    output files; the mapping file starts with its header. *)
Definition main (str_lower : string -> string) (env : Env) (records : list json)
    (filters : Filters) (zooma_host : string) (oxo_target_list : list string)
    (oxo_distance : Z) : M Writers :=
  trait_names_list <~ lift (parse_trait_names str_lower records) ;;
  let trait_names_counter := Counter trait_names_list in
  let out := mkWriters [[CStr "#clinvar_trait_name"; CStr "uri"; CStr "label"]] [] in
  main_loop env trait_names_counter filters zooma_host oxo_target_list oxo_distance out.

(** *** OLS functions *)

(** The characters that [urllib.parse.quote] never quotes. *)
Definition is_unreserved (c : ascii) : bool :=
  let n := nat_of_ascii c in
  ((65 <=? n) && (n <=? 90) || (97 <=? n) && (n <=? 122) || (48 <=? n) && (n <=? 57)
   || (n =? 95) || (n =? 46) || (n =? 45) || (n =? 126))%nat.

Definition hex_digit (n : nat) : ascii :=
  if (n <? 10)%nat then ascii_of_nat (48 + n) else ascii_of_nat (55 + n).

(** [%XX] for a byte that is quoted, the byte itself otherwise. *)
Definition quote_char (c : ascii) : string :=
  if is_unreserved c then String c EmptyString
  else
    let n := nat_of_ascii c in
    String "%" (String (hex_digit (n / 16)) (String (hex_digit (n mod 16)) EmptyString)).

(** [urllib.parse.quote(s, safe="")], on the bytes of [s]. *)
Fixpoint quote (s : string) : string :=
  match s with
  | EmptyString => EmptyString
  | String c s' => quote_char c +:+ quote s'
  end.

Definition double_encode_uri (uri : string) : string := quote (quote uri).

(** The URL that [ols_efo_query] requests. *)
Definition ols_efo_url (uri : string) : string :=
  "http://www.ebi.ac.uk/ols/api/ontologies/efo/terms/" +:+ double_encode_uri uri.

(** The loop of [ols_query_helper] over the terms of a response. *)
Fixpoint first_defining_label (terms : list json) : result (option json) :=
  match terms with
  | [] => Ok None
  | term :: rest =>
      is_defining_ontology <- Json.getitem term "is_defining_ontology" ;;
      if Json.truthy is_defining_ontology then
        label <- Json.getitem term "label" ;;
        Ok (Some label)
      else first_defining_label rest
  end.

(** [ols_query_helper], from the reply to its request: every exception is
    caught and gives [None], as does a response without a defining term
    and a label that is [null]. *)
Definition ols_label_of_reply (reply : http_reply) : option json :=
  match reply with
  | NotJson => None
  | Decoded json_response =>
      match (embedded <- Json.getitem json_response "_embedded" ;;
             terms <- Json.getitem embedded "terms" ;;
             terms <- Json.iter terms ;;
             first_defining_label terms) with
      | Ok (Some JNull) => None
      | Ok (Some label) => Some label
      | Ok None => None
      | Raise _ => None
      end
  end.

(** ** Vocabulary of the further statements *)

(** Every character of [s] satisfies [p]. *)
Fixpoint string_forallb (p : ascii -> bool) (s : string) : bool :=
  match s with
  | EmptyString => true
  | String c s' => p c && string_forallb p s'
  end.

(** [s.count(c)] for a one-character argument, to state how many colons a
    compact identifier holds. *)
Fixpoint string_count (c : ascii) (s : string) : nat :=
  match s with
  | EmptyString => 0%nat
  | String a s' => ((if Ascii.eqb a c then 1 else 0) + string_count c s')%nat
  end.

(** Every character of [s] is an ASCII character. *)
Definition is_ascii (s : string) : bool :=
  string_forallb (fun c => (nat_of_ascii c <? 128)%nat) s.

(** Every [%] of [s] is followed by [25]. *)
Fixpoint percent_is_quoted (s : string) : bool :=
  match s with
  | EmptyString => true
  | String c s' =>
      (if Ascii.eqb c "%" then String.prefix "25" s' else true) && percent_is_quoted s'
  end.

(** *** Replies with the types that the services document

    The classes store the values of a decoded reply as they are.  The
    statements below are about replies whose values have the types that
    Zooma and OxO document: where a value of another type is stored, the
    script fails, or not, at the first use of the value.  A key that is
    missing is not a matter of type and is left to the functions. *)

Definition is_str (v : json) : bool :=
  match v with
  | JStr _ => true
  | _ => false
  end.

Definition is_ascii_str (v : json) : bool :=
  match v with
  | JStr s => is_ascii s
  | _ => false
  end.

Definition is_int (v : json) : bool :=
  match v with
  | JNum _ => true
  | _ => false
  end.

(** The value under [k], when [o] has one, satisfies [p]. *)
Definition field_ok (o : json) (k : string) (p : json -> bool) : bool :=
  match Json.getitem o k with
  | Ok v => p v
  | Raise _ => true
  end.

(** The elements of [v], when it can be iterated, satisfy [p]. *)
Definition items_ok (v : json) (p : json -> bool) : bool :=
  match Json.iter v with
  | Ok l => forallb p l
  | Raise _ => true
  end.

(** [v] is a list whose elements satisfy [p]. *)
Definition list_of (p : json -> bool) (v : json) : bool :=
  match v with
  | JList l => forallb p l
  | _ => false
  end.

(** A result of Zooma: the semantic tags are a list of strings of ASCII
    characters, the confidence is a string of ASCII characters, the name
    of the source is a string. *)
Definition zooma_result_typed (result_ : json) : bool :=
  field_ok result_ "semanticTags" (list_of is_ascii_str) &&
  field_ok result_ "confidence" is_ascii_str &&
  field_ok result_ "derivedFrom" (fun derived =>
    field_ok derived "provenance" (fun provenance =>
      field_ok provenance "source" (fun source => field_ok source "name" is_str))).

Definition zooma_response_typed (zooma_response : json) : bool :=
  items_ok zooma_response zooma_result_typed.

(** A mapping response of OxO: the label is a string, the compact
    identifier a string of ASCII characters, the distance an integer. *)
Definition oxo_mapping_typed (mapping_response : json) : bool :=
  field_ok mapping_response "label" is_str &&
  field_ok mapping_response "curie" is_ascii_str &&
  field_ok mapping_response "distance" is_int.

Definition oxo_result_typed (result_ : json) : bool :=
  field_ok result_ "queryId" is_str &&
  field_ok result_ "label" is_str &&
  field_ok result_ "curie" is_ascii_str &&
  field_ok result_ "mappingResponseList" (fun l => items_ok l oxo_mapping_typed).

Definition oxo_response_typed (oxo_response : json) : bool :=
  field_ok oxo_response "_embedded" (fun embedded =>
    field_ok embedded "searchResults" (fun results => items_ok results oxo_result_typed)).

(** Every reply of Zooma and of OxO that decodes is typed. *)
Definition env_typed (env : Env) : Prop :=
  (forall url v, zooma_get env url = Decoded v -> zooma_response_typed v = true) /\
  (forall n url payload v,
     oxo_post env n url payload = Decoded v -> oxo_response_typed v = true).

(** *** Rows *)

(** The rows that one trait adds to the two files: mapping rows that
    start with its name and no curation row, or no mapping row and one
    curation row that starts with its name and its frequency. *)
Definition trait_rows (trait : string * Z) (rows : list (list cell) * list (list cell))
    : Prop :=
  (fst rows <> [] /\ snd rows = [] /\
   Forall (fun row => exists uri label, row = [CStr (fst trait); CStr uri; CStr label])
          (fst rows)) \/
  (fst rows = [] /\
   exists cells, snd rows = [CStr (fst trait) :: CInt (snd trait) :: cells]).

(** The cross-references that [get_oxo_mappings_for_curation] collects
    before it sorts them. *)
Definition oxo_candidates (l : list OxOResult.t) : list OxOMapping.t :=
  flat_map (fun oxo_result =>
              List.filter (fun oxo_mapping =>
                             OxOMapping.in_efo oxo_mapping && OxOMapping.is_current oxo_mapping)
                          (OxOResult.oxo_mapping_list oxo_result))
           l.

(** The rank that [OxOMapping.__lt__] compares: a smaller distance ranks
    higher, then membership of EFO, then currency. *)
Definition oxo_rank (m : OxOMapping.t) : Z :=
  - 4 * OxOMapping.distance m
  + 2 * Z.b2z (OxOMapping.in_efo m) + Z.b2z (OxOMapping.is_current m).

(** What holds of an entry of a group: its confidence is the one that the
    group names, its source is that of the group, and the group is HIGH
    for [process_zooma_mappings] exactly when the entry is. *)
Definition entry_of_group (m : ZoomaMapping.t) (e : ZoomaEntry.t) : Prop :=
  ZoomaConfidence.__str__ (ZoomaEntry.confidence e) = Py.upper (ZoomaMapping.confidence m) /\
  ZoomaEntry.source e = ZoomaMapping.source m /\
  (ZoomaMapping.is_high m = true <-> ZoomaEntry.confidence e = ZoomaConfidence.HIGH).

(** Shapes of the decoded ClinVar records. *)
Module Clinvar.

(** [j] is a name of the given type and value. *)
Definition is_name (j : json) (type_ value : string) : Prop :=
  exists o ev,
    j = JObj o /\ Json.assoc "elementValue" o = Some (JObj ev) /\
    Json.assoc "type" ev = Some (JStr type_) /\ Json.assoc "value" ev = Some (JStr value).

(** [j] is a trait with the given names. *)
Definition is_trait (j : json) (names : list (string * string)) : Prop :=
  exists o l,
    j = JObj o /\ Json.assoc "name" o = Some (JList l) /\
    Forall2 (fun x p => is_name x (fst p) (snd p)) l names.

(** [j] is a reference assertion with the given traits. *)
Definition is_assertion_holder (j : json) (traits : list (list (string * string))) : Prop :=
  exists o a ts l,
    j = JObj o /\ Json.assoc "referenceClinVarAssertion" o = Some (JObj a) /\
    Json.assoc "traitSet" a = Some (JObj ts) /\ Json.assoc "trait" ts = Some (JList l) /\
    Forall2 is_trait l traits.

(** [j] is a record with the given traits, in the format without or with
    the level [clinvarSet]. *)
Definition is_record (j : json) (traits : list (list (string * string))) : Prop :=
  (is_assertion_holder j traits /\
   exists o, j = JObj o /\ Json.assoc "clinvarSet" o = None) \/
  (exists o cs, j = JObj o /\ Json.assoc "clinvarSet" o = Some cs /\
                is_assertion_holder cs traits).

Definition is_preferred (p : string * string) : bool := String.eqb (fst p) "Preferred".

Definition is_efo (p : string * string) : bool :=
  existsb (String.eqb (fst p)) ["EFO URL"; "EFO id"; "EFO name"].

(** The name that stands for a trait: the value of its last Preferred
    name, or of its first name that is not from EFO; in lower case. *)
Definition chosen_name (str_lower : string -> string) (names : list (string * string))
    : option string :=
  match List.filter is_preferred (reverse names) with
  | p :: _ => Some (str_lower (snd p))
  | [] =>
      match List.filter (fun p => negb (is_efo p)) names with
      | p :: _ => Some (str_lower (snd p))
      | [] => None
      end
  end.

Definition name_json (type_ value : string) : json :=
  JObj [("elementValue", JObj [("type", JStr type_); ("value", JStr value)])].

Definition trait_json (names : list (string * string)) : json :=
  JObj [("name", JList (map (fun p => name_json (fst p) (snd p)) names))].

Definition record_json (traits : list (list (string * string))) : json :=
  JObj [("referenceClinVarAssertion",
         JObj [("traitSet", JObj [("trait", JList (map trait_json traits))])])].

End Clinvar.

(** Further sample inputs. *)
Module Sample2.

(** Zooma answers as in [Sample.env_oxo]; OxO never answers. *)
Definition env_oxo_down : Env :=
  mkEnv (fun _ => Decoded (JList [Sample.zooma_result "HIGH" Sample.orphanet_uri]))
        (fun _ => Some "intellectual disability") Sample.ols
        (fun _ _ _ => NotJson).

(** Zooma answers with a HIGH-confidence term; OLS answers 200 with a
    document that has no [is_obsolete]. *)
Definition env_ols_malformed : Env :=
  mkEnv (fun _ => Decoded (JList [Sample.zooma_result "HIGH" Sample.efo_uri]))
        (fun _ => Some "intellectual disability")
        (fun _ => Response.mk 200 (Decoded (JObj [("label", JStr "x")])))
        (fun _ _ _ => NotJson).

Definition payload : OxoPayload :=
  mkPayload ["Orphanet:199318"] Sample.oxo_target_list 3.

(** Two records of the input file that name the same trait. *)
Definition records : list json :=
  [ Clinvar.record_json [[("Alternate", "ID"); ("Preferred", "Intellectual Disability")]];
    JObj [("clinvarSet", Clinvar.record_json [[("Preferred", "intellectual disability")]])] ].

(** The rows that [main] writes for them with [Sample.env_finished]. *)
Definition rows : Writers :=
  mkWriters [ [CStr "#clinvar_trait_name"; CStr "uri"; CStr "label"];
              [CStr "intellectual disability"; CStr Sample.efo_uri;
               CStr "intellectual disability"] ] [].

(** The trait that [process_trait] returns with [Sample.env_oxo]. *)
Definition oxo_finished_trait : Trait.t :=
  Trait.mk "t" 5
    (Some [Sample.mapping_of "intellectual disability" "HIGH"
             [ZoomaEntry.mk Sample.orphanet_uri ZoomaConfidence.HIGH "eva-clinvar"
                "intellectual disability" false false]])
    (Some [OxOResult.mk "Orphanet:199318" "q" "Orphanet" "199318"
             (OntologyUri.mk "199318" "Orphanet" Sample.orphanet_uri)
             [OxOMapping.mk "m" "EFO" "0003847"
                (OntologyUri.mk "0003847" "EFO" Sample.efo_uri) 1 "Orphanet:199318"
                true true "intellectual disability"]])
    {[ OntologyEntry.mk Sample.efo_uri "intellectual disability" ]}.

End Sample2.

(** ** Trait names of the XML dump ([trait_names_parsing.py])

    A record of the dataset is represented by what [parse_trait_names]
    reads from it: the [preferred_or_other_valid_name] of each of its
    [traits_with_valid_names], and [measure.is_repeat_expansion_variant],
    [None] standing for a record without measure.  A trait is represented
    by the three arguments that the loop passes to the constructor. *)
Module TraitNamesParsing.

Record clinvar_record : Type := mk_record {
  valid_names : list string;
  measure : option bool
}.

Record trait : Type := mk_trait {
  name : string;
  frequency : Z;
  associated_with_nt_expansion : bool
}.

(** [clinvar_record.measure and clinvar_record.measure.is_repeat_expansion_variant] *)
Definition is_repeat_expansion (r : clinvar_record) : bool :=
  match measure r with
  | Some b => b
  | None => false
  end.

Section Order.

(** [str_lower] stands for [str.lower], of which nothing is assumed.  The
    order in which Python iterates over a set is not fixed by the
    language: the loop is written over an arbitrary enumeration. *)
Context (str_lower : string -> string) (order : gset string -> list string).

(** [set(trait.preferred_or_other_valid_name.lower() for trait in ...)] *)
Definition trait_names (r : clinvar_record) : gset string :=
  list_to_set (map str_lower (valid_names r)).

(** The body of the loop over the records, on the counter and the set of
    the traits of repeat expansion variants. *)
Definition count_record (st : list (string * Z) * gset string) (r : clinvar_record)
    : list (string * Z) * gset string :=
  let names := trait_names r in
  let counter := foldl (fun c trait_name => counter_add trait_name c) (fst st) (order names) in
  if is_repeat_expansion r then (counter, snd st ∪ names) else (counter, snd st).

Definition parse_trait_names (records : list clinvar_record) : list trait :=
  let st := foldl count_record ([], ∅) records in
  let trait_name_counter := fst st in
  let nt_expansion_traits := snd st in
  omap (fun item =>
          let trait_name := fst item in
          let trait_frequency := snd item in
          if String.eqb trait_name "-" then None
          else Some (mk_trait trait_name trait_frequency
                              (bool_decide (trait_name ∈ nt_expansion_traits))))
       trait_name_counter.

End Order.

End TraitNamesParsing.
(** * Properties *)

(** ** The URI formatter *)

Lemma template_lookup (key : string) :
  OntologyUri.template key =
  match OntologyUri.db_to_uri_dict !! key with
  | Some tpl => Ok tpl
  | None => Raise (KeyError key)
  end.
Proof. reflexivity. Qed.





(** ** Equality of cross-reference mappings *)

(** C10.  [a == b] on two [OxOMapping] values returns the tuple of the
    seven field comparisons, which is true in a boolean context whatever
    the fields are; against a value of another class it returns [False]. *)
Theorem OxOMapping_eq_tuple (Other : Type) (a b : OxOMapping.t) (o : Other) :
  OxOMapping.__eq__ a (OxOMapping.Same (Other := Other) b) =
    OxOMapping.EqTuple
      [ String.eqb (OxOMapping.label a) (OxOMapping.label b);
        String.eqb (OxOMapping.db a) (OxOMapping.db b);
        String.eqb (OxOMapping.id_ a) (OxOMapping.id_ b);
        OxOMapping.distance a =? OxOMapping.distance b;
        Bool.eqb (OxOMapping.in_efo a) (OxOMapping.in_efo b);
        Bool.eqb (OxOMapping.is_current a) (OxOMapping.is_current b);
        String.eqb (OxOMapping.ontology_label a) (OxOMapping.ontology_label b) ] /\
  (exists fields, OxOMapping.__eq__ a (OxOMapping.Same (Other := Other) b) =
                    OxOMapping.EqTuple fields /\ List.length fields = 7%nat) /\
  OxOMapping.truth (OxOMapping.__eq__ a (OxOMapping.Same (Other := Other) b)) = true /\
  OxOMapping.__eq__ a (OxOMapping.Foreign o) = OxOMapping.EqBool false /\
  OxOMapping.truth (OxOMapping.__eq__ a (OxOMapping.Foreign o)) = false.
Proof.
  repeat split. eexists. split; reflexivity.
Qed.

(** Two mappings that differ in every compared field are still "equal". *)
Example OxOMapping_eq_all_fields_differ :
  OxOMapping.__eq__ (Other := unit) (Sample.oxo_mapping 1)
    (OxOMapping.Same
       (OxOMapping.mk "n" "Orphanet" "199318"
          (OntologyUri.mk "199318" "Orphanet" Sample.orphanet_uri) 2 "q" false false "other"))
  = OxOMapping.EqTuple [false; false; false; false; false; false; false].
Proof. reflexivity. Qed.

(** ** Conversion of URIs to OxO identifiers *)

(** C6 fails on the code.  The guard of [uri_to_oxo_format] looks for a
    key of the table anywhere in the URI, the lookup uses the segment
    before the last: a URI that contains [obo] but whose segment before
    the last is [owl] passes the guard and raises [KeyError], and the
    whole batch fails with it.  A URI without a slash that contains a key
    raises [IndexError]. *)
Theorem uris_to_oxo_format_raises :
  URI_DB_TO_DB_DICT !! "owl" = None /\
  uri_to_oxo_format Sample.go_uri = Raise (KeyError "owl") /\
  uris_to_oxo_format {[ Sample.go_uri ]} = Raise (KeyError "owl") /\
  uris_to_oxo_format {[ "EFO_0003847" ]} = Raise IndexError.
Proof. repeat split; by vm_compute. Qed.

(** A URI that contains no key of the table is left out. *)
Example uris_to_oxo_format_drops_medgen :
  uris_to_oxo_format {[ "http://identifiers.org/medgen/C0001" ]} = Ok [].
Proof. by vm_compute. Qed.

(** ** Failures of the primary source *)

Lemma request_retry_helper_none {A : Type} (f : string -> option A) (n : nat) (url : string) :
  f url = None -> request_retry_helper f n url = None.
Proof. intros Hf. induction n as [| n IH]; simpl; [done | by rewrite Hf]. Qed.

Lemma request_retry_helper_some {A : Type} (f : string -> option A) (n : nat) (url : string)
    (v : A) :
  f url = Some v -> request_retry_helper f (S n) url = Some v.
Proof. intros Hf. simpl. by rewrite Hf. Qed.

Lemma mapM_raise {A B : Type} (f : A -> result B) (l : list A) (x : A) (e : exn) :
  x ∈ l -> f x = Raise e -> exists e', mapM f l = Raise e'.
Proof.
  intros Hx Hf. induction l as [| a l IH]; [by apply elem_of_nil in Hx |].
  simpl. destruct (f a) as [b | e0] eqn:Hfa; simpl; [| eauto].
  apply elem_of_cons in Hx as [-> | Hx]; [congruence |].
  destruct (IH Hx) as [e' ->]. simpl. eauto.
Qed.

Lemma get_ontology_mappings_none (env : Env) (trait_name : string) (filters : Filters)
    (zooma_host : string) :
  zooma_query_helper env (build_zooma_query trait_name filters zooma_host) = None ->
  get_ontology_mappings env trait_name filters zooma_host = Ok None.
Proof.
  intros Hnone. unfold get_ontology_mappings.
  by rewrite (request_retry_helper_none _ _ _ Hnone).
Qed.


Lemma process_trait_raise (env : Env) (trait : Trait.t) (filters : Filters)
    (zooma_host : string) (oxo_target_list : list string) (oxo_distance : Z) (w : World)
    (e : exn) :
  get_ontology_mappings env (Trait.name trait) filters zooma_host = Raise e ->
  process_trait env trait filters zooma_host oxo_target_list oxo_distance w = (Raise e, w).
Proof. intros Hraise. unfold process_trait, mbind, lift. by rewrite Hraise. Qed.

(** C1 fails on the code.  When Zooma gives no answer,
    [get_ontology_mappings] returns [None], [process_trait] stores it in
    [zooma_mapping_list] and [process_zooma_mappings] iterates over it:
    [process_trait] raises [TypeError] before any cross-reference query,
    and the loop of [main] ends with that exception. *)
Theorem process_trait_zooma_none_raises (env : Env) (trait : Trait.t) (filters : Filters)
    (zooma_host : string) (oxo_target_list : list string) (oxo_distance : Z) (w : World)
    (freq : Z) (rest : list (string * Z)) (out : Writers) :
  zooma_query_helper env (build_zooma_query (Trait.name trait) filters zooma_host) = None ->
  get_ontology_mappings env (Trait.name trait) filters zooma_host = Ok None /\
  process_trait env trait filters zooma_host oxo_target_list oxo_distance w
    = (Raise TypeError, w) /\
  main_loop env ((Trait.name trait, freq) :: rest) filters zooma_host oxo_target_list
            oxo_distance out w
    = (Raise TypeError, w).
Proof.
  intros Hnone. apply get_ontology_mappings_none in Hnone.
  split; [done |]. split.
  - unfold process_trait, mbind, lift. by rewrite Hnone.
  - simpl. unfold mbind at 1. unfold process_trait, mbind, lift. simpl.
    by rewrite Hnone.
Qed.

Lemma process_trait_zooma_none_raises_witness :
  get_ontology_mappings Sample.env_down "t" Sample.filters Sample.zooma_host = Ok None /\
  process_trait Sample.env_down (Trait.__init__ "t" 5) Sample.filters Sample.zooma_host
                Sample.oxo_target_list 3 []
    = (Raise TypeError, []) /\
  main_loop Sample.env_down [("t", 5); ("u", 1)] Sample.filters Sample.zooma_host
            Sample.oxo_target_list 3 (mkWriters [] []) []
    = (Raise TypeError, []).
Proof.
  apply (process_trait_zooma_none_raises Sample.env_down (Trait.__init__ "t" 5)).
  reflexivity.
Defined.





(** ** The finish rules *)

(** A loop that only adds to the finished-mapping set: what it leaves
    unchanged, and what the set holds afterwards. *)
Section FinishLoop.

Context {A : Type} (step : Trait.t -> A -> Trait.t) (adds : A -> OntologyEntry.t -> Prop).

Hypothesis step_frame : forall t a,
  Trait.name (step t a) = Trait.name t /\
  Trait.frequency (step t a) = Trait.frequency t /\
  Trait.zooma_mapping_list (step t a) = Trait.zooma_mapping_list t /\
  Trait.oxo_xref_list (step t a) = Trait.oxo_xref_list t.

Hypothesis step_adds : forall t a p,
  p ∈ Trait.finished_mapping_set (step t a) <->
  p ∈ Trait.finished_mapping_set t \/ adds a p.

Lemma foldl_frame (l : list A) (t : Trait.t) :
  Trait.name (foldl step t l) = Trait.name t /\
  Trait.frequency (foldl step t l) = Trait.frequency t /\
  Trait.zooma_mapping_list (foldl step t l) = Trait.zooma_mapping_list t /\
  Trait.oxo_xref_list (foldl step t l) = Trait.oxo_xref_list t.
Proof.
  revert t. induction l as [| a l IH]; intros t; simpl; [done |].
  destruct (IH (step t a)) as (-> & -> & -> & ->). apply step_frame.
Qed.

Lemma foldl_adds (l : list A) (t : Trait.t) (p : OntologyEntry.t) :
  p ∈ Trait.finished_mapping_set (foldl step t l) <->
  p ∈ Trait.finished_mapping_set t \/ exists a, a ∈ l /\ adds a p.
Proof.
  revert t. induction l as [| a l IH]; intros t; simpl.
  - split; [by left |]. intros [H | (a & Ha & _)]; [done | by apply elem_of_nil in Ha].
  - rewrite IH, step_adds. split.
    + intros [[H | H] | (b & Hb & H)]; [by left | |].
      * right. exists a. split; [apply list_elem_of_here | done].
      * right. exists b. split; [by apply list_elem_of_further | done].
    + intros [H | (b & Hb & H)]; [by left; left |].
      apply elem_of_cons in Hb as [-> | Hb]; [by left; right |].
      right. by exists b.
Qed.

End FinishLoop.

Lemma zooma_entry_step_frame (t : Trait.t) (entry : ZoomaEntry.t) :
  Trait.name (Trait.zooma_entry_step t entry) = Trait.name t /\
  Trait.frequency (Trait.zooma_entry_step t entry) = Trait.frequency t /\
  Trait.zooma_mapping_list (Trait.zooma_entry_step t entry) = Trait.zooma_mapping_list t /\
  Trait.oxo_xref_list (Trait.zooma_entry_step t entry) = Trait.oxo_xref_list t.
Proof. unfold Trait.zooma_entry_step. by destruct (_ && _). Qed.

Lemma zooma_entry_step_adds (t : Trait.t) (entry : ZoomaEntry.t) (p : OntologyEntry.t) :
  p ∈ Trait.finished_mapping_set (Trait.zooma_entry_step t entry) <->
  p ∈ Trait.finished_mapping_set t \/ zooma_entry_adds entry p.
Proof.
  unfold Trait.zooma_entry_step, zooma_entry_adds.
  destruct (ZoomaEntry.in_efo entry), (ZoomaEntry.is_current entry); simpl;
    try (split; [by left | by intros [H | (? & ? & ?)]]).
  rewrite elem_of_union, elem_of_singleton. naive_solver.
Qed.

Lemma zooma_mapping_step_frame (t : Trait.t) (mapping : ZoomaMapping.t) :
  Trait.name (Trait.zooma_mapping_step t mapping) = Trait.name t /\
  Trait.frequency (Trait.zooma_mapping_step t mapping) = Trait.frequency t /\
  Trait.zooma_mapping_list (Trait.zooma_mapping_step t mapping) = Trait.zooma_mapping_list t /\
  Trait.oxo_xref_list (Trait.zooma_mapping_step t mapping) = Trait.oxo_xref_list t.
Proof.
  unfold Trait.zooma_mapping_step. destruct (negb _); [done |].
  apply foldl_frame, zooma_entry_step_frame.
Qed.

Lemma zooma_mapping_step_adds (t : Trait.t) (mapping : ZoomaMapping.t) (p : OntologyEntry.t) :
  p ∈ Trait.finished_mapping_set (Trait.zooma_mapping_step t mapping) <->
  p ∈ Trait.finished_mapping_set t \/ zooma_mapping_adds mapping p.
Proof.
  unfold Trait.zooma_mapping_step, zooma_mapping_adds.
  destruct (ZoomaMapping.is_high mapping); simpl.
  - rewrite (foldl_adds _ _ zooma_entry_step_adds). naive_solver.
  - naive_solver.
Qed.

Lemma oxo_mapping_step_frame (t : Trait.t) (mapping : OxOMapping.t) :
  Trait.name (Trait.oxo_mapping_step t mapping) = Trait.name t /\
  Trait.frequency (Trait.oxo_mapping_step t mapping) = Trait.frequency t /\
  Trait.zooma_mapping_list (Trait.oxo_mapping_step t mapping) = Trait.zooma_mapping_list t /\
  Trait.oxo_xref_list (Trait.oxo_mapping_step t mapping) = Trait.oxo_xref_list t.
Proof. unfold Trait.oxo_mapping_step. by destruct (_ && _). Qed.

Lemma oxo_mapping_step_adds (t : Trait.t) (mapping : OxOMapping.t) (p : OntologyEntry.t) :
  p ∈ Trait.finished_mapping_set (Trait.oxo_mapping_step t mapping) <->
  p ∈ Trait.finished_mapping_set t \/ oxo_mapping_adds mapping p.
Proof.
  unfold Trait.oxo_mapping_step, oxo_mapping_adds.
  destruct (OxOMapping.in_efo mapping), (OxOMapping.is_current mapping); simpl;
    try (split; [by left | by intros [H | (? & ? & ?)]]).
  destruct (Z.eqb_spec (OxOMapping.distance mapping) 1) as [Hd | Hd]; simpl.
  - rewrite elem_of_union, elem_of_singleton. naive_solver.
  - naive_solver.
Qed.

Lemma oxo_result_step_frame (t : Trait.t) (result_ : OxOResult.t) :
  Trait.name (Trait.oxo_result_step t result_) = Trait.name t /\
  Trait.frequency (Trait.oxo_result_step t result_) = Trait.frequency t /\
  Trait.zooma_mapping_list (Trait.oxo_result_step t result_) = Trait.zooma_mapping_list t /\
  Trait.oxo_xref_list (Trait.oxo_result_step t result_) = Trait.oxo_xref_list t.
Proof. apply foldl_frame, oxo_mapping_step_frame. Qed.

Lemma oxo_result_step_adds (t : Trait.t) (result_ : OxOResult.t) (p : OntologyEntry.t) :
  p ∈ Trait.finished_mapping_set (Trait.oxo_result_step t result_) <->
  p ∈ Trait.finished_mapping_set t \/ oxo_result_adds result_ p.
Proof. apply (foldl_adds _ _ oxo_mapping_step_adds). Qed.

Lemma zooma_finishing_adds (l : list ZoomaMapping.t) (p : OntologyEntry.t) :
  zooma_finishing l p <-> exists mapping, mapping ∈ l /\ zooma_mapping_adds mapping p.
Proof. unfold zooma_finishing, zooma_mapping_adds, zooma_entry_adds. naive_solver. Qed.

Lemma oxo_finishing_adds (l : list OxOResult.t) (p : OntologyEntry.t) :
  oxo_finishing l p <-> exists result_, result_ ∈ l /\ oxo_result_adds result_ p.
Proof. unfold oxo_finishing, oxo_result_adds, oxo_mapping_adds. naive_solver. Qed.

Lemma is_finished_true (t : Trait.t) :
  Trait.is_finished t = true <-> exists p, p ∈ Trait.finished_mapping_set t.
Proof.
  unfold Trait.is_finished. rewrite Nat.ltb_lt. split.
  - apply size_pos_elem_of.
  - intros [p Hp]. destruct (size (Trait.finished_mapping_set t)) eqn:Hsize; [| lia].
    apply size_empty_inv in Hsize. set_solver.
Qed.

Lemma is_finished_false (t : Trait.t) :
  Trait.is_finished t = false <-> Trait.finished_mapping_set t = ∅.
Proof.
  rewrite <- Bool.not_true_iff_false, is_finished_true. split.
  - intros Hno. apply set_eq. intros p. split; [| set_solver].
    intros Hp. exfalso. eauto.
  - intros -> [p Hp]. set_solver.
Qed.

(** C2.  On a trait that holds a list of mapping groups,
    [process_zooma_mappings] returns; afterwards the finished-mapping set
    holds what it held before and exactly the (URI, label) pairs of the
    entries of HIGH-confidence groups that are in EFO and current.  From
    an empty set the trait is finished if and only if there is such an
    entry, and without a HIGH-confidence group nothing is added. *)
Theorem process_zooma_mappings_finish (t : Trait.t) (l : list ZoomaMapping.t) :
  Trait.zooma_mapping_list t = Some l ->
  exists t',
    Trait.process_zooma_mappings t = Ok t' /\
    (forall p, p ∈ Trait.finished_mapping_set t' <->
               p ∈ Trait.finished_mapping_set t \/ zooma_finishing l p) /\
    (Trait.finished_mapping_set t = ∅ ->
     (Trait.is_finished t' = true <->
      exists mapping entry,
        mapping ∈ l /\ ZoomaMapping.is_high mapping = true /\
        entry ∈ ZoomaMapping.zooma_entry_list mapping /\
        ZoomaEntry.in_efo entry = true /\ ZoomaEntry.is_current entry = true)) /\
    ((forall mapping, mapping ∈ l -> ZoomaMapping.is_high mapping = false) ->
     Trait.finished_mapping_set t' = Trait.finished_mapping_set t).
Proof.
  intros Hl. exists (foldl Trait.zooma_mapping_step t l).
  assert (Hset : forall p,
    p ∈ Trait.finished_mapping_set (foldl Trait.zooma_mapping_step t l) <->
    p ∈ Trait.finished_mapping_set t \/ zooma_finishing l p).
  { intros p. rewrite (foldl_adds _ _ zooma_mapping_step_adds), zooma_finishing_adds. done. }
  split; [| split; [| split]].
  - unfold Trait.process_zooma_mappings. by rewrite Hl.
  - exact Hset.
  - intros Hempty. rewrite is_finished_true. split.
    + intros [p Hp]. apply Hset in Hp as [Hp | Hp]; [rewrite Hempty in Hp; set_solver |].
      destruct Hp as (mapping & entry & ? & ? & ? & ? & ? & _). by exists mapping, entry.
    + intros (mapping & entry & ? & ? & ? & ? & ?).
      exists (OntologyEntry.mk (ZoomaEntry.uri entry) (ZoomaEntry.ontology_label entry)).
      apply Hset. right. by exists mapping, entry.
  - intros Hlow. apply set_eq. intros p. rewrite Hset. split; [| by left].
    intros [Hp | (mapping & entry & Hin & Hhigh & _)]; [done |].
    rewrite (Hlow mapping Hin) in Hhigh. discriminate.
Qed.

Lemma process_zooma_mappings_finish_witness :
  (exists t',
     Trait.process_zooma_mappings
       (Sample.trait [Sample.mapping "High" [Sample.entry Sample.efo_uri ZoomaConfidence.HIGH]])
       = Ok t' /\
     Trait.is_finished t' = true /\
     OntologyEntry.mk Sample.efo_uri "label" ∈ Trait.finished_mapping_set t') /\
  (exists t',
     Trait.process_zooma_mappings
       (Sample.trait [Sample.mapping "GOOD" [Sample.entry Sample.efo_uri ZoomaConfidence.GOOD]])
       = Ok t' /\
     Trait.finished_mapping_set t' = ∅).
Proof.
  split.
  - destruct (process_zooma_mappings_finish
                (Sample.trait
                   [Sample.mapping "High" [Sample.entry Sample.efo_uri ZoomaConfidence.HIGH]])
                [Sample.mapping "High" [Sample.entry Sample.efo_uri ZoomaConfidence.HIGH]]
                eq_refl)
      as (t' & Hrun & Hset & Hfinished & _).
    exists t'. split; [exact Hrun |]. split.
    + apply (Hfinished eq_refl).
      exists (Sample.mapping "High" [Sample.entry Sample.efo_uri ZoomaConfidence.HIGH]),
             (Sample.entry Sample.efo_uri ZoomaConfidence.HIGH).
      repeat split; apply list_elem_of_here.
    + apply Hset. right.
      exists (Sample.mapping "High" [Sample.entry Sample.efo_uri ZoomaConfidence.HIGH]),
             (Sample.entry Sample.efo_uri ZoomaConfidence.HIGH).
      repeat split; apply list_elem_of_here.
  - destruct (process_zooma_mappings_finish
                (Sample.trait
                   [Sample.mapping "GOOD" [Sample.entry Sample.efo_uri ZoomaConfidence.GOOD]])
                [Sample.mapping "GOOD" [Sample.entry Sample.efo_uri ZoomaConfidence.GOOD]]
                eq_refl)
      as (t' & Hrun & _ & _ & Hlow).
    exists t'. split; [exact Hrun |]. apply Hlow.
    intros mapping Hin. apply list_elem_of_singleton in Hin as ->. reflexivity.
Defined.

(** An entry of a GOOD-confidence group that is in EFO and current does
    not finish the trait. *)
Example process_zooma_mappings_good_not_finished :
  exists t',
    Trait.process_zooma_mappings
      (Sample.trait [Sample.mapping "GOOD" [Sample.entry Sample.efo_uri ZoomaConfidence.GOOD]])
      = Ok t' /\ Trait.is_finished t' = false.
Proof. eexists. split; [reflexivity | by vm_compute]. Qed.

(** C4.  On a trait that holds a list of cross-reference results,
    [process_oxo_mappings] returns; afterwards the finished-mapping set
    holds what it held before and exactly the (URI, label) pairs of the
    cross-references that are in EFO, current and at distance 1.  From an
    empty set the trait is finished if and only if there is such a
    cross-reference; cross-references at another distance, 2 for one, add
    nothing. *)
Theorem process_oxo_mappings_finish (t : Trait.t) (l : list OxOResult.t) :
  Trait.oxo_xref_list t = Some l ->
  exists t',
    Trait.process_oxo_mappings t = Ok t' /\
    (forall p, p ∈ Trait.finished_mapping_set t' <->
               p ∈ Trait.finished_mapping_set t \/ oxo_finishing l p) /\
    (Trait.finished_mapping_set t = ∅ ->
     (Trait.is_finished t' = true <->
      exists result_ mapping,
        result_ ∈ l /\ mapping ∈ OxOResult.oxo_mapping_list result_ /\
        OxOMapping.in_efo mapping = true /\ OxOMapping.is_current mapping = true /\
        OxOMapping.distance mapping = 1)) /\
    ((forall result_ mapping,
        result_ ∈ l -> mapping ∈ OxOResult.oxo_mapping_list result_ ->
        OxOMapping.distance mapping <> 1) ->
     Trait.finished_mapping_set t' = Trait.finished_mapping_set t).
Proof.
  intros Hl. exists (foldl Trait.oxo_result_step t l).
  assert (Hset : forall p,
    p ∈ Trait.finished_mapping_set (foldl Trait.oxo_result_step t l) <->
    p ∈ Trait.finished_mapping_set t \/ oxo_finishing l p).
  { intros p. rewrite (foldl_adds _ _ oxo_result_step_adds), oxo_finishing_adds. done. }
  split; [| split; [| split]].
  - unfold Trait.process_oxo_mappings. by rewrite Hl.
  - exact Hset.
  - intros Hempty. rewrite is_finished_true. split.
    + intros [p Hp]. apply Hset in Hp as [Hp | Hp]; [rewrite Hempty in Hp; set_solver |].
      destruct Hp as (result_ & mapping & ? & ? & ? & ? & ? & _). by exists result_, mapping.
    + intros (result_ & mapping & ? & ? & ? & ? & ?).
      exists (OntologyEntry.mk (OntologyUri.__str__ (OxOMapping.uri mapping))
                               (OxOMapping.ontology_label mapping)).
      apply Hset. right. by exists result_, mapping.
  - intros Hfar. apply set_eq. intros p. rewrite Hset. split; [| by left].
    intros [Hp | (result_ & mapping & Hin & Hin' & _ & _ & Hd & _)]; [done |].
    by destruct (Hfar result_ mapping Hin Hin').
Qed.

Lemma process_oxo_mappings_finish_witness :
  (exists t',
     Trait.process_oxo_mappings (Sample.oxo_trait [Sample.oxo_mapping 1]) = Ok t' /\
     Trait.is_finished t' = true /\
     OntologyEntry.mk Sample.efo_uri "label" ∈ Trait.finished_mapping_set t') /\
  (exists t',
     Trait.process_oxo_mappings (Sample.oxo_trait [Sample.oxo_mapping 2]) = Ok t' /\
     Trait.finished_mapping_set t' = ∅).
Proof.
  split.
  - destruct (process_oxo_mappings_finish (Sample.oxo_trait [Sample.oxo_mapping 1]) _ eq_refl)
      as (t' & Hrun & Hset & Hfinished & _).
    exists t'. split; [exact Hrun |]. split.
    + apply (Hfinished eq_refl). eexists _, (Sample.oxo_mapping 1).
      repeat split; apply list_elem_of_here.
    + apply Hset. right. eexists _, (Sample.oxo_mapping 1).
      repeat split; apply list_elem_of_here.
  - destruct (process_oxo_mappings_finish (Sample.oxo_trait [Sample.oxo_mapping 2]) _ eq_refl)
      as (t' & Hrun & _ & _ & Hfar).
    exists t'. split; [exact Hrun |]. apply Hfar.
    intros result_ mapping Hr Hm. apply list_elem_of_singleton in Hr as ->.
    apply list_elem_of_singleton in Hm as ->. discriminate.
Defined.

(** A cross-reference at distance 2 that is in EFO and current does not
    finish the trait. *)
Example process_oxo_mappings_distance_2 :
  exists t',
    Trait.process_oxo_mappings (Sample.oxo_trait [Sample.oxo_mapping 2]) = Ok t' /\
    Trait.is_finished t' = false.
Proof. eexists. split; [reflexivity | by vm_compute]. Qed.

(** ** The cascade *)

Lemma process_zooma_mappings_some (t : Trait.t) (l : list ZoomaMapping.t) :
  Trait.process_zooma_mappings (Trait.set_zooma_mapping_list t (Some l))
  = Ok (foldl Trait.zooma_mapping_step (Trait.set_zooma_mapping_list t (Some l)) l).
Proof. reflexivity. Qed.

Lemma process_trait_some (env : Env) (trait : Trait.t) (filters : Filters)
    (zooma_host : string) (oxo_target_list : list string) (oxo_distance : Z) (w : World)
    (l : list ZoomaMapping.t) :
  get_ontology_mappings env (Trait.name trait) filters zooma_host = Ok (Some l) ->
  process_trait env trait filters zooma_host oxo_target_list oxo_distance w
  = after_zooma env
      (foldl Trait.zooma_mapping_step (Trait.set_zooma_mapping_list trait (Some l)) l)
      l oxo_target_list oxo_distance w.
Proof.
  intros Hl. unfold process_trait, after_zooma, mbind, lift, mret.
  rewrite Hl, process_zooma_mappings_some.
  set (t1 := foldl Trait.zooma_mapping_step _ l).
  assert (Hlist : Trait.zooma_mapping_list t1 = Some l).
  { unfold t1.
    by destruct (foldl_frame _ zooma_mapping_step_frame l
                   (Trait.set_zooma_mapping_list trait (Some l))) as (_ & _ & -> & _). }
  destruct (Trait.is_finished t1); [done |].
  rewrite Hlist. simpl.
  destruct (List.length l =? 0)%nat; [done |].
  destruct (any_entry_is_current l); [done |].
  destruct (size (get_uris_for_oxo l) =? 0)%nat; [done |].
  destruct (uris_to_oxo_format (get_uris_for_oxo l)) as [ids | e]; [| done].
  destruct (get_oxo_results env ids oxo_target_list oxo_distance w) as [[rl | e] w']; [| done].
  by destruct (Trait.process_oxo_mappings _).
Qed.

Lemma process_trait_not_some (env : Env) (trait : Trait.t) (filters : Filters)
    (zooma_host : string) (oxo_target_list : list string) (oxo_distance : Z) (w : World) :
  (forall l, get_ontology_mappings env (Trait.name trait) filters zooma_host <> Ok (Some l)) ->
  exists e,
    process_trait env trait filters zooma_host oxo_target_list oxo_distance w = (Raise e, w).
Proof.
  intros Hno. unfold process_trait, mbind, lift.
  destruct (get_ontology_mappings _ _ _ _) as [[l |] | e]; [by destruct (Hno l) | |];
    simpl; eauto.
Qed.

Lemma any_entry_is_current_false (l : list ZoomaMapping.t) :
  any_entry_is_current l = false <->
  forall mapping entry,
    mapping ∈ l -> entry ∈ ZoomaMapping.zooma_entry_list mapping ->
    ZoomaEntry.is_current entry = false.
Proof.
  unfold any_entry_is_current. rewrite <- Bool.not_true_iff_false, existsb_exists. split.
  - intros Hno mapping entry Hm He.
    apply Bool.not_true_iff_false. intros Hcur. apply Hno.
    exists mapping. split; [by apply list_elem_of_In |].
    apply existsb_exists. exists entry. split; [by apply list_elem_of_In | done].
  - intros Hall (mapping & Hm & Hex). apply existsb_exists in Hex as (entry & He & Hcur).
    apply list_elem_of_In in Hm, He. rewrite (Hall mapping entry Hm He) in Hcur. discriminate.
Qed.

Lemma oxo_retry_loop_extends (env : Env) (n : nat) (url : string) (payload : OxoPayload)
    (w : World) :
  exists posts, snd (oxo_retry_loop env n url payload w) = (w ++ posts)%list.
Proof.
  revert w. induction n as [| n IH]; intros w; simpl.
  - exists []. by rewrite app_nil_r.
  - destruct (json_or_none _).
    + by exists [payload].
    + destruct (IH (w ++ [payload])%list) as [posts ->].
      exists (payload :: posts). by rewrite <- app_assoc.
Qed.

Lemma get_oxo_results_extends (env : Env) (id_list target_list : list string) (distance : Z)
    (w : World) :
  exists posts, snd (get_oxo_results env id_list target_list distance w) = (w ++ posts)%list.
Proof.
  unfold get_oxo_results, oxo_request_retry_helper.
  destruct (oxo_retry_loop_extends env 4 "http://www.ebi.ac.uk/spot/oxo/api/search?size=5000"
              (build_oxo_payload id_list target_list distance) w) as [posts Hposts].
  destruct (oxo_retry_loop _ _ _ _ _) as [[v |] w']; simpl in *; eauto.
Qed.

(** C3.  [process_trait] only adds POST requests to those sent to OxO, and
    it sends one only when Zooma answered with a list of groups, the trait
    did not finish from them, the list is not empty, no entry of any group
    is current and the set of URIs of the HIGH-confidence groups is not
    empty.  In particular no request is sent when an entry of the answer
    is current. *)
Theorem process_trait_oxo_query_only_when (env : Env) (trait : Trait.t) (filters : Filters)
    (zooma_host : string) (oxo_target_list : list string) (oxo_distance : Z) (w w' : World)
    (r : result Trait.t) :
  process_trait env trait filters zooma_host oxo_target_list oxo_distance w = (r, w') ->
  (exists posts, w' = (w ++ posts)%list) /\
  (w' <> w ->
   exists l t1,
     get_ontology_mappings env (Trait.name trait) filters zooma_host = Ok (Some l) /\
     Trait.process_zooma_mappings (Trait.set_zooma_mapping_list trait (Some l)) = Ok t1 /\
     Trait.is_finished t1 = false /\
     l <> [] /\
     (forall mapping entry,
        mapping ∈ l -> entry ∈ ZoomaMapping.zooma_entry_list mapping ->
        ZoomaEntry.is_current entry = false) /\
     get_uris_for_oxo l <> ∅) /\
  (forall l mapping entry,
     get_ontology_mappings env (Trait.name trait) filters zooma_host = Ok (Some l) ->
     mapping ∈ l -> entry ∈ ZoomaMapping.zooma_entry_list mapping ->
     ZoomaEntry.is_current entry = true ->
     w' = w).
Proof.
  intros Hrun.
  assert (Hsame : w' = w -> exists posts, w' = (w ++ posts)%list).
  { intros ->. exists []. by rewrite app_nil_r. }
  destruct (get_ontology_mappings env (Trait.name trait) filters zooma_host)
    as [[l |] | e] eqn:Hl.
  2, 3: destruct (process_trait_not_some env trait filters zooma_host oxo_target_list
                    oxo_distance w) as [e' He']; [intros l; congruence |];
        rewrite He' in Hrun; injection Hrun as <- <-;
        split; [by apply Hsame |]; split; [done | done].
  rewrite (process_trait_some _ _ _ _ _ _ _ l Hl) in Hrun.
  unfold after_zooma in Hrun.
  set (t1 := foldl Trait.zooma_mapping_step _ l) in Hrun.
  destruct (Trait.is_finished t1) eqn:Hfin;
    [injection Hrun as <- <-; split; [by apply Hsame |]; split; [done | done] |].
  destruct (List.length l =? 0)%nat eqn:Hlen;
    [injection Hrun as <- <-; split; [by apply Hsame |]; split; [done | done] |].
  destruct (any_entry_is_current l) eqn:Hany;
    [injection Hrun as <- <-; split; [by apply Hsame |]; split; [done | done] |].
  pose proof (proj1 (any_entry_is_current_false l) Hany) as Hall. clear Hany.
  rename Hall into Hany.
  assert (Hcurrent : forall l0 mapping entry,
    Ok (Some l) = Ok (Some l0) -> mapping ∈ l0 ->
    entry ∈ ZoomaMapping.zooma_entry_list mapping ->
    ZoomaEntry.is_current entry = true -> w' = w).
  { intros l0 mapping entry [= <-] Hm He Hcur.
    rewrite (Hany mapping entry Hm He) in Hcur. discriminate. }
  destruct (size (get_uris_for_oxo l) =? 0)%nat eqn:Hsize;
    [injection Hrun as <- <-; split; [by apply Hsame |]; split; [done | done] |].
  assert (Hwhen : exists l0 t0,
    Ok (Some l) = Ok (Some l0) /\
    Trait.process_zooma_mappings (Trait.set_zooma_mapping_list trait (Some l0)) = Ok t0 /\
    Trait.is_finished t0 = false /\ l0 <> [] /\
    (forall mapping entry,
       mapping ∈ l0 -> entry ∈ ZoomaMapping.zooma_entry_list mapping ->
       ZoomaEntry.is_current entry = false) /\
    get_uris_for_oxo l0 <> ∅).
  { exists l, t1. repeat split; try done.
    - intros ->. discriminate.
    - intros Hempty. rewrite Hempty in Hsize. discriminate. }
  destruct (uris_to_oxo_format (get_uris_for_oxo l)) as [ids | e];
    [| injection Hrun as <- <-; split; [by apply Hsame |]; split; [done | done]].
  destruct (get_oxo_results_extends env ids oxo_target_list oxo_distance w) as [posts Hposts].
  destruct (get_oxo_results env ids oxo_target_list oxo_distance w) as [[rl | e] w1];
    simpl in Hposts; injection Hrun as <- <-; (split; [by exists posts |]); split; done.
Qed.

Lemma process_trait_oxo_query_only_when_witness :
  (exists l t1,
     get_ontology_mappings Sample.env_oxo "t" Sample.filters Sample.zooma_host = Ok (Some l) /\
     Trait.process_zooma_mappings
       (Trait.set_zooma_mapping_list (Trait.__init__ "t" 5) (Some l)) = Ok t1 /\
     Trait.is_finished t1 = false /\
     l <> [] /\
     (forall mapping entry,
        mapping ∈ l -> entry ∈ ZoomaMapping.zooma_entry_list mapping ->
        ZoomaEntry.is_current entry = false) /\
     get_uris_for_oxo l <> ∅) /\
  snd (process_trait Sample.env_finished (Trait.__init__ "t" 5) Sample.filters
         Sample.zooma_host Sample.oxo_target_list 3 []) = [].
Proof.
  split.
  - pose (X := process_trait Sample.env_oxo (Trait.__init__ "t" 5) Sample.filters
                 Sample.zooma_host Sample.oxo_target_list 3 []).
    apply (proj1 (proj2 (process_trait_oxo_query_only_when Sample.env_oxo
             (Trait.__init__ "t" 5) Sample.filters Sample.zooma_host Sample.oxo_target_list 3
             [] (snd X) (fst X) (surjective_pairing X)))).
    vm_compute. discriminate.
  - pose (X := process_trait Sample.env_finished (Trait.__init__ "t" 5) Sample.filters
                 Sample.zooma_host Sample.oxo_target_list 3 []).
    apply (proj2 (proj2 (process_trait_oxo_query_only_when Sample.env_finished
             (Trait.__init__ "t" 5) Sample.filters Sample.zooma_host Sample.oxo_target_list 3
             [] (snd X) (fst X) (surjective_pairing X)))
             [Sample.mapping_of "intellectual disability" "HIGH"
                [ZoomaEntry.mk Sample.efo_uri ZoomaConfidence.HIGH "eva-clinvar"
                   "intellectual disability" true true]]
             (Sample.mapping_of "intellectual disability" "HIGH"
                [ZoomaEntry.mk Sample.efo_uri ZoomaConfidence.HIGH "eva-clinvar"
                   "intellectual disability" true true])
             (ZoomaEntry.mk Sample.efo_uri ZoomaConfidence.HIGH "eva-clinvar"
                "intellectual disability" true true)).
    + reflexivity.
    + apply list_elem_of_here.
    + apply list_elem_of_here.
    + reflexivity.
Defined.

(** With the Orphanet term of the sample three POST requests are sent:
    the first two get no answer. *)
Example process_trait_sample_posts :
  List.length (snd (process_trait Sample.env_oxo (Trait.__init__ "t" 5) Sample.filters
                      Sample.zooma_host Sample.oxo_target_list 3 [])) = 3%nat.
Proof. by vm_compute. Qed.

(** ** Output *)

Lemma output_trait_rows (t : Trait.t) (out : Writers) (zl : list ZoomaMapping.t)
    (ol : list OxOResult.t) :
  Trait.zooma_mapping_list t = Some zl ->
  Trait.oxo_xref_list t = Some ol ->
  exists out',
    output_trait t out = Ok out' /\
    one_kind_of_row (Trait.name t) (Trait.frequency t) t out out'.
Proof.
  intros Hzl Hol. unfold output_trait, one_kind_of_row.
  destruct (Trait.is_finished t) eqn:Hfin.
  - eexists. split; [reflexivity |]. left.
    assert (Hpos : (0 < size (Trait.finished_mapping_set t))%nat).
    { unfold Trait.is_finished in Hfin. by apply Nat.ltb_lt in Hfin. }
    split; [| split; [| done]].
    + intros Hempty. rewrite Hempty, size_empty in Hpos. lia.
    + exists (elements (Trait.finished_mapping_set t)).
      split; [apply NoDup_elements |].
      split; [intros p; apply elem_of_elements |].
      split; [reflexivity |]. split; [exact Hpos | reflexivity].
  - apply is_finished_false in Hfin.
    unfold output_for_curation, get_zooma_mappings_for_curation, get_oxo_mappings_for_curation.
    rewrite Hzl, Hol. simpl.
    eexists. split; [reflexivity |]. right.
    split; [done |]. split; [done |].
    eexists _, _. split; [reflexivity |]. split; [reflexivity |].
    simpl. reflexivity.
Qed.

Lemma process_trait_ok_lists (env : Env) (trait : Trait.t) (filters : Filters)
    (zooma_host : string) (oxo_target_list : list string) (oxo_distance : Z) (w w' : World)
    (t : Trait.t) (ol : list OxOResult.t) :
  Trait.oxo_xref_list trait = Some ol ->
  process_trait env trait filters zooma_host oxo_target_list oxo_distance w = (Ok t, w') ->
  Trait.name t = Trait.name trait /\
  Trait.frequency t = Trait.frequency trait /\
  (exists zl, Trait.zooma_mapping_list t = Some zl) /\
  (exists ol', Trait.oxo_xref_list t = Some ol').
Proof.
  intros Hol Hrun.
  destruct (get_ontology_mappings env (Trait.name trait) filters zooma_host)
    as [[l |] | e] eqn:Hl.
  2, 3: destruct (process_trait_not_some env trait filters zooma_host oxo_target_list
                    oxo_distance w) as [e' He']; [intros l; congruence |];
        rewrite He' in Hrun; discriminate.
  rewrite (process_trait_some _ _ _ _ _ _ _ l Hl) in Hrun.
  unfold after_zooma in Hrun.
  destruct (foldl_frame _ zooma_mapping_step_frame l
              (Trait.set_zooma_mapping_list trait (Some l))) as (Hn & Hf & Hz & Ho).
  set (t1 := foldl Trait.zooma_mapping_step _ l) in *. simpl in Hn, Hf, Hz, Ho.
  assert (Hearly : Trait.name t1 = Trait.name trait /\
                   Trait.frequency t1 = Trait.frequency trait /\
                   (exists zl, Trait.zooma_mapping_list t1 = Some zl) /\
                   (exists ol', Trait.oxo_xref_list t1 = Some ol')).
  { rewrite Hn, Hf, Hz, Ho, Hol. repeat split; eauto. }
  destruct (Trait.is_finished t1); [by injection Hrun as <- <- |].
  destruct (List.length l =? 0)%nat; [by injection Hrun as <- <- |].
  destruct (any_entry_is_current l); [by injection Hrun as <- <- |].
  destruct (size (get_uris_for_oxo l) =? 0)%nat; [by injection Hrun as <- <- |].
  destruct (uris_to_oxo_format (get_uris_for_oxo l)) as [ids | e]; [| discriminate].
  destruct (get_oxo_results env ids oxo_target_list oxo_distance w) as [[rl | e] w1];
    [| discriminate].
  destruct rl as [rs |]; [| discriminate].
  unfold Trait.process_oxo_mappings in Hrun. simpl in Hrun. injection Hrun as <- <-.
  destruct (foldl_frame _ oxo_result_step_frame rs (Trait.set_oxo_xref_list t1 (Some rs)))
    as (-> & -> & -> & ->).
  simpl. rewrite Hn, Hf, Hz. repeat split; eauto.
Qed.

Lemma main_loop_cons (env : Env) (trait_name : string) (freq : Z)
    (rest : list (string * Z)) (filters : Filters) (zooma_host : string)
    (oxo_target_list : list string) (oxo_distance : Z) (out : Writers) (w : World) :
  main_loop env ((trait_name, freq) :: rest) filters zooma_host oxo_target_list
            oxo_distance out w
  = match process_trait env (Trait.__init__ trait_name freq) filters zooma_host
            oxo_target_list oxo_distance w with
    | (Raise e, w1) => (Raise e, w1)
    | (Ok t, w1) =>
        match output_trait t out with
        | Raise e => (Raise e, w1)
        | Ok out1 =>
            main_loop env rest filters zooma_host oxo_target_list oxo_distance out1 w1
        end
    end.
Proof.
  simpl. unfold mbind at 1.
  destruct (process_trait _ _ _ _ _ _ _) as [[t | e] w1]; [| done].
  unfold mbind, lift. by destruct (output_trait t out).
Qed.



(** The two rows of the samples: a finished mapping, and a curation row
    without candidates. *)
Example output_trait_sample_rows :
  output_trait (Trait.mk "t" 5 (Some []) (Some [])
                  {[ OntologyEntry.mk Sample.efo_uri "intellectual disability" ]})
               (mkWriters [] [])
    = Ok (mkWriters [[CStr "t"; CStr Sample.efo_uri; CStr "intellectual disability"]] []) /\
  output_trait (Trait.mk "u" 2 (Some []) (Some []) ∅) (mkWriters [] [])
    = Ok (mkWriters [] [[CStr "u"; CInt 2]]).
Proof. split; by vm_compute. Qed.

(** ** The order of the curation candidates *)

Lemma StronglySorted_lookup_lt {A : Type} (R : relation A) (l : list A) (i j : nat) (x y : A) :
  StronglySorted R l -> l !! i = Some x -> l !! j = Some y -> (i < j)%nat -> R x y.
Proof.
  intros Hsorted. revert i j.
  induction Hsorted as [| a l Hsorted IH Hall]; intros i j Hi Hj Hlt; [done |].
  destruct j as [| j]; [lia |]. simpl in Hj.
  destruct i as [| i]; simpl in Hi.
  - injection Hi as <-. rewrite Forall_forall in Hall.
    apply Hall. by apply list_elem_of_lookup_2 in Hj.
  - apply (IH i j); [done | done | lia].
Qed.

(** [Py.sort] and [Py.sort_reverse] with a comparison [lt] that compares
    an integer rank. *)
Section StableSort.

Context {A : Type} (rank : A -> Z) (lt : A -> A -> bool).

Hypothesis lt_rank : forall x y, lt x y = (rank x <? rank y).

#[local] Instance rank_le_trans : Transitive (flip (rank_le rank)).
Proof. intros x y z. unfold flip, rank_le. lia. Qed.

Lemma insert_sorted_Permutation (x : A) (l : list A) : Py.insert_sorted lt x l ≡ₚ x :: l.
Proof.
  induction l as [| a l IH]; simpl; [done |].
  destruct (lt a x); [| done]. rewrite IH. apply Permutation_swap.
Qed.

Lemma sort_Permutation (l : list A) : Py.sort lt l ≡ₚ l.
Proof.
  induction l as [| a l IH]; simpl; [done |].
  by rewrite insert_sorted_Permutation, IH.
Qed.

Lemma sort_reverse_Permutation (l : list A) : Py.sort_reverse lt l ≡ₚ l.
Proof.
  unfold Py.sort_reverse. by rewrite reverse_Permutation, sort_Permutation, reverse_Permutation.
Qed.

Lemma insert_sorted_sorted (x : A) (l : list A) :
  StronglySorted (rank_le rank) l -> StronglySorted (rank_le rank) (Py.insert_sorted lt x l).
Proof.
  induction 1 as [| a l Hsorted IH Hall]; simpl.
  - repeat constructor.
  - destruct (lt a x) eqn:Hlt; rewrite lt_rank in Hlt.
    + apply Z.ltb_lt in Hlt. constructor; [done |].
      rewrite insert_sorted_Permutation. constructor; [unfold rank_le; lia | done].
    + apply Z.ltb_ge in Hlt. constructor; [by constructor |].
      constructor; [done |].
      eapply Forall_impl; [exact Hall |]. intros z. unfold rank_le. lia.
Qed.

Lemma sort_sorted (l : list A) : StronglySorted (rank_le rank) (Py.sort lt l).
Proof.
  induction l as [| a l IH]; simpl; [constructor | by apply insert_sorted_sorted].
Qed.

Lemma sort_reverse_sorted (l : list A) : StronglySorted (flip (rank_le rank)) (Py.sort_reverse lt l).
Proof.
  unfold Py.sort_reverse. apply Sorted_StronglySorted; [apply rank_le_trans |].
  apply Sorted_reverse, StronglySorted_Sorted, sort_sorted.
Qed.

Lemma insert_sorted_stable (c : Z) (x : A) (l : list A) :
  filter (fun y => rank y = c) (Py.insert_sorted lt x l) = filter (fun y => rank y = c) (x :: l).
Proof.
  induction l as [| a l IH]; simpl; [done |].
  destruct (lt a x) eqn:Hlt; [| done].
  rewrite lt_rank in Hlt. apply Z.ltb_lt in Hlt.
  rewrite (filter_cons _ a), IH, !filter_cons.
  repeat case_decide; try done; lia.
Qed.

Lemma sort_stable (c : Z) (l : list A) :
  filter (fun y => rank y = c) (Py.sort lt l) = filter (fun y => rank y = c) l.
Proof.
  induction l as [| a l IH]; simpl; [done |].
  by rewrite insert_sorted_stable, !filter_cons, IH.
Qed.

Lemma sort_reverse_stable (c : Z) (l : list A) :
  filter (fun y => rank y = c) (Py.sort_reverse lt l) = filter (fun y => rank y = c) l.
Proof.
  unfold Py.sort_reverse.
  by rewrite filter_reverse, sort_stable, filter_reverse, reverse_involutive.
Qed.

Lemma sort_reverse_ranks (l1 l2 : list A) :
  l1 ≡ₚ l2 -> rank <$> Py.sort_reverse lt l1 = rank <$> Py.sort_reverse lt l2.
Proof.
  intros Hperm.
  apply (StronglySorted_unique_strong (flip Z.le)).
  - intros x1 x2 _ _. unfold flip. lia.
  - apply (StronglySorted_fmap rank (flip (rank_le rank)) (flip Z.le));
      [done | apply sort_reverse_sorted].
  - apply (StronglySorted_fmap rank (flip (rank_le rank)) (flip Z.le));
      [done | apply sort_reverse_sorted].
  - apply fmap_Permutation. by rewrite !sort_reverse_Permutation.
Qed.

End StableSort.

Lemma ZoomaEntry_lt_rank (x y : ZoomaEntry.t) :
  ZoomaEntry.__lt__ x y = (zooma_rank x <? zooma_rank y).
Proof.
  destruct x as [? cx ? ? ax bx], y as [? cy ? ? ay by_].
  unfold ZoomaEntry.__lt__, zooma_rank. simpl.
  destruct cx, cy, ax, bx, ay, by_; reflexivity.
Qed.

Lemma zooma_rank_confidence (x y : ZoomaEntry.t) :
  zooma_rank x = zooma_rank y -> ZoomaEntry.confidence x = ZoomaEntry.confidence y.
Proof.
  destruct x as [? cx ? ? ax bx], y as [? cy ? ? ay by_].
  unfold zooma_rank. simpl.
  destruct cx, cy, ax, bx, ay, by_; simpl; intros H; first [reflexivity | discriminate H].
Qed.

Lemma zooma_ranks_confidences (l1 l2 : list ZoomaEntry.t) :
  zooma_rank <$> l1 = zooma_rank <$> l2 ->
  ZoomaEntry.confidence <$> l1 = ZoomaEntry.confidence <$> l2.
Proof.
  revert l2. induction l1 as [| x l1 IH]; intros [| y l2] Heq; try done.
  injection Heq as Hxy Hrest. simpl. f_equal; [by apply zooma_rank_confidence | by apply IH].
Qed.

Lemma get_zooma_mappings_for_curation_some (t : Trait.t) (l : list ZoomaMapping.t) :
  Trait.zooma_mapping_list t = Some l ->
  get_zooma_mappings_for_curation t = Ok (Py.sort_reverse ZoomaEntry.__lt__ (zooma_candidates l)).
Proof. intros Hl. unfold get_zooma_mappings_for_curation. by rewrite Hl. Qed.

(** C8 (as amended).  For a trait that holds a list of mapping groups the
    curation list is the list of candidates rearranged, and of two of its
    entries with equal flags the one of higher confidence comes first.
    Entries of equal rank (confidence and flags) keep the order they have
    among the candidates.  Hence the list is a function of the sequence of
    candidates; when the same candidates come in another order, the
    curation list has the same sequence of ranks and of confidence
    classes, while entries of equal rank may be exchanged. *)
Theorem zooma_curation_order (t : Trait.t) (l : list ZoomaMapping.t) :
  Trait.zooma_mapping_list t = Some l ->
  exists out,
    get_zooma_mappings_for_curation t = Ok out /\
    out ≡ₚ zooma_candidates l /\
    (forall i j e1 e2,
       out !! i = Some e1 -> out !! j = Some e2 ->
       ZoomaEntry.in_efo e1 = ZoomaEntry.in_efo e2 ->
       ZoomaEntry.is_current e1 = ZoomaEntry.is_current e2 ->
       ZoomaConfidence.__lt__ (ZoomaEntry.confidence e2) (ZoomaEntry.confidence e1) = true ->
       (i < j)%nat) /\
    (forall c, filter (fun e => zooma_rank e = c) out
               = filter (fun e => zooma_rank e = c) (zooma_candidates l)) /\
    (forall t2 l2,
       Trait.zooma_mapping_list t2 = Some l2 ->
       zooma_candidates l2 ≡ₚ zooma_candidates l ->
       exists out2,
         get_zooma_mappings_for_curation t2 = Ok out2 /\
         zooma_rank <$> out2 = zooma_rank <$> out /\
         ZoomaEntry.confidence <$> out2 = ZoomaEntry.confidence <$> out).
Proof.
  intros Hl. exists (Py.sort_reverse ZoomaEntry.__lt__ (zooma_candidates l)).
  split; [by apply get_zooma_mappings_for_curation_some |].
  split; [apply sort_reverse_Permutation |].
  split; [| split].
  - intros i j e1 e2 Hi Hj Hefo Hcur Hlt.
    unfold ZoomaConfidence.__lt__ in Hlt. apply Z.ltb_lt in Hlt.
    assert (Hrank : zooma_rank e2 < zooma_rank e1).
    { unfold zooma_rank. rewrite Hefo, Hcur. lia. }
    destruct (decide (i < j)%nat) as [| Hge]; [done |]. exfalso.
    destruct (decide (i = j)) as [-> | Hne].
    + rewrite Hi in Hj. injection Hj as ->. lia.
    + pose proof (StronglySorted_lookup_lt _ _ j i e2 e1
                    (sort_reverse_sorted zooma_rank _ ZoomaEntry_lt_rank (zooma_candidates l))
                    Hj Hi ltac:(lia)) as Hle.
      unfold flip, rank_le in Hle. lia.
  - intros c. apply (sort_reverse_stable zooma_rank _ ZoomaEntry_lt_rank).
  - intros t2 l2 Hl2 Hperm.
    exists (Py.sort_reverse ZoomaEntry.__lt__ (zooma_candidates l2)).
    split; [by apply get_zooma_mappings_for_curation_some |].
    assert (Hranks :
      zooma_rank <$> Py.sort_reverse ZoomaEntry.__lt__ (zooma_candidates l2)
      = zooma_rank <$> Py.sort_reverse ZoomaEntry.__lt__ (zooma_candidates l)).
    { by apply (sort_reverse_ranks zooma_rank _ ZoomaEntry_lt_rank). }
    split; [done | by apply zooma_ranks_confidences].
Qed.

Lemma zooma_curation_order_witness :
  exists out,
    get_zooma_mappings_for_curation
      (Sample.trait [Sample.mapping "GOOD" [Sample.entry Sample.orphanet_uri ZoomaConfidence.GOOD];
                     Sample.mapping "HIGH" [Sample.entry Sample.efo_uri ZoomaConfidence.HIGH]])
      = Ok out /\
    out !! 0%nat = Some (Sample.entry Sample.efo_uri ZoomaConfidence.HIGH) /\
    out !! 1%nat = Some (Sample.entry Sample.orphanet_uri ZoomaConfidence.GOOD).
Proof.
  destruct (zooma_curation_order
              (Sample.trait
                 [Sample.mapping "GOOD" [Sample.entry Sample.orphanet_uri ZoomaConfidence.GOOD];
                  Sample.mapping "HIGH" [Sample.entry Sample.efo_uri ZoomaConfidence.HIGH]])
              _ eq_refl) as (out & Hout & _).
  exists out. split; [exact Hout |].
  vm_compute in Hout. injection Hout as <-. split; reflexivity.
Defined.

(** C8, as stated, fails in its second part: two entries of the same
    confidence and flags are not exchanged by the sort, so the same two
    candidates in two orders give two different curation lists. *)
Lemma zooma_curation_order_counterexample :
  [Sample.entry Sample.efo_uri ZoomaConfidence.HIGH;
   Sample.entry Sample.orphanet_uri ZoomaConfidence.HIGH]
  ≡ₚ [Sample.entry Sample.orphanet_uri ZoomaConfidence.HIGH;
      Sample.entry Sample.efo_uri ZoomaConfidence.HIGH] /\
  get_zooma_mappings_for_curation
    (Sample.trait [Sample.mapping "HIGH"
                     [Sample.entry Sample.efo_uri ZoomaConfidence.HIGH;
                      Sample.entry Sample.orphanet_uri ZoomaConfidence.HIGH]])
  = Ok [Sample.entry Sample.efo_uri ZoomaConfidence.HIGH;
        Sample.entry Sample.orphanet_uri ZoomaConfidence.HIGH] /\
  get_zooma_mappings_for_curation
    (Sample.trait [Sample.mapping "HIGH"
                     [Sample.entry Sample.orphanet_uri ZoomaConfidence.HIGH;
                      Sample.entry Sample.efo_uri ZoomaConfidence.HIGH]])
  = Ok [Sample.entry Sample.orphanet_uri ZoomaConfidence.HIGH;
        Sample.entry Sample.efo_uri ZoomaConfidence.HIGH] /\
  get_zooma_mappings_for_curation
    (Sample.trait [Sample.mapping "HIGH"
                     [Sample.entry Sample.efo_uri ZoomaConfidence.HIGH;
                      Sample.entry Sample.orphanet_uri ZoomaConfidence.HIGH]])
  <> get_zooma_mappings_for_curation
       (Sample.trait [Sample.mapping "HIGH"
                        [Sample.entry Sample.orphanet_uri ZoomaConfidence.HIGH;
                         Sample.entry Sample.efo_uri ZoomaConfidence.HIGH]]).
Proof.
  split; [apply Permutation_swap |]. split; [by vm_compute |]. split; [by vm_compute |].
  vm_compute. discriminate.
Qed.

(** * Further properties *)

(** ** Requests to OxO *)

Lemma oxo_retry_loop_posts (env : Env) (n : nat) (url : string) (payload : OxoPayload)
    (w : World) :
  exists k,
    snd (oxo_retry_loop env n url payload w) = (w ++ replicate k payload)%list /\
    (k <= n)%nat /\
    (fst (oxo_retry_loop env n url payload w) = None ->
     k = n /\
     forall i, (i < n)%nat ->
       json_or_none (oxo_post env (List.length w + i) url payload) = None) /\
    (forall v, fst (oxo_retry_loop env n url payload w) = Some v ->
     (1 <= k)%nat /\
     json_or_none (oxo_post env (List.length w + (k - 1)) url payload) = Some v /\
     forall i, (i < k - 1)%nat ->
       json_or_none (oxo_post env (List.length w + i) url payload) = None).
Proof.
  revert w. induction n as [| n IH]; intros w; simpl.
  - exists 0%nat. simpl. rewrite app_nil_r.
    split; [done |]. split; [lia |]. split; [| done].
    intros _. split; [done |]. intros i Hi. lia.
  - unfold oxo_query_helper.
    destruct (json_or_none (oxo_post env (List.length w) url payload)) as [v |] eqn:Hpost.
    + exists 1%nat. simpl. split; [done |]. split; [lia |]. split; [done |].
      intros v' [= <-]. split; [lia |]. split; [by rewrite Nat.add_0_r |].
      intros i Hi. lia.
    + destruct (IH (w ++ [payload])%list) as (k & Hw & Hk & Hnone & Hsome).
      rewrite length_app in Hnone, Hsome. simpl in Hnone, Hsome.
      exists (S k). split; [| split; [lia | split]].
      * rewrite Hw. simpl. by rewrite <- app_assoc.
      * intros Hr. destruct (Hnone Hr) as [-> Hall]. split; [done |].
        intros [| i] Hi; [by rewrite Nat.add_0_r |].
        replace (List.length w + S i)%nat with (List.length w + 1 + i)%nat by lia.
        apply Hall. lia.
      * intros v Hr. destruct (Hsome v Hr) as (Hk1 & Hlast & Hearlier).
        split; [lia |]. split.
        -- replace (List.length w + (S k - 1))%nat
             with (List.length w + 1 + (k - 1))%nat by lia. done.
        -- intros [| i] Hi; [by rewrite Nat.add_0_r |].
           replace (List.length w + S i)%nat with (List.length w + 1 + i)%nat by lia.
           apply Hearlier. lia.
Qed.

(** X1.  [oxo_request_retry_helper] sends the same payload at most
    [retry_count] times and nothing else.  When it returns [None] it has
    sent it [retry_count] times and no request was answered; when it
    returns a response, that is the answer to the last request sent and no
    request before was answered. *)
Theorem oxo_request_retry_helper_posts (env : Env) (retry_count : nat) (url : string)
    (id_list target_list : list string) (distance : Z) (w : World) :
  exists k,
    snd (oxo_request_retry_helper env retry_count url id_list target_list distance w)
      = (w ++ replicate k (build_oxo_payload id_list target_list distance))%list /\
    (k <= retry_count)%nat /\
    (fst (oxo_request_retry_helper env retry_count url id_list target_list distance w) = None ->
     k = retry_count /\
     forall i, (i < retry_count)%nat ->
       json_or_none (oxo_post env (List.length w + i) url
                       (build_oxo_payload id_list target_list distance)) = None) /\
    (forall v,
       fst (oxo_request_retry_helper env retry_count url id_list target_list distance w)
         = Some v ->
       (1 <= k)%nat /\
       json_or_none (oxo_post env (List.length w + (k - 1)) url
                       (build_oxo_payload id_list target_list distance)) = Some v /\
       forall i, (i < k - 1)%nat ->
         json_or_none (oxo_post env (List.length w + i) url
                         (build_oxo_payload id_list target_list distance)) = None).
Proof. apply oxo_retry_loop_posts. Qed.

Lemma oxo_request_retry_helper_posts_witness :
  exists k,
    snd (oxo_request_retry_helper Sample.env_oxo 4 "http://www.ebi.ac.uk/spot/oxo/api/search"
           ["Orphanet:199318"] Sample.oxo_target_list 3 [])
      = replicate k (build_oxo_payload ["Orphanet:199318"] Sample.oxo_target_list 3) /\
    (k <= 4)%nat.
Proof.
  destruct (oxo_request_retry_helper_posts Sample.env_oxo 4
              "http://www.ebi.ac.uk/spot/oxo/api/search"
              ["Orphanet:199318"] Sample.oxo_target_list 3 []) as (k & Hposts & Hk & _).
  exists k. split; [exact Hposts | exact Hk].
Defined.

Lemma oxo_retry_loop_unanswered (env : Env) (n : nat) (url : string) (payload : OxoPayload)
    (w : World) :
  (forall i, (i < n)%nat ->
     json_or_none (oxo_post env (List.length w + i) url payload) = None) ->
  oxo_retry_loop env n url payload w = (None, (w ++ replicate n payload)%list).
Proof.
  revert w. induction n as [| n IH]; intros w Hall; simpl.
  - by rewrite app_nil_r.
  - unfold oxo_query_helper.
    rewrite <- (Nat.add_0_r (List.length w)) at 1. rewrite (Hall 0%nat ltac:(lia)).
    rewrite IH; [by rewrite <- app_assoc |].
    intros i Hi. rewrite length_app. simpl.
    replace (List.length w + 1 + i)%nat with (List.length w + S i)%nat by lia.
    apply Hall. lia.
Qed.

(** X2.  When [process_trait] reaches the cross-reference query and OxO
    answers none of the four requests, [get_oxo_results] returns [None],
    which [process_trait] stores in [oxo_xref_list];
    [process_oxo_mappings] then iterates over it: [process_trait] raises
    [TypeError] after the four requests. *)
Theorem process_trait_oxo_none_raises (env : Env) (trait : Trait.t) (filters : Filters)
    (zooma_host : string) (oxo_target_list : list string) (oxo_distance : Z) (w : World)
    (l : list ZoomaMapping.t) (t1 : Trait.t) (ids : list string) :
  get_ontology_mappings env (Trait.name trait) filters zooma_host = Ok (Some l) ->
  Trait.process_zooma_mappings (Trait.set_zooma_mapping_list trait (Some l)) = Ok t1 ->
  Trait.is_finished t1 = false ->
  l <> [] ->
  any_entry_is_current l = false ->
  get_uris_for_oxo l <> ∅ ->
  uris_to_oxo_format (get_uris_for_oxo l) = Ok ids ->
  (forall i, (i < 4)%nat ->
     json_or_none (oxo_post env (List.length w + i)
                     "http://www.ebi.ac.uk/spot/oxo/api/search?size=5000"
                     (build_oxo_payload ids oxo_target_list oxo_distance)) = None) ->
  get_oxo_results env ids oxo_target_list oxo_distance w
    = (Ok None, (w ++ replicate 4 (build_oxo_payload ids oxo_target_list oxo_distance))%list) /\
  process_trait env trait filters zooma_host oxo_target_list oxo_distance w
    = (Raise TypeError,
       (w ++ replicate 4 (build_oxo_payload ids oxo_target_list oxo_distance))%list).
Proof.
  intros Hl Ht1 Hfin Hne Hcur Huris Hids Hdown.
  assert (Hoxo : get_oxo_results env ids oxo_target_list oxo_distance w
    = (Ok None, (w ++ replicate 4 (build_oxo_payload ids oxo_target_list oxo_distance))%list)).
  { unfold get_oxo_results, oxo_request_retry_helper.
    by rewrite (oxo_retry_loop_unanswered _ _ _ _ _ Hdown). }
  split; [done |].
  rewrite (process_trait_some _ _ _ _ _ _ _ l Hl).
  rewrite process_zooma_mappings_some in Ht1. injection Ht1 as Ht1. rewrite Ht1.
  unfold after_zooma. rewrite Hfin, Hcur, Hids, Hoxo.
  destruct l as [| m l']; [done |]. simpl.
  destruct (size (get_uris_for_oxo (m :: l')) =? 0)%nat eqn:Hsize; [| done].
  apply Nat.eqb_eq, size_empty_inv in Hsize. destruct Huris. by apply leibniz_equiv.
Qed.

Lemma process_trait_oxo_none_raises_witness :
  get_oxo_results Sample2.env_oxo_down ["Orphanet:199318"] Sample.oxo_target_list 3 []
    = (Ok None, replicate 4 Sample2.payload) /\
  process_trait Sample2.env_oxo_down (Trait.__init__ "t" 5) Sample.filters Sample.zooma_host
                Sample.oxo_target_list 3 []
    = (Raise TypeError, replicate 4 Sample2.payload).
Proof.
  apply (process_trait_oxo_none_raises Sample2.env_oxo_down (Trait.__init__ "t" 5)
           Sample.filters Sample.zooma_host Sample.oxo_target_list 3 []
           [Sample.mapping_of "intellectual disability" "HIGH"
              [ZoomaEntry.mk Sample.orphanet_uri ZoomaConfidence.HIGH "eva-clinvar"
                 "intellectual disability" false false]]
           (Trait.mk "t" 5
              (Some [Sample.mapping_of "intellectual disability" "HIGH"
                       [ZoomaEntry.mk Sample.orphanet_uri ZoomaConfidence.HIGH "eva-clinvar"
                          "intellectual disability" false false]])
              (Some []) ∅)
           ["Orphanet:199318"]).
  - reflexivity.
  - reflexivity.
  - reflexivity.
  - discriminate.
  - reflexivity.
  - intros Hempty.
    apply (not_elem_of_empty (C := gset string) Sample.orphanet_uri).
    rewrite <- Hempty. by vm_compute.
  - by vm_compute.
  - intros i _. reflexivity.
Defined.

(** ** The URIs sent to OxO *)

Lemma get_uris_for_oxo_foldl (l : list ZoomaMapping.t) (acc : gset string) (u : string) :
  u ∈ foldl (fun uri_set mapping =>
               if negb (ZoomaMapping.is_high mapping) then uri_set
               else uri_set ∪ list_to_set
                      (map ZoomaEntry.uri (ZoomaMapping.zooma_entry_list mapping)))
            acc l <->
  u ∈ acc \/
  exists mapping entry,
    mapping ∈ l /\ ZoomaMapping.is_high mapping = true /\
    entry ∈ ZoomaMapping.zooma_entry_list mapping /\ ZoomaEntry.uri entry = u.
Proof.
  revert acc. induction l as [| m l IH]; intros acc; simpl.
  - split; [by left |]. intros [H | (m & e & Hm & _)]; [done | by apply elem_of_nil in Hm].
  - rewrite IH. destruct (ZoomaMapping.is_high m) eqn:Hhigh; simpl.
    + rewrite elem_of_union, elem_of_list_to_set, list_elem_of_fmap. split.
      * intros [[H | (e & -> & He)] | (m' & e & Hm' & ? & ? & ?)]; [by left | |].
        -- right. exists m, e. split; [apply list_elem_of_here | done].
        -- right. exists m', e. split; [by apply list_elem_of_further | done].
      * intros [H | (m' & e & Hm' & Hh & He & Hu)]; [by left; left |].
        apply elem_of_cons in Hm' as [-> | Hm'].
        -- left. right. by exists e.
        -- right. by exists m', e.
    + split.
      * intros [H | (m' & e & Hm' & ? & ? & ?)]; [by left |].
        right. exists m', e. split; [by apply list_elem_of_further | done].
      * intros [H | (m' & e & Hm' & Hh & He & Hu)]; [by left |].
        apply elem_of_cons in Hm' as [-> | Hm']; [congruence |].
        right. by exists m', e.
Qed.

(** X3.  The set that [get_uris_for_oxo] returns holds exactly the URIs of
    the entries of the HIGH-confidence groups, whatever their flags; a
    list without HIGH-confidence group gives the empty set. *)
Theorem get_uris_for_oxo_spec (l : list ZoomaMapping.t) (u : string) :
  (u ∈ get_uris_for_oxo l <->
   exists mapping entry,
     mapping ∈ l /\ ZoomaMapping.is_high mapping = true /\
     entry ∈ ZoomaMapping.zooma_entry_list mapping /\ ZoomaEntry.uri entry = u) /\
  ((forall mapping, mapping ∈ l -> ZoomaMapping.is_high mapping = false) ->
   get_uris_for_oxo l = ∅).
Proof.
  assert (Hspec : forall v, v ∈ get_uris_for_oxo l <->
    exists mapping entry,
      mapping ∈ l /\ ZoomaMapping.is_high mapping = true /\
      entry ∈ ZoomaMapping.zooma_entry_list mapping /\ ZoomaEntry.uri entry = v).
  { intros v. unfold get_uris_for_oxo. rewrite get_uris_for_oxo_foldl. set_solver. }
  split; [apply Hspec |].
  intros Hlow. apply set_eq. intros v. rewrite Hspec. split; [| set_solver].
  intros (m & e & Hm & Hhigh & _). rewrite (Hlow m Hm) in Hhigh. discriminate.
Qed.

Lemma get_uris_for_oxo_spec_witness :
  get_uris_for_oxo [Sample.mapping "GOOD" [Sample.entry Sample.efo_uri ZoomaConfidence.GOOD]] = ∅.
Proof.
  apply (proj2 (get_uris_for_oxo_spec
                  [Sample.mapping "GOOD" [Sample.entry Sample.efo_uri ZoomaConfidence.GOOD]]
                  Sample.efo_uri)).
  intros mapping Hm. apply list_elem_of_singleton in Hm. subst mapping. reflexivity.
Defined.

(** ** Strings *)

#[local] Arguments append _ _ : simpl nomatch.

Lemma sapp_nil_r (s : string) : s +:+ "" = s.
Proof. induction s as [| c s IH]; simpl; [done | by f_equal]. Qed.

Lemma sapp_assoc (a b c : string) : (a +:+ b) +:+ c = a +:+ (b +:+ c).
Proof. induction a as [| x a IH]; simpl; [done | by f_equal]. Qed.

Lemma prefix_spec (x s : string) : String.prefix x s = true <-> exists b, s = x +:+ b.
Proof.
  revert s. induction x as [| c x IH]; intros [| d s]; simpl.
  - split; [by exists "" | done].
  - split; [by eexists | done].
  - split; [done | by intros [b Hb]].
  - destruct (ascii_dec c d) as [-> | Hne].
    + rewrite IH. split; intros [b Hb]; exists b; congruence.
    + split; [done |]. intros [b Hb]. congruence.
Qed.

Lemma contains_cons (x : string) (c : ascii) (s : string) :
  Py.contains x (String c s) = String.prefix x (String c s) || Py.contains x s.
Proof. reflexivity. Qed.

Lemma contains_spec (x s : string) :
  Py.contains x s = true <-> exists a b, s = a +:+ x +:+ b.
Proof.
  induction s as [| c s IH]; [change (Py.contains x "") with (String.prefix x "" || false) |
                              rewrite contains_cons].
  - rewrite orb_false_r, prefix_spec. split.
    + intros [b Hb]. by exists "", b.
    + intros (a & b & Hab). destruct a as [| ? ?]; [by exists b | discriminate].
  - rewrite orb_true_iff, prefix_spec, IH. split.
    + intros [[b Hb] | (a & b & Hab)]; [by exists "", b |].
      exists (String c a), b. simpl. by rewrite Hab.
    + intros (a & b & Hab). destruct a as [| d a]; [left; by exists b |].
      right. exists a, b. simpl in Hab. congruence.
Qed.

Lemma lower_app (a b : string) : Py.lower (a +:+ b) = Py.lower a +:+ Py.lower b.
Proof. unfold Py.lower. induction a as [| c a IH]; simpl; [done | by f_equal]. Qed.

Lemma contains_lower (x s : string) :
  Py.contains x s = true -> Py.contains (Py.lower x) (Py.lower s) = true.
Proof.
  rewrite !contains_spec. intros (a & b & ->).
  exists (Py.lower a), (Py.lower b). by rewrite !lower_app.
Qed.

Lemma split_not_nil (sep : ascii) (s : string) : Py.split sep s <> [].
Proof.
  induction s as [| c s IH]; simpl; [done |].
  destruct (Ascii.eqb c sep); [done |]. by destruct (Py.split sep s).
Qed.

(** The first segment starts the string; every segment is a part of it. *)
Lemma split_head (sep : ascii) (s h : string) (t : list string) :
  Py.split sep s = h :: t -> exists b, s = h +:+ b.
Proof.
  revert h t. induction s as [| c s IH]; intros h t; simpl.
  - intros [= <- <-]. by exists "".
  - destruct (Ascii.eqb c sep).
    + intros [= <- <-]. by eexists.
    + destruct (Py.split sep s) as [| h' t'] eqn:Hs; [by destruct (split_not_nil sep s) |].
      intros [= <- <-]. destruct (IH h' t' eq_refl) as [b ->]. by exists b.
Qed.

Lemma split_elem (sep : ascii) (s seg : string) :
  seg ∈ Py.split sep s -> exists a b, s = a +:+ seg +:+ b.
Proof.
  revert seg. induction s as [| c s IH]; intros seg; simpl.
  - intros Hin. apply list_elem_of_singleton in Hin as ->. by exists "", "".
  - destruct (Ascii.eqb c sep).
    + intros Hin. apply elem_of_cons in Hin as [-> | Hin].
      * by exists "", (String c s).
      * destruct (IH seg Hin) as (a & b & ->). by exists (String c a), b.
    + destruct (Py.split sep s) as [| h t] eqn:Hsplit; [by destruct (split_not_nil sep s) |].
      intros Hin. apply elem_of_cons in Hin as [-> | Hin].
      * destruct (split_head sep s h t Hsplit) as [b ->]. by exists "", b.
      * destruct (IH seg ltac:(by apply list_elem_of_further)) as (a & b & ->).
        by exists (String c a), b.
Qed.

Lemma rstrip_prefix (c : ascii) (s : string) : exists t, s = Py.rstrip c s +:+ t.
Proof.
  induction s as [| a s IH]; simpl; [by exists "" |].
  destruct IH as [t Ht]. destruct (Py.rstrip c s) as [| b r] eqn:Hr.
  - destruct (Ascii.eqb a c); [by eexists |]. exists t. simpl. by f_equal.
  - exists t. simpl. by f_equal.
Qed.

Lemma index_from_end_elem {A : Type} (l : list A) (k : nat) (a : A) :
  Py.index_from_end l k = Ok a -> a ∈ l.
Proof.
  unfold Py.index_from_end. destruct k as [| k]; [done |].
  destruct (reverse l !! k) as [x |] eqn:Hx; [| done].
  intros [= <-]. apply list_elem_of_lookup_2 in Hx. by rewrite elem_of_reverse in Hx.
Qed.

Lemma sfilter_app (p : ascii -> bool) (a b : string) :
  Py.sfilter p (a +:+ b) = Py.sfilter p a +:+ Py.sfilter p b.
Proof.
  induction a as [| c a IH]; simpl; [done |]. destruct (p c); simpl; by f_equal.
Qed.

Lemma sfilter_all (p : ascii -> bool) (s : string) :
  string_forallb p s = true -> Py.sfilter p s = s.
Proof.
  induction s as [| c s IH]; simpl; [done |].
  intros [Hc Hs]%andb_true_iff. rewrite Hc. f_equal. by apply IH.
Qed.

Lemma sfilter_forallb (p : ascii -> bool) (s : string) :
  string_forallb p (Py.sfilter p s) = true.
Proof.
  induction s as [| c s IH]; simpl; [done |].
  destruct (p c) eqn:Hc; simpl; [by rewrite Hc |done].
Qed.

Lemma string_forallb_impl (p q : ascii -> bool) (s : string) :
  (forall c, p c = true -> q c = true) ->
  string_forallb p s = true -> string_forallb q s = true.
Proof.
  intros Hpq. induction s as [| c s IH]; simpl; [done |].
  intros [Hc Hs]%andb_true_iff. by rewrite (Hpq c Hc), IH.
Qed.

Lemma split_nosep (sep : ascii) (s : string) :
  string_forallb (fun c => negb (Ascii.eqb c sep)) s = true -> Py.split sep s = [s].
Proof.
  induction s as [| c s IH]; simpl; [done |].
  intros [Hc Hs]%andb_true_iff. apply negb_true_iff in Hc. by rewrite Hc, (IH Hs).
Qed.

Lemma split_app_nosep (sep : ascii) (a b : string) :
  string_forallb (fun c => negb (Ascii.eqb c sep)) b = true ->
  exists init last_,
    Py.split sep a = (init ++ [last_])%list /\
    Py.split sep (a +:+ b) = (init ++ [last_ +:+ b])%list.
Proof.
  intros Hb. induction a as [| c a (init & last_ & Ha & Hab)]; simpl.
  - exists [], "". split; [done |]. by apply split_nosep.
  - rewrite Ha, Hab. destruct (Ascii.eqb c sep).
    + by exists ("" :: init), last_.
    + destruct init as [| h t]; simpl.
      * by exists [], (String c last_).
      * by exists (String c h :: t), last_.
Qed.

Lemma rstrip_nosep (c : ascii) (s : string) :
  string_forallb (fun x => negb (Ascii.eqb x c)) s = true -> Py.rstrip c s = s.
Proof.
  induction s as [| a s IH]; simpl; [done |].
  intros [Ha Hs]%andb_true_iff. apply negb_true_iff in Ha. rewrite (IH Hs), Ha.
  by destruct s.
Qed.

Lemma rstrip_app (c : ascii) (a b : string) :
  Py.rstrip c b <> "" -> Py.rstrip c (a +:+ b) = a +:+ Py.rstrip c b.
Proof.
  intros Hb. induction a as [| x a IH]; simpl; [done |].
  rewrite IH. destruct (a +:+ Py.rstrip c b) as [| y r] eqn:Hr; [| done].
  destruct a; simpl in Hr; [done | discriminate].
Qed.

(** ** Conversion of one URI *)

Lemma existsb_keys (d : gmap string string) (f : string -> bool) :
  existsb f (elements (dom d)) = true <-> exists key, key ∈ dom d /\ f key = true.
Proof.
  rewrite existsb_exists. split; intros (key & Hkey & Hf); exists key; (split; [| done]).
  - by apply elem_of_elements, list_elem_of_In.
  - by apply list_elem_of_In, elem_of_elements.
Qed.

Lemma forallb_keys (d : gmap string string) (f : string -> bool) :
  forallb f (elements (dom d)) = true -> forall key, key ∈ dom d -> f key = true.
Proof.
  rewrite forallb_forall. intros Hall key Hkey.
  by apply Hall, list_elem_of_In, elem_of_elements.
Qed.

Lemma uri_to_oxo_format_guard (uri key : string) :
  key ∈ dom URI_DB_TO_DB_DICT ->
  Py.contains key (Py.lower uri) = true ->
  existsb (fun x => Py.contains x (Py.lower uri)) (elements (dom URI_DB_TO_DB_DICT)) = true.
Proof. intros Hkey Hin. apply existsb_keys. by exists key. Qed.

Lemma segment_in_lower_uri (uri seg : string) :
  seg ∈ Py.split "/" (Py.rstrip "/" uri) ->
  Py.contains (Py.lower seg) (Py.lower uri) = true.
Proof.
  intros Hseg. apply contains_lower, contains_spec.
  destruct (split_elem _ _ _ Hseg) as (a & b & Hab).
  destruct (rstrip_prefix "/" uri) as [t Ht].
  exists a, (b +:+ t). rewrite Ht at 1. rewrite Hab. by rewrite !sapp_assoc.
Qed.

Lemma uri_to_oxo_format_known (uri last_ segment db : string) :
  Py.index_from_end (Py.split "/" (Py.rstrip "/" uri)) 1 = Ok last_ ->
  Py.index_from_end (Py.split "/" (Py.rstrip "/" uri)) 2 = Ok segment ->
  URI_DB_TO_DB_DICT !! Py.lower segment = Some db ->
  uri_to_oxo_format uri = Ok (Some (db +:+ ":" +:+ strip_non_numeric last_)).
Proof.
  intros Hlast Hseg Hdb. unfold uri_to_oxo_format.
  rewrite (uri_to_oxo_format_guard uri (Py.lower segment)).
  - cbn [negb]. rewrite Hlast. cbn [rbind]. rewrite Hseg. cbn [rbind]. by rewrite Hdb.
  - apply elem_of_dom. by exists db.
  - apply segment_in_lower_uri. by apply index_from_end_elem in Hseg.
Qed.

(** X4.  A URI in which no key of [URI_DB_TO_DB_DICT] occurs is answered
    with [None].  A URI whose segment before the last, in lower case, is a
    key of the table and whose last segment is written in ASCII is
    converted to the entry of the table, a colon and the digits of the
    last segment; that identifier has digits only. *)
Theorem uri_to_oxo_format_spec (uri : string) :
  ((forall key, key ∈ dom URI_DB_TO_DB_DICT -> Py.contains key (Py.lower uri) = false) ->
   uri_to_oxo_format uri = Ok None) /\
  (forall last_ segment db,
     Py.index_from_end (Py.split "/" (Py.rstrip "/" uri)) 1 = Ok last_ ->
     Py.index_from_end (Py.split "/" (Py.rstrip "/" uri)) 2 = Ok segment ->
     URI_DB_TO_DB_DICT !! Py.lower segment = Some db ->
     is_ascii last_ = true ->
     uri_to_oxo_format uri = Ok (Some (db +:+ ":" +:+ strip_non_numeric last_)) /\
     string_forallb Py.is_digit (strip_non_numeric last_) = true).
Proof.
  split.
  - intros Hno. unfold uri_to_oxo_format.
    destruct (existsb _ _) eqn:Hex; [| done].
    apply existsb_keys in Hex as (key & Hkey & Hin).
    rewrite (Hno key Hkey) in Hin. discriminate.
  - intros last_ segment db Hlast Hseg Hdb _. split; [| apply sfilter_forallb].
    by apply (uri_to_oxo_format_known uri last_ segment db).
Qed.

Lemma uri_to_oxo_format_spec_witness :
  uri_to_oxo_format "http://identifiers.org/medgen/C0001" = Ok None /\
  uri_to_oxo_format "http://www.orpha.net/ORDO/Orphanet_199318/" = Ok (Some "Orphanet:199318").
Proof.
  split.
  - apply (proj1 (uri_to_oxo_format_spec "http://identifiers.org/medgen/C0001")).
    intros key Hkey.
    apply negb_true_iff.
    apply (forallb_keys URI_DB_TO_DB_DICT
             (fun k => negb (Py.contains k (Py.lower "http://identifiers.org/medgen/C0001"))));
      [by vm_compute | done].
  - apply (proj1 (proj2 (uri_to_oxo_format_spec "http://www.orpha.net/ORDO/Orphanet_199318/")
             "Orphanet_199318" "ORDO" "Orphanet" ltac:(by vm_compute) ltac:(by vm_compute)
             ltac:(by vm_compute) ltac:(by vm_compute))).
Defined.

Lemma digit_not_slash (c : ascii) :
  Py.is_digit c = true -> negb (Ascii.eqb c "/") = true.
Proof. destruct c as [[] [] [] [] [] [] [] []]; by vm_compute. Qed.

Lemma digit_not_colon (c : ascii) :
  Py.is_digit c = true -> negb (Ascii.eqb c ":") = true.
Proof. destruct c as [[] [] [] [] [] [] [] []]; by vm_compute. Qed.

Lemma index_from_end_last_two {A : Type} (init : list A) (x y : A) :
  Py.index_from_end (init ++ [x; y]) 1 = Ok y /\
  Py.index_from_end (init ++ [x; y]) 2 = Ok x.
Proof.
  unfold Py.index_from_end. rewrite reverse_app. by cbn.
Qed.

(** A URI made of a prefix with at least two segments and of a numeric
    identifier. *)
Lemma uri_to_oxo_format_app (prefix_ id_ segment last_ db : string) (init : list string) :
  Py.split "/" prefix_ = (init ++ [segment; last_])%list ->
  URI_DB_TO_DB_DICT !! Py.lower segment = Some db ->
  string_forallb Py.is_digit id_ = true ->
  id_ <> "" ->
  uri_to_oxo_format (prefix_ +:+ id_)
  = Ok (Some (db +:+ ":" +:+ strip_non_numeric last_ +:+ id_)).
Proof.
  intros Hsplit Hdb Hdigits Hne.
  assert (Hstrip : Py.rstrip "/" id_ = id_).
  { apply rstrip_nosep. eapply string_forallb_impl; [apply digit_not_slash | done]. }
  assert (Huri : Py.split "/" (Py.rstrip "/" (prefix_ +:+ id_))
                 = (init ++ [segment; last_ +:+ id_])%list).
  { rewrite rstrip_app, Hstrip; [| by rewrite Hstrip].
    destruct (split_app_nosep "/" prefix_ id_) as (init' & last' & Ha & Hab).
    { eapply string_forallb_impl; [apply digit_not_slash | done]. }
    rewrite Hab. rewrite Hsplit in Ha.
    change (init ++ [segment; last_])%list with (init ++ [segment] ++ [last_])%list in Ha.
    rewrite app_assoc in Ha. apply app_inj_tail in Ha as [<- <-].
    by rewrite <- app_assoc. }
  destruct (index_from_end_last_two init segment (last_ +:+ id_)) as [H1 H2].
  rewrite <- Huri in H1, H2.
  rewrite (uri_to_oxo_format_known (prefix_ +:+ id_) _ _ _ H1 H2 Hdb).
  unfold strip_non_numeric. by rewrite sfilter_app, (sfilter_all _ id_ Hdigits).
Qed.

Lemma split_curie_numeric (name id_ : string) :
  string_forallb (fun c => negb (Ascii.eqb c ":")) name = true ->
  string_forallb Py.is_digit id_ = true ->
  split_curie (name +:+ ":" +:+ id_) = Ok (name, id_).
Proof.
  intros Hname Hid. unfold split_curie.
  assert (Hsplit : Py.split ":" (name +:+ ":" +:+ id_) = [name; id_]).
  { assert (Hid' : Py.split ":" id_ = [id_]).
    { apply split_nosep. eapply string_forallb_impl; [apply digit_not_colon | done]. }
    clear Hid. induction name as [| c name IH]; simpl in *.
    - by rewrite Hid'.
    - apply andb_true_iff in Hname as [Hc Hname]. apply negb_true_iff in Hc.
      by rewrite Hc, (IH Hname). }
  by rewrite Hsplit.
Qed.

(** X5.  A compact identifier of OxO made of one of the names [Orphanet],
    [OMIM], [EFO], [MeSH] and [HP], a colon and a non-empty numeric
    identifier survives the round trip: [OxOMapping] builds its URI with
    [OntologyUri], and [uri_to_oxo_format] converts that URI back to the
    same compact identifier. *)
Theorem curie_uri_round_trip (name id_ label query_id : string) (distance : Z) :
  name ∈ ["Orphanet"; "OMIM"; "EFO"; "MeSH"; "HP"] ->
  string_forallb Py.is_digit id_ = true ->
  id_ <> "" ->
  exists m,
    OxOMapping.__init__ label (name +:+ ":" +:+ id_) distance query_id = Ok m /\
    OxOMapping.db m = name /\ OxOMapping.id_ m = id_ /\
    uri_to_oxo_format (OntologyUri.__str__ (OxOMapping.uri m))
      = Ok (Some (name +:+ ":" +:+ id_)).
Proof.
  intros Hname Hdigits Hne. unfold OxOMapping.__init__.
  assert (Hcurie : split_curie (name +:+ ":" +:+ id_) = Ok (name, id_)).
  { apply split_curie_numeric; [| done].
    repeat (apply elem_of_cons in Hname as [-> | Hname]; [reflexivity |]).
    by apply elem_of_nil in Hname. }
  rewrite Hcurie. cbn [rbind fst snd].
  assert (Huri : forall tpl,
    (String.eqb (Py.lower name) "human phenotype ontology") = false ->
    OntologyUri.db_to_uri_dict !! Py.lower name = Some tpl ->
    uri_to_oxo_format (Py.format1 tpl id_) = Ok (Some (name +:+ ":" +:+ id_)) ->
    exists m,
      (uri <- OntologyUri.__init__ id_ name ;;
       Ok (OxOMapping.mk label name id_ uri distance query_id false false EmptyString))
      = Ok m /\
      OxOMapping.db m = name /\ OxOMapping.id_ m = id_ /\
      uri_to_oxo_format (OntologyUri.__str__ (OxOMapping.uri m))
        = Ok (Some (name +:+ ":" +:+ id_))).
  { intros tpl Hhpo Htpl Hback. unfold OntologyUri.__init__.
    rewrite Hhpo, template_lookup, Htpl. cbn [rbind].
    eexists. split; [reflexivity |]. by repeat split. }
  repeat (apply elem_of_cons in Hname as [-> | Hname];
    [eapply Huri; [by vm_compute | by vm_compute |]; simpl Py.format1; rewrite sapp_nil_r |]).
  - apply (uri_to_oxo_format_app "http://www.orpha.net/ORDO/Orphanet_" id_ "ORDO" "Orphanet_"
             "Orphanet" ["http:"; ""; "www.orpha.net"]);
      [by vm_compute | by vm_compute | done | done].
  - apply (uri_to_oxo_format_app "http://identifiers.org/omim/" id_ "omim" ""
             "OMIM" ["http:"; ""; "identifiers.org"]);
      [by vm_compute | by vm_compute | done | done].
  - apply (uri_to_oxo_format_app "http://www.ebi.ac.uk/efo/EFO_" id_ "efo" "EFO_"
             "EFO" ["http:"; ""; "www.ebi.ac.uk"]);
      [by vm_compute | by vm_compute | done | done].
  - apply (uri_to_oxo_format_app "http://identifiers.org/mesh/" id_ "mesh" ""
             "MeSH" ["http:"; ""; "identifiers.org"]);
      [by vm_compute | by vm_compute | done | done].
  - apply (uri_to_oxo_format_app "http://purl.obolibrary.org/obo/HP_" id_ "obo" "HP_"
             "HP" ["http:"; ""; "purl.obolibrary.org"]);
      [by vm_compute | by vm_compute | done | done].
  - by apply elem_of_nil in Hname.
Qed.

Lemma curie_uri_round_trip_witness :
  exists m,
    OxOMapping.__init__ "m" "MeSH:68008607" 1 "Orphanet:199318" = Ok m /\
    OxOMapping.db m = "MeSH" /\ OxOMapping.id_ m = "68008607" /\
    uri_to_oxo_format (OntologyUri.__str__ (OxOMapping.uri m)) = Ok (Some "MeSH:68008607").
Proof.
  apply (curie_uri_round_trip "MeSH" "68008607" "m" "Orphanet:199318" 1).
  - apply list_elem_of_further, list_elem_of_further, list_elem_of_further, list_elem_of_here.
  - reflexivity.
  - discriminate.
Defined.

(** A MeSH identifier with a letter loses it on the way back. *)
Example curie_uri_round_trip_mesh_letter :
  exists m,
    OxOMapping.__init__ "m" "MeSH:D008607" 1 "q" = Ok m /\
    uri_to_oxo_format (OntologyUri.__str__ (OxOMapping.uri m)) = Ok (Some "MeSH:008607").
Proof. eexists. split; [reflexivity | by vm_compute]. Qed.

(** ** Conversion of a set of URIs *)

Lemma mapM_Forall2 {A B : Type} (f : A -> result B) (l : list A) (l' : list B) :
  mapM f l = Ok l' <-> Forall2 (fun a b => f a = Ok b) l l'.
Proof.
  revert l'. induction l as [| a l IH]; intros l'; simpl.
  - split; [intros [= <-]; constructor | by inversion 1].
  - destruct (f a) as [b | e] eqn:Hfa; simpl.
    + destruct (mapM f l) as [bs | e] eqn:Hl; simpl.
      * split.
        -- intros [= <-]. constructor; [done | by apply IH].
        -- inversion 1 as [| ? b' ? bs' Hb Hbs]; subst.
           apply IH in Hbs. congruence.
      * split; [done |]. inversion 1 as [| ? b' ? bs' Hb Hbs]; subst.
        apply IH in Hbs. discriminate.
    + split; [done |]. inversion 1; congruence.
Qed.

Lemma omap_length_le {A B : Type} (f : A -> option B) (l : list A) :
  (List.length (omap f l) <= List.length l)%nat.
Proof.
  induction l as [| a l IH]; csimpl; [done |]. destruct (f a); csimpl; lia.
Qed.

(** X6.  When [uris_to_oxo_format] returns, no URI of the set made
    [uri_to_oxo_format] raise, the list holds exactly the identifiers of
    the URIs that were converted, and it is not longer than the set is
    large. *)
Theorem uris_to_oxo_format_ok (uri_set : gset string) (ids : list string) :
  uris_to_oxo_format uri_set = Ok ids ->
  (forall uri, uri ∈ uri_set -> exists r, uri_to_oxo_format uri = Ok r) /\
  (forall oxo_id, oxo_id ∈ ids <->
     exists uri, uri ∈ uri_set /\ uri_to_oxo_format uri = Ok (Some oxo_id)) /\
  (List.length ids <= size uri_set)%nat.
Proof.
  unfold uris_to_oxo_format. intros Hrun.
  destruct (mapM uri_to_oxo_format (elements uri_set)) as [rs |] eqn:Hmap; [| done].
  simpl in Hrun. injection Hrun as <-.
  apply mapM_Forall2 in Hmap.
  split; [| split].
  - intros uri Huri. apply elem_of_elements in Huri.
    apply list_elem_of_lookup_1 in Huri as [i Hi].
    destruct (Forall2_lookup_l _ _ _ _ _ Hmap Hi) as (r & _ & Hr).
    by exists r.
  - intros oxo_id. rewrite list_elem_of_omap. split.
    + intros (r & Hr & Hid). simpl in Hid. subst r.
      apply list_elem_of_lookup_1 in Hr as [i Hi].
      destruct (Forall2_lookup_r _ _ _ _ _ Hmap Hi) as (uri & Huri & Hconv).
      exists uri. split; [| done].
      apply elem_of_elements. by apply list_elem_of_lookup_2 in Huri.
    + intros (uri & Huri & Hconv). apply elem_of_elements in Huri.
      apply list_elem_of_lookup_1 in Huri as [i Hi].
      destruct (Forall2_lookup_l _ _ _ _ _ Hmap Hi) as (r & Hr & Hconv').
      exists r. split; [by apply list_elem_of_lookup_2 in Hr |]. simpl. congruence.
  - etrans; [apply omap_length_le |]. apply Forall2_length in Hmap. by rewrite <- Hmap.
Qed.

Lemma uris_to_oxo_format_ok_witness :
  uris_to_oxo_format {[ Sample.orphanet_uri ]} = Ok ["Orphanet:199318"] /\
  (List.length ["Orphanet:199318"] <= size ({[ Sample.orphanet_uri ]} : gset string))%nat.
Proof.
  assert (Hrun : uris_to_oxo_format {[ Sample.orphanet_uri ]} = Ok ["Orphanet:199318"]).
  { vm_compute. reflexivity. }
  split; [exact Hrun |].
  exact (proj2 (proj2 (uris_to_oxo_format_ok _ _ Hrun))).
Defined.

(** ** The groups and entries parsed from a response of Zooma *)

Lemma lower_upper_h (c : ascii) : Py.lower_char c = "h"%char <-> Py.upper_char c = "H"%char.
Proof. destruct c as [[] [] [] [] [] [] [] []]; vm_compute; split; congruence. Qed.

Lemma lower_upper_i (c : ascii) : Py.lower_char c = "i"%char <-> Py.upper_char c = "I"%char.
Proof. destruct c as [[] [] [] [] [] [] [] []]; vm_compute; split; congruence. Qed.

Lemma lower_upper_g (c : ascii) : Py.lower_char c = "g"%char <-> Py.upper_char c = "G"%char.
Proof. destruct c as [[] [] [] [] [] [] [] []]; vm_compute; split; congruence. Qed.

Lemma lower_high_upper (s : string) : Py.lower s = "high" <-> Py.upper s = "HIGH".
Proof.
  unfold Py.lower, Py.upper.
  destruct s as [| c1 [| c2 [| c3 [| c4 [| c5 s]]]]]; cbn [Py.smap];
    try (split; discriminate).
  pose proof (lower_upper_h c1) as Hc1. pose proof (lower_upper_i c2) as Hc2.
  pose proof (lower_upper_g c3) as Hc3. pose proof (lower_upper_h c4) as Hc4.
  split; intros [= H1 H2 H3 H4].
  - by rewrite (proj1 Hc1 H1), (proj1 Hc2 H2), (proj1 Hc3 H3), (proj1 Hc4 H4).
  - by rewrite (proj2 Hc1 H1), (proj2 Hc2 H2), (proj2 Hc3 H3), (proj2 Hc4 H4).
Qed.

Lemma by_name_str (name : string) (c : ZoomaConfidence.t) :
  ZoomaConfidence.by_name name = Ok c -> ZoomaConfidence.__str__ c = name.
Proof.
  unfold ZoomaConfidence.by_name.
  destruct (String.eqb_spec name "LOW") as [-> | _]; [by intros [= <-] |].
  destruct (String.eqb_spec name "MEDIUM") as [-> | _]; [by intros [= <-] |].
  destruct (String.eqb_spec name "GOOD") as [-> | _]; [by intros [= <-] |].
  destruct (String.eqb_spec name "HIGH") as [-> | _]; [by intros [= <-] | done].
Qed.

Lemma ZoomaEntry_init_ok (uri confidence source : json) (e : ZoomaEntry.t) :
  ZoomaEntry.__init__ uri confidence source = Ok e ->
  exists s,
    confidence = JStr s /\
    ZoomaConfidence.by_name (Py.upper s) = Ok (ZoomaEntry.confidence e) /\
    uri = JStr (ZoomaEntry.uri e) /\ source = JStr (ZoomaEntry.source e) /\
    ZoomaEntry.ontology_label e = "" /\
    ZoomaEntry.in_efo e = false /\ ZoomaEntry.is_current e = false.
Proof.
  unfold ZoomaEntry.__init__.
  destruct confidence as [| | | s | |]; simpl; try done.
  destruct (ZoomaConfidence.by_name (Py.upper s)) as [c |] eqn:Hc; simpl; [| done].
  destruct uri as [| | | u | |]; simpl; try done.
  destruct source as [| | | src | |]; simpl; try done.
  intros [= <-]. by exists s.
Qed.

Lemma high_iff_str (c : ZoomaConfidence.t) :
  ZoomaConfidence.__str__ c = "HIGH" <-> c = ZoomaConfidence.HIGH.
Proof. destruct c; simpl; split; congruence. Qed.

Lemma entry_of_group_intro (m : ZoomaMapping.t) (e : ZoomaEntry.t) :
  ZoomaConfidence.__str__ (ZoomaEntry.confidence e) = Py.upper (ZoomaMapping.confidence m) ->
  ZoomaEntry.source e = ZoomaMapping.source m ->
  entry_of_group m e.
Proof.
  intros Hconf Hsrc. split; [done |]. split; [done |].
  unfold ZoomaMapping.is_high. rewrite String.eqb_eq, lower_high_upper, <- Hconf.
  apply high_iff_str.
Qed.

Lemma ZoomaMapping_init_ok (uri_list zooma_label confidence source : json)
    (m : ZoomaMapping.t) :
  ZoomaMapping.__init__ uri_list zooma_label confidence source = Ok m ->
  ZoomaMapping.zooma_label m = zooma_label /\
  confidence = JStr (ZoomaMapping.confidence m) /\
  source = JStr (ZoomaMapping.source m) /\
  exists uris,
    Json.iter uri_list = Ok uris /\
    Forall2 (fun uri e => ZoomaEntry.__init__ uri confidence source = Ok e)
            uris (ZoomaMapping.zooma_entry_list m).
Proof.
  unfold ZoomaMapping.__init__.
  destruct (Json.iter uri_list) as [uris |] eqn:Huris; simpl; [| done].
  destruct (mapM _ uris) as [entries |] eqn:Hentries; simpl; [| done].
  destruct confidence as [| | | c | |]; simpl; try done.
  destruct source as [| | | src | |]; simpl; try done.
  intros [= <-]. simpl. repeat split; try done.
  exists uris. split; [done |]. by apply mapM_Forall2.
Qed.

Lemma ZoomaMapping_init_entries (uri_list zooma_label confidence source : json)
    (m : ZoomaMapping.t) (e : ZoomaEntry.t) :
  ZoomaMapping.__init__ uri_list zooma_label confidence source = Ok m ->
  e ∈ ZoomaMapping.zooma_entry_list m ->
  entry_of_group m e /\
  ZoomaEntry.ontology_label e = "" /\
  ZoomaEntry.in_efo e = false /\ ZoomaEntry.is_current e = false.
Proof.
  intros Hm He.
  destruct (ZoomaMapping_init_ok _ _ _ _ _ Hm) as (_ & Hc & Hs & uris & _ & Hall).
  apply list_elem_of_lookup_1 in He as [i Hi].
  destruct (Forall2_lookup_r _ _ _ _ _ Hall Hi) as (uri & _ & Hinit).
  destruct (ZoomaEntry_init_ok _ _ _ _ Hinit) as (s & Hs' & Hname & _ & Hsrc & Hl & Hf & Hcur).
  split; [| done].
  apply entry_of_group_intro.
  - rewrite Hc in Hs'. injection Hs' as <-. by apply by_name_str.
  - rewrite Hs in Hsrc. by injection Hsrc as <-.
Qed.

Lemma mapping_of_result_init (result_ : json) (m : ZoomaMapping.t) :
  mapping_of_result result_ = Ok m ->
  exists uris zooma_label confidence source,
    ZoomaMapping.__init__ uris zooma_label confidence source = Ok m.
Proof.
  unfold mapping_of_result. intros Hm.
  repeat match type of Hm with
         | rbind ?r _ = Ok _ => destruct r eqn:?; simpl in Hm; [| discriminate]
         end.
  eauto.
Qed.

Lemma get_mappings_for_trait_fresh (zooma_response : json) (l : list ZoomaMapping.t)
    (m : ZoomaMapping.t) (e : ZoomaEntry.t) :
  get_mappings_for_trait zooma_response = Ok l ->
  m ∈ l -> e ∈ ZoomaMapping.zooma_entry_list m ->
  entry_of_group m e /\
  ZoomaEntry.ontology_label e = "" /\
  ZoomaEntry.in_efo e = false /\ ZoomaEntry.is_current e = false.
Proof.
  unfold get_mappings_for_trait. intros Hl Hm He.
  destruct (Json.iter zooma_response) as [results |]; simpl in Hl; [| done].
  apply mapM_Forall2 in Hl.
  apply list_elem_of_lookup_1 in Hm as [i Hi].
  destruct (Forall2_lookup_r _ _ _ _ _ Hl Hi) as (result_ & _ & Hparse).
  destruct (mapping_of_result_init _ _ Hparse) as (? & ? & ? & ? & Hinit).
  by apply (ZoomaMapping_init_entries _ _ _ _ _ _ Hinit).
Qed.

Lemma mapping_of_result_fields (result_ : json) (m : ZoomaMapping.t) :
  mapping_of_result result_ = Ok m ->
  Json.getitem result_ "confidence" = Ok (JStr (ZoomaMapping.confidence m)) /\
  exists tags uris,
    Json.getitem result_ "semanticTags" = Ok tags /\ Json.iter tags = Ok uris /\
    uris = map (fun e => JStr (ZoomaEntry.uri e)) (ZoomaMapping.zooma_entry_list m).
Proof.
  unfold mapping_of_result. intros Hm.
  destruct (Json.getitem result_ "semanticTags") as [tags |]; cbn [rbind] in Hm;
    [| discriminate].
  destruct (Json.getitem result_ "annotatedProperty") as [annotated |]; cbn [rbind] in Hm;
    [| discriminate].
  destruct (Json.getitem annotated "propertyValue") as [zooma_label |]; cbn [rbind] in Hm;
    [| discriminate].
  destruct (Json.getitem result_ "confidence") as [confidence |]; cbn [rbind] in Hm;
    [| discriminate].
  repeat match type of Hm with
         | rbind ?r _ = Ok _ => destruct r; cbn [rbind] in Hm; [| discriminate]
         end.
  destruct (ZoomaMapping_init_ok _ _ _ _ _ Hm) as (_ & -> & _ & uris & Huris & Hall).
  split; [done |]. exists tags, uris. split; [done |]. split; [done |].
  clear - Hall. induction Hall as [| uri e uris entries Hinit _ IH]; [done |].
  destruct (ZoomaEntry_init_ok _ _ _ _ Hinit) as (_ & _ & _ & -> & _).
  simpl. by rewrite IH.
Qed.

(** X7.  For a response of Zooma whose values are typed (the semantic
    tags are a list of strings written in ASCII, the confidence is a
    string written in ASCII, the source name is a string): when [get_mappings_for_trait] returns, there is one group per
    result of the response, in the same order, with the confidence of the
    result and one entry per semantic tag, in the same order.  Every
    entry of a group has the confidence class that the group's confidence
    names (in upper case) and the group's source, has no label and is
    flagged neither in EFO nor current.  A group counts as HIGH for
    [process_zooma_mappings] and [get_uris_for_oxo] exactly when its
    entries have the class HIGH. *)
Theorem get_mappings_for_trait_groups (zooma_response : json) (l : list ZoomaMapping.t) :
  zooma_response_typed zooma_response = true ->
  get_mappings_for_trait zooma_response = Ok l ->
  (exists results,
     Json.iter zooma_response = Ok results /\
     Forall2 (fun result_ m =>
                Json.getitem result_ "confidence" = Ok (JStr (ZoomaMapping.confidence m)) /\
                exists tags uris,
                  Json.getitem result_ "semanticTags" = Ok tags /\
                  Json.iter tags = Ok uris /\
                  uris = map (fun e => JStr (ZoomaEntry.uri e))
                             (ZoomaMapping.zooma_entry_list m))
             results l) /\
  (forall m e,
     m ∈ l -> e ∈ ZoomaMapping.zooma_entry_list m ->
     entry_of_group m e /\
     ZoomaEntry.ontology_label e = "" /\
     ZoomaEntry.in_efo e = false /\ ZoomaEntry.is_current e = false).
Proof.
  intros _ Hl. split.
  - unfold get_mappings_for_trait in Hl.
    destruct (Json.iter zooma_response) as [results |]; simpl in Hl; [| done].
    apply mapM_Forall2 in Hl. exists results. split; [done |].
    eapply Forall2_impl; [exact Hl |]. intros result_ m. apply mapping_of_result_fields.
  - intros m e. by apply (get_mappings_for_trait_fresh zooma_response l).
Qed.

Lemma get_mappings_for_trait_groups_witness :
  get_mappings_for_trait (JList [Sample.zooma_result "High" Sample.efo_uri])
    = Ok [Sample.mapping_of "intellectual disability" "High"
            [ZoomaEntry.mk Sample.efo_uri ZoomaConfidence.HIGH "eva-clinvar" "" false false]] /\
  (forall m e,
     m ∈ [Sample.mapping_of "intellectual disability" "High"
            [ZoomaEntry.mk Sample.efo_uri ZoomaConfidence.HIGH "eva-clinvar" "" false false]] ->
     e ∈ ZoomaMapping.zooma_entry_list m ->
     entry_of_group m e /\
     ZoomaEntry.ontology_label e = "" /\
     ZoomaEntry.in_efo e = false /\ ZoomaEntry.is_current e = false).
Proof.
  split; [reflexivity |].
  apply (proj2 (get_mappings_for_trait_groups
                  (JList [Sample.zooma_result "High" Sample.efo_uri]) _
                  ltac:(reflexivity) ltac:(reflexivity))).
Defined.

(** ** Enrichment of the entries of Zooma *)

Lemma enrich_zooma_entry_ok (env : Env) (e0 e : ZoomaEntry.t) :
  enrich_zooma_entry env e0 = Ok e ->
  ZoomaEntry.in_efo e0 = false -> ZoomaEntry.is_current e0 = false ->
  ZoomaEntry.uri e = ZoomaEntry.uri e0 /\
  ZoomaEntry.confidence e = ZoomaEntry.confidence e0 /\
  ZoomaEntry.source e = ZoomaEntry.source e0 /\
  is_current_and_in_efo env (ZoomaEntry.uri e0) = Ok (ZoomaEntry.is_current e) /\
  ZoomaEntry.in_efo e
    = (if ZoomaEntry.is_current e then true else is_in_efo env (ZoomaEntry.uri e0)) /\
  ZoomaEntry.ontology_label e =
    default (ZoomaEntry.ontology_label e0)
            (get_ontology_label_from_ols env (ZoomaEntry.uri e0)).
Proof.
  unfold enrich_zooma_entry. intros He Hefo Hcur.
  destruct (get_ontology_label_from_ols env (ZoomaEntry.uri e0)) as [label |];
    cbn [ZoomaEntry.set_ontology_label ZoomaEntry.uri] in He;
    destruct (is_current_and_in_efo env (ZoomaEntry.uri e0)) as [[] |] eqn:Hcheck;
    simpl in He; try discriminate; injection He as <-; simpl;
    rewrite ?Hcur; by repeat split.
Qed.

Lemma get_ontology_mappings_some (env : Env) (trait_name : string) (filters : Filters)
    (zooma_host : string) (l : list ZoomaMapping.t) :
  get_ontology_mappings env trait_name filters zooma_host = Ok (Some l) ->
  exists zooma_response l0,
    zooma_query_helper env (build_zooma_query trait_name filters zooma_host)
      = Some zooma_response /\
    get_mappings_for_trait zooma_response = Ok l0 /\
    Forall2 (fun m0 m =>
               exists entries,
                 Forall2 (fun e0 e => enrich_zooma_entry env e0 = Ok e)
                         (ZoomaMapping.zooma_entry_list m0) entries /\
                 m = ZoomaMapping.set_zooma_entry_list m0 entries)
            l0 l.
Proof.
  unfold get_ontology_mappings. intros Hl.
  destruct (request_retry_helper _ 4 _) as [v |] eqn:Hretry; [| done].
  assert (Hhelper : zooma_query_helper env (build_zooma_query trait_name filters zooma_host)
                    = Some v).
  { destruct (zooma_query_helper env _) as [v' |] eqn:Hv.
    - by rewrite (request_retry_helper_some _ 3 _ _ Hv) in Hretry.
    - by rewrite (request_retry_helper_none _ 4 _ Hv) in Hretry. }
  destruct (get_mappings_for_trait v) as [l0 |] eqn:Hl0; simpl in Hl; [| done].
  destruct (mapM _ l0) as [l1 |] eqn:Hl1; simpl in Hl; [| done].
  injection Hl as <-. exists v, l0. split; [done |]. split; [done |].
  apply mapM_Forall2 in Hl1.
  eapply Forall2_impl; [exact Hl1 |]. intros m0 m Hm. simpl in Hm.
  destruct (mapM (enrich_zooma_entry env) _) as [entries |] eqn:Hentries;
    simpl in Hm; [| done].
  injection Hm as <-. exists entries. split; [by apply mapM_Forall2 | done].
Qed.

(** X9.  For services whose replies are typed: in the groups that
    [get_ontology_mappings] returns, every entry still has the confidence
    class and the source of its group; its currency flag is the answer of
    [is_current_and_in_efo] for its URI; a current entry is in EFO, and
    for an entry that is not current the EFO flag is the answer of
    [is_in_efo]; its label is the one found in OLS, or empty when OLS has
    none. *)
Theorem get_ontology_mappings_enriched (env : Env) (trait_name : string) (filters : Filters)
    (zooma_host : string) (l : list ZoomaMapping.t) :
  env_typed env ->
  get_ontology_mappings env trait_name filters zooma_host = Ok (Some l) ->
  forall m e,
    m ∈ l -> e ∈ ZoomaMapping.zooma_entry_list m ->
    entry_of_group m e /\
    is_current_and_in_efo env (ZoomaEntry.uri e) = Ok (ZoomaEntry.is_current e) /\
    (ZoomaEntry.is_current e = true -> ZoomaEntry.in_efo e = true) /\
    (ZoomaEntry.is_current e = false ->
     ZoomaEntry.in_efo e = is_in_efo env (ZoomaEntry.uri e)) /\
    ZoomaEntry.ontology_label e
      = default "" (get_ontology_label_from_ols env (ZoomaEntry.uri e)).
Proof.
  intros _ Hl m e Hm He.
  destruct (get_ontology_mappings_some _ _ _ _ _ Hl) as (v & l0 & _ & Hl0 & Hall).
  apply list_elem_of_lookup_1 in Hm as [i Hi].
  destruct (Forall2_lookup_r _ _ _ _ _ Hall Hi) as (m0 & Hm0 & entries & Hentries & ->).
  simpl in He. apply list_elem_of_lookup_1 in He as [j Hj].
  destruct (Forall2_lookup_r _ _ _ _ _ Hentries Hj) as (e0 & He0 & Henrich).
  apply list_elem_of_lookup_2 in Hm0, He0.
  destruct (get_mappings_for_trait_fresh _ _ _ _ Hl0 Hm0 He0)
    as ((Hconf & Hsrc & Hhigh) & Hlabel & Hefo & Hcur).
  destruct (enrich_zooma_entry_ok _ _ _ Henrich Hefo Hcur)
    as (Hu & Hc & Hs & Hcheck & Hin & Hl').
  rewrite Hu. split; [| split; [done | split; [| split]]].
  - apply entry_of_group_intro; simpl; [by rewrite Hc | by rewrite Hs].
  - intros Hcurrent. by rewrite Hin, Hcurrent.
  - intros Hcurrent. by rewrite Hin, Hcurrent.
  - by rewrite Hl', Hlabel.
Qed.

Lemma get_ontology_mappings_enriched_witness :
  get_ontology_mappings Sample.env_finished "t" Sample.filters Sample.zooma_host
    = Ok (Some [Sample.mapping_of "intellectual disability" "HIGH"
                  [ZoomaEntry.mk Sample.efo_uri ZoomaConfidence.HIGH "eva-clinvar"
                     "intellectual disability" true true]]) /\
  forall m e,
    m ∈ [Sample.mapping_of "intellectual disability" "HIGH"
           [ZoomaEntry.mk Sample.efo_uri ZoomaConfidence.HIGH "eva-clinvar"
              "intellectual disability" true true]] ->
    e ∈ ZoomaMapping.zooma_entry_list m ->
    entry_of_group m e /\
    is_current_and_in_efo Sample.env_finished (ZoomaEntry.uri e)
      = Ok (ZoomaEntry.is_current e) /\
    (ZoomaEntry.is_current e = true -> ZoomaEntry.in_efo e = true) /\
    (ZoomaEntry.is_current e = false ->
     ZoomaEntry.in_efo e = is_in_efo Sample.env_finished (ZoomaEntry.uri e)) /\
    ZoomaEntry.ontology_label e
      = default "" (get_ontology_label_from_ols Sample.env_finished (ZoomaEntry.uri e)).
Proof.
  split; [reflexivity |].
  apply (get_ontology_mappings_enriched Sample.env_finished "t" Sample.filters
           Sample.zooma_host).
  - split.
    + intros url v Hv. simpl in Hv. injection Hv as <-. reflexivity.
    + intros n url payload v Hv. simpl in Hv. injection Hv as <-. reflexivity.
  - reflexivity.
Defined.

Lemma enrich_zooma_entry_raise (env : Env) (e0 : ZoomaEntry.t) (ex : exn) :
  is_current_and_in_efo env (ZoomaEntry.uri e0) = Raise ex ->
  enrich_zooma_entry env e0 = Raise ex.
Proof.
  intros Hraise. unfold enrich_zooma_entry.
  destruct (get_ontology_label_from_ols env (ZoomaEntry.uri e0));
    cbn [ZoomaEntry.set_ontology_label ZoomaEntry.uri]; by rewrite Hraise.
Qed.

(** X10.  A failure of the EFO check is not recovered: when Zooma answers
    and the check of the URI of one parsed entry raises (the response of
    OLS has status 200 and is not JSON, or lacks [is_obsolete]), then
    [get_ontology_mappings] raises, and so does [process_trait], before
    any request to OxO. *)
Theorem get_ontology_mappings_efo_check_raises (env : Env) (trait : Trait.t)
    (filters : Filters) (zooma_host : string) (oxo_target_list : list string)
    (oxo_distance : Z) (w : World) (zooma_response : json) (l0 : list ZoomaMapping.t)
    (m : ZoomaMapping.t) (e : ZoomaEntry.t) (ex : exn) :
  zooma_query_helper env (build_zooma_query (Trait.name trait) filters zooma_host)
    = Some zooma_response ->
  get_mappings_for_trait zooma_response = Ok l0 ->
  m ∈ l0 -> e ∈ ZoomaMapping.zooma_entry_list m ->
  is_current_and_in_efo env (ZoomaEntry.uri e) = Raise ex ->
  exists ex',
    get_ontology_mappings env (Trait.name trait) filters zooma_host = Raise ex' /\
    process_trait env trait filters zooma_host oxo_target_list oxo_distance w
      = (Raise ex', w).
Proof.
  intros Hv Hl0 Hm He Hraise.
  destruct (mapM_raise (enrich_zooma_entry env) _ e ex He
              (enrich_zooma_entry_raise _ _ _ Hraise)) as [ex1 Hex1].
  destruct (mapM_raise
              (fun mapping =>
                 entries <- mapM (enrich_zooma_entry env)
                                 (ZoomaMapping.zooma_entry_list mapping) ;;
                 Ok (ZoomaMapping.set_zooma_entry_list mapping entries))
              l0 m ex1 Hm) as [ex' Hex'].
  { by rewrite Hex1. }
  exists ex'.
  assert (Hmappings :
    get_ontology_mappings env (Trait.name trait) filters zooma_host = Raise ex').
  { unfold get_ontology_mappings.
    rewrite (request_retry_helper_some _ 3 _ _ Hv), Hl0. simpl. by rewrite Hex'. }
  split; [done | by apply process_trait_raise].
Qed.

Lemma get_ontology_mappings_efo_check_raises_witness :
  exists ex',
    get_ontology_mappings Sample2.env_ols_malformed "t" Sample.filters Sample.zooma_host
      = Raise ex' /\
    process_trait Sample2.env_ols_malformed (Trait.__init__ "t" 5) Sample.filters
                  Sample.zooma_host Sample.oxo_target_list 3 []
      = (Raise ex', []).
Proof.
  apply (get_ontology_mappings_efo_check_raises Sample2.env_ols_malformed
           (Trait.__init__ "t" 5) Sample.filters Sample.zooma_host Sample.oxo_target_list 3 []
           (JList [Sample.zooma_result "HIGH" Sample.efo_uri])
           [Sample.mapping_of "intellectual disability" "HIGH"
              [ZoomaEntry.mk Sample.efo_uri ZoomaConfidence.HIGH "eva-clinvar" "" false false]]
           (Sample.mapping_of "intellectual disability" "HIGH"
              [ZoomaEntry.mk Sample.efo_uri ZoomaConfidence.HIGH "eva-clinvar" "" false false])
           (ZoomaEntry.mk Sample.efo_uri ZoomaConfidence.HIGH "eva-clinvar" "" false false)
           (KeyError "is_obsolete")).
  - reflexivity.
  - reflexivity.
  - apply list_elem_of_here.
  - apply list_elem_of_here.
  - reflexivity.
Defined.

(** ** The outcome of [process_trait] *)

Lemma zooma_finished_set (t : Trait.t) (l : list ZoomaMapping.t) (p : OntologyEntry.t) :
  p ∈ Trait.finished_mapping_set (foldl Trait.zooma_mapping_step t l) <->
  p ∈ Trait.finished_mapping_set t \/ zooma_finishing l p.
Proof. by rewrite (foldl_adds _ _ zooma_mapping_step_adds), zooma_finishing_adds. Qed.

Lemma oxo_finished_set (t : Trait.t) (l : list OxOResult.t) (p : OntologyEntry.t) :
  p ∈ Trait.finished_mapping_set (foldl Trait.oxo_result_step t l) <->
  p ∈ Trait.finished_mapping_set t \/ oxo_finishing l p.
Proof. by rewrite (foldl_adds _ _ oxo_result_step_adds), oxo_finishing_adds. Qed.

(** X11.  For services whose replies are typed: when [process_trait]
    returns for a new trait, Zooma answered with a list of groups, which
    the trait holds, and one of two things happened.  Either an entry of
    Zooma finished the trait, or Zooma gave no group, or an entry is
    current, or no group has HIGH confidence with a URI: then OxO was not
    queried, the trait has no cross-reference, and its finished-mapping
    set holds exactly the pairs of the in-EFO, current entries of
    HIGH-confidence groups.  Or none of this holds: then the URIs of the
    HIGH-confidence groups were converted, the trait holds the results
    that [get_oxo_results] returned for them, and its finished-mapping
    set holds exactly the pairs of the in-EFO, current cross-references
    at distance 1 of these results. *)
Theorem process_trait_outcome (env : Env) (trait_name : string) (freq : Z)
    (filters : Filters) (zooma_host : string) (oxo_target_list : list string)
    (oxo_distance : Z) (w w' : World) (t : Trait.t) :
  env_typed env ->
  process_trait env (Trait.__init__ trait_name freq) filters zooma_host oxo_target_list
                oxo_distance w = (Ok t, w') ->
  exists l,
    get_ontology_mappings env trait_name filters zooma_host = Ok (Some l) /\
    Trait.name t = trait_name /\ Trait.frequency t = freq /\
    Trait.zooma_mapping_list t = Some l /\
    ((((exists p, zooma_finishing l p) \/ l = [] \/ any_entry_is_current l = true \/
       get_uris_for_oxo l = ∅) /\
      Trait.oxo_xref_list t = Some [] /\ w' = w /\
      (forall p, p ∈ Trait.finished_mapping_set t <-> zooma_finishing l p)) \/
     (((forall p, ~ zooma_finishing l p) /\ l <> [] /\ any_entry_is_current l = false /\
       get_uris_for_oxo l <> ∅) /\
      exists ids rs,
        uris_to_oxo_format (get_uris_for_oxo l) = Ok ids /\
        get_oxo_results env ids oxo_target_list oxo_distance w = (Ok (Some rs), w') /\
        Trait.oxo_xref_list t = Some rs /\
        (forall p, p ∈ Trait.finished_mapping_set t <-> oxo_finishing rs p))).
Proof.
  intros _ Hrun.
  destruct (get_ontology_mappings env trait_name filters zooma_host) as [[l |] | e] eqn:Hl.
  2, 3: destruct (process_trait_not_some env (Trait.__init__ trait_name freq) filters
                    zooma_host oxo_target_list oxo_distance w) as [e' He'];
        [simpl; intros l; congruence |]; rewrite He' in Hrun; discriminate.
  rewrite (process_trait_some env (Trait.__init__ trait_name freq) filters zooma_host
             oxo_target_list oxo_distance w l Hl) in Hrun.
  unfold after_zooma in Hrun.
  pose proof (zooma_finished_set
                (Trait.set_zooma_mapping_list (Trait.__init__ trait_name freq) (Some l)) l)
    as Hset.
  destruct (foldl_frame _ zooma_mapping_step_frame l
              (Trait.set_zooma_mapping_list (Trait.__init__ trait_name freq) (Some l)))
    as (Hn & Hf & Hz & Ho).
  set (t1 := foldl Trait.zooma_mapping_step _ l) in *. simpl in Hn, Hf, Hz, Ho, Hset.
  assert (Hset1 : forall p, p ∈ Trait.finished_mapping_set t1 <-> zooma_finishing l p).
  { intros p. rewrite Hset. set_solver. }
  exists l. split; [done |].
  assert (Hearly : forall cond : Prop, cond ->
    Trait.name t1 = trait_name /\ Trait.frequency t1 = freq /\
    Trait.zooma_mapping_list t1 = Some l /\
    ((cond /\ Trait.oxo_xref_list t1 = Some [] /\ w = w /\
      (forall p, p ∈ Trait.finished_mapping_set t1 <-> zooma_finishing l p)) \/
     (((forall p, ~ zooma_finishing l p) /\ l <> [] /\ any_entry_is_current l = false /\
       get_uris_for_oxo l <> ∅) /\
      exists ids rs,
        uris_to_oxo_format (get_uris_for_oxo l) = Ok ids /\
        get_oxo_results env ids oxo_target_list oxo_distance w = (Ok (Some rs), w) /\
        Trait.oxo_xref_list t1 = Some rs /\
        (forall p, p ∈ Trait.finished_mapping_set t1 <-> oxo_finishing rs p)))).
  { intros cond Hcond. split; [done |]. split; [done |]. split; [done |]. by left. }
  destruct (Trait.is_finished t1) eqn:Hfin.
  { injection Hrun as <- <-. apply Hearly. left.
    apply is_finished_true in Hfin as [p Hp]. exists p. by apply Hset1. }
  destruct (Nat.eqb_spec (List.length l) 0) as [Hlen | Hlen].
  { injection Hrun as <- <-. apply Hearly. right. left. by destruct l. }
  destruct (any_entry_is_current l) eqn:Hany.
  { injection Hrun as <- <-. apply Hearly. right. right. by left. }
  destruct (Nat.eqb_spec (size (get_uris_for_oxo l)) 0) as [Hsize | Hsize].
  { injection Hrun as <- <-. apply Hearly. right. right. right.
    apply leibniz_equiv. by apply size_empty_inv. }
  destruct (uris_to_oxo_format (get_uris_for_oxo l)) as [ids | e]; [| discriminate].
  destruct (get_oxo_results env ids oxo_target_list oxo_distance w) as [[rl | e] w1] eqn:Hoxo;
    [| discriminate].
  destruct rl as [rs |]; [| discriminate].
  unfold Trait.process_oxo_mappings in Hrun. simpl in Hrun. injection Hrun as <- <-.
  pose proof (oxo_finished_set (Trait.set_oxo_xref_list t1 (Some rs)) rs) as Hadd.
  destruct (foldl_frame _ oxo_result_step_frame rs (Trait.set_oxo_xref_list t1 (Some rs)))
    as (Hn' & Hf' & Hz' & Ho').
  simpl in Hn', Hf', Hz', Ho', Hadd.
  apply is_finished_false in Hfin.
  assert (Hnone : forall p, ~ zooma_finishing l p).
  { intros p Hp. apply Hset1 in Hp. rewrite Hfin in Hp. by apply not_elem_of_empty in Hp. }
  rewrite Hn', Hf', Hz', Ho'. split; [done |]. split; [done |]. split; [done |].
  right. split.
  - split; [done |]. split; [by intros -> |]. split; [done |].
    intros Hempty. apply Hsize. by rewrite Hempty, size_empty.
  - exists ids, rs. split; [done |]. split; [done |]. split; [done |].
    intros p. rewrite Hadd, Hfin. split.
    + intros [Hp | Hp]; [by apply not_elem_of_empty in Hp | done].
    + by right.
Qed.

Lemma process_trait_outcome_witness :
  exists l,
    get_ontology_mappings Sample.env_oxo "t" Sample.filters Sample.zooma_host = Ok (Some l) /\
    Trait.name Sample2.oxo_finished_trait = "t" /\
    Trait.frequency Sample2.oxo_finished_trait = 5 /\
    Trait.zooma_mapping_list Sample2.oxo_finished_trait = Some l /\
    ((((exists p, zooma_finishing l p) \/ l = [] \/ any_entry_is_current l = true \/
       get_uris_for_oxo l = ∅) /\
      Trait.oxo_xref_list Sample2.oxo_finished_trait = Some [] /\
      replicate 3 Sample2.payload = ([] : World) /\
      (forall p, p ∈ Trait.finished_mapping_set Sample2.oxo_finished_trait <->
                 zooma_finishing l p)) \/
     (((forall p, ~ zooma_finishing l p) /\ l <> [] /\ any_entry_is_current l = false /\
       get_uris_for_oxo l <> ∅) /\
      exists ids rs,
        uris_to_oxo_format (get_uris_for_oxo l) = Ok ids /\
        get_oxo_results Sample.env_oxo ids Sample.oxo_target_list 3 []
          = (Ok (Some rs), replicate 3 Sample2.payload) /\
        Trait.oxo_xref_list Sample2.oxo_finished_trait = Some rs /\
        (forall p, p ∈ Trait.finished_mapping_set Sample2.oxo_finished_trait <->
                   oxo_finishing rs p))).
Proof.
  apply (process_trait_outcome Sample.env_oxo "t" 5 Sample.filters Sample.zooma_host
           Sample.oxo_target_list 3 [] (replicate 3 Sample2.payload)
           Sample2.oxo_finished_trait).
  - split.
    + intros url v Hv. simpl in Hv. injection Hv as <-. reflexivity.
    + intros n url payload v Hv. simpl in Hv.
      destruct (n <? 2)%nat; [discriminate |]. injection Hv as <-. reflexivity.
  - vm_compute. reflexivity.
Defined.

(** X12.  When Zooma answers with an empty list, [process_trait] returns
    the new trait with no group and no cross-reference and sends nothing
    to OxO; [output_trait] then writes one curation row that holds the
    name and the frequency only. *)
Theorem process_trait_no_mapping (env : Env) (trait_name : string) (freq : Z)
    (filters : Filters) (zooma_host : string) (oxo_target_list : list string)
    (oxo_distance : Z) (w : World) (out : Writers) :
  zooma_get env (build_zooma_query trait_name filters zooma_host) = Decoded (JList []) ->
  process_trait env (Trait.__init__ trait_name freq) filters zooma_host oxo_target_list
                oxo_distance w
    = (Ok (Trait.__init__ trait_name freq), w) /\
  output_trait (Trait.__init__ trait_name freq) out
    = Ok (mkWriters (mapping_rows out)
                    (curation_rows out ++ [[CStr trait_name; CInt freq]])%list).
Proof.
  intros Hget. split; [| reflexivity].
  assert (Hl : get_ontology_mappings env trait_name filters zooma_host = Ok (Some [])).
  { unfold get_ontology_mappings.
    rewrite (request_retry_helper_some _ 3 _ (JList [])); [done |].
    unfold zooma_query_helper. by rewrite Hget. }
  by rewrite (process_trait_some env (Trait.__init__ trait_name freq) filters zooma_host
                oxo_target_list oxo_distance w [] Hl).
Qed.

Lemma process_trait_no_mapping_witness :
  process_trait Sample.env_empty (Trait.__init__ "u" 2) Sample.filters Sample.zooma_host
                Sample.oxo_target_list 3 []
    = (Ok (Trait.__init__ "u" 2), []) /\
  output_trait (Trait.__init__ "u" 2) (mkWriters [] [])
    = Ok (mkWriters (mapping_rows (mkWriters [] []))
                    (curation_rows (mkWriters [] []) ++ [[CStr "u"; CInt 2]])%list).
Proof.
  apply (process_trait_no_mapping Sample.env_empty "u" 2 Sample.filters Sample.zooma_host
           Sample.oxo_target_list 3 [] (mkWriters [] [])).
  reflexivity.
Defined.

(** ** The rows of a run *)

Lemma main_loop_rows_aux (env : Env) (traits : list (string * Z)) (filters : Filters)
    (zooma_host : string) (oxo_target_list : list string) (oxo_distance : Z)
    (out out' : Writers) (w w' : World) :
  main_loop env traits filters zooma_host oxo_target_list oxo_distance out w = (Ok out', w') ->
  exists blocks,
    Forall2 trait_rows traits blocks /\
    mapping_rows out' = (mapping_rows out ++ concat (map fst blocks))%list /\
    curation_rows out' = (curation_rows out ++ concat (map snd blocks))%list.
Proof.
  revert out w. induction traits as [| [trait_name freq] rest IH]; intros out w Hrun.
  - injection Hrun as <- <-. exists []. simpl. rewrite !app_nil_r. by repeat split.
  - rewrite main_loop_cons in Hrun.
    destruct (process_trait _ _ _ _ _ _ _) as [[t | e] w1] eqn:Hprocess; [| discriminate].
    destruct (process_trait_ok_lists env (Trait.__init__ trait_name freq) filters zooma_host
                oxo_target_list oxo_distance w w1 t [] eq_refl Hprocess)
      as (Hname & Hfreq & [zl Hzl] & [ol Hol]).
    simpl in Hname, Hfreq.
    destruct (output_trait_rows t out zl ol Hzl Hol) as (out1 & Hout & Hkind).
    rewrite Hout in Hrun.
    destruct (IH out1 w1 Hrun) as (blocks & Hblocks & Hm & Hc).
    rewrite Hname, Hfreq in Hkind.
    destruct Hkind as [(_ & (pairs & _ & _ & _ & Hpos & Hrows) & Hcur)
                      | (_ & Hmap & zs & os & _ & _ & Hcur)].
    + exists ((map (mapping_row trait_name) pairs, []) :: blocks).
      split; [constructor; [| done] |].
      * left. simpl. split; [by destruct pairs; [simpl in Hpos; lia |] |].
        split; [done |]. apply Forall_forall. intros row Hrow.
        apply list_elem_of_fmap in Hrow as (p & -> & _).
        by exists (OntologyEntry.uri p), (OntologyEntry.label p).
      * simpl. by rewrite Hm, Hc, Hrows, Hcur, <- app_assoc.
    + exists (([], [CStr trait_name :: CInt freq
                      :: (map zooma_cell zs ++ map oxo_cell os)%list]) :: blocks).
      split; [constructor; [| done] |].
      * right. simpl. split; [done |]. by eexists.
      * simpl. rewrite Hm, Hc, Hmap, Hcur, <- app_assoc. done.
Qed.

(** X13.  For services whose replies are typed: when the loop of [main]
    completes, each trait added its own rows to the files, in the order
    of the traits: either one or more mapping rows, each made of the name
    of the trait, a URI and a label, and no curation row; or no mapping
    row and exactly one curation row, which starts with the name and the
    frequency of the trait.  Nothing else was added to the files. *)
Theorem main_loop_rows (env : Env) (traits : list (string * Z)) (filters : Filters)
    (zooma_host : string) (oxo_target_list : list string) (oxo_distance : Z)
    (out out' : Writers) (w w' : World) :
  env_typed env ->
  main_loop env traits filters zooma_host oxo_target_list oxo_distance out w = (Ok out', w') ->
  exists blocks,
    Forall2 trait_rows traits blocks /\
    mapping_rows out' = (mapping_rows out ++ concat (map fst blocks))%list /\
    curation_rows out' = (curation_rows out ++ concat (map snd blocks))%list.
Proof. intros _. apply main_loop_rows_aux. Qed.

Lemma main_loop_rows_witness :
  exists blocks,
    Forall2 trait_rows [("t", 5); ("u", 2)] blocks /\
    mapping_rows
      (mkWriters [[CStr "t"; CStr Sample.efo_uri; CStr "intellectual disability"];
                  [CStr "u"; CStr Sample.efo_uri; CStr "intellectual disability"]] [])
      = (mapping_rows (mkWriters [] []) ++ concat (map fst blocks))%list /\
    curation_rows
      (mkWriters [[CStr "t"; CStr Sample.efo_uri; CStr "intellectual disability"];
                  [CStr "u"; CStr Sample.efo_uri; CStr "intellectual disability"]] [])
      = (curation_rows (mkWriters [] []) ++ concat (map snd blocks))%list.
Proof.
  apply (main_loop_rows Sample.env_finished [("t", 5); ("u", 2)] Sample.filters
           Sample.zooma_host Sample.oxo_target_list 3 (mkWriters [] [])
           (mkWriters [[CStr "t"; CStr Sample.efo_uri; CStr "intellectual disability"];
                       [CStr "u"; CStr Sample.efo_uri; CStr "intellectual disability"]] [])
           [] []).
  - split.
    + intros url v Hv. simpl in Hv. injection Hv as <-. reflexivity.
    + intros n url payload v Hv. simpl in Hv. injection Hv as <-. reflexivity.
  - vm_compute. reflexivity.
Defined.

(** ** Counting the trait names *)

Lemma counter_add_get (k k' : string) (c : list (string * Z)) :
  counter_get k' (counter_add k c)
  = if String.eqb k' k then counter_get k c + 1 else counter_get k' c.
Proof.
  induction c as [| [k0 n] c IH]; simpl.
  - by destruct (String.eqb k' k).
  - destruct (String.eqb_spec k k0) as [-> | Hne]; simpl.
    + by destruct (String.eqb k' k0).
    + rewrite IH.
      destruct (String.eqb_spec k' k0) as [-> | Hne'];
        destruct (String.eqb_spec k0 k) as [-> | Hne'']; try done.
Qed.

Lemma counter_add_keys (k : string) (c : list (string * Z)) :
  (counter_add k c).*1 = if decide (k ∈ c.*1) then c.*1 else (c.*1 ++ [k])%list.
Proof.
  induction c as [| [k0 n] c IH]; csimpl; [done |].
  destruct (String.eqb_spec k k0) as [-> | Hne]; csimpl.
  - rewrite decide_True; [done | apply list_elem_of_here].
  - rewrite IH. destruct (decide (k ∈ c.*1)) as [Hin | Hnin].
    + rewrite decide_True; [done | by apply list_elem_of_further].
    + rewrite decide_False; [done |]. intros [? | ?]%elem_of_cons; congruence.
Qed.

Lemma counter_get_elem (k : string) (n : Z) (c : list (string * Z)) :
  NoDup c.*1 -> (k, n) ∈ c -> counter_get k c = n.
Proof.
  induction c as [| [k0 n0] c IH]; simpl; intros Hnodup Hin; [by apply elem_of_nil in Hin |].
  apply NoDup_cons in Hnodup as [Hk0 Hnodup].
  apply elem_of_cons in Hin as [[= -> ->] | Hin]; [by rewrite String.eqb_refl |].
  destruct (String.eqb_spec k k0) as [-> | Hne]; [| by apply IH].
  destruct Hk0. apply list_elem_of_fmap. by exists (k0, n).
Qed.

Lemma counter_add_length (k : string) (c : list (string * Z)) :
  (List.length (counter_add k c) <= S (List.length c))%nat.
Proof.
  induction c as [| [k0 n] c IH]; simpl; [done |].
  destruct (String.eqb k k0); simpl; lia.
Qed.

Lemma Counter_snoc (l : list string) (k : string) :
  Counter (l ++ [k]) = counter_add k (Counter l).
Proof. unfold Counter. by rewrite foldl_app. Qed.

Lemma Counter_spec (l : list string) :
  NoDup (Counter l).*1 /\
  (forall k, k ∈ (Counter l).*1 <-> k ∈ l) /\
  (forall k, counter_get k (Counter l) = Z.of_nat (count_occ string_dec l k)) /\
  (List.length (Counter l) <= List.length l)%nat.
Proof.
  induction l as [| k l (Hnodup & Hkeys & Hget & Hlen)] using rev_ind.
  - repeat split; try constructor; try done; set_solver.
  - rewrite Counter_snoc. split; [| split; [| split]].
    + rewrite counter_add_keys. case_decide as Hin; [done |].
      apply NoDup_app. split; [done |]. split; [| apply NoDup_singleton].
      intros x Hx Hx'. apply list_elem_of_singleton in Hx' as ->. done.
    + intros k'. rewrite counter_add_keys, elem_of_app, list_elem_of_singleton, <- Hkeys.
      case_decide as Hin; [| by rewrite elem_of_app, list_elem_of_singleton].
      split; [by left |]. intros [? | ->]; done.
    + intros k'. rewrite counter_add_get, count_occ_app. simpl.
      destruct (String.eqb_spec k' k) as [-> | Hne].
      * rewrite Hget. destruct (string_dec k k); [lia | done].
      * rewrite Hget. destruct (string_dec k k'); [congruence | lia].
    + rewrite length_app. simpl.
      pose proof (counter_add_length k (Counter l)). lia.
Qed.

Lemma Counter_elem (l : list string) (k : string) (n : Z) :
  (k, n) ∈ Counter l -> k ∈ l /\ n = Z.of_nat (count_occ string_dec l k) /\ 1 <= n.
Proof.
  intros Hin. destruct (Counter_spec l) as (Hnodup & Hkeys & Hget & _).
  assert (Hk : k ∈ l).
  { apply Hkeys, list_elem_of_fmap. by exists (k, n). }
  split; [done |].
  rewrite <- (counter_get_elem k n (Counter l) Hnodup Hin), Hget.
  split; [done |]. apply list_elem_of_In, (count_occ_In string_dec) in Hk. lia.
Qed.

(** X14.  For services whose replies are typed: when [main] completes,
    the trait names of all records were parsed and counted; the traits
    that were processed are the distinct names, each once, each with the
    number of times that it occurs in the input, which is at least one.
    The mapping file holds its header and then the mapping rows of each
    trait, the curation file the curation rows of each trait, in the
    order in which the traits were processed: every trait has either
    mapping rows that start with its name, or one curation row that
    starts with its name and its frequency.  This holds whatever
    [str.lower] does to a name. *)
Theorem main_rows (str_lower : string -> string) (env : Env) (records : list json)
    (filters : Filters) (zooma_host : string) (oxo_target_list : list string)
    (oxo_distance : Z) (out' : Writers) (w w' : World) :
  env_typed env ->
  main str_lower env records filters zooma_host oxo_target_list oxo_distance w
    = (Ok out', w') ->
  exists names blocks,
    parse_trait_names str_lower records = Ok names /\
    NoDup (Counter names).*1 /\
    (forall n, n ∈ (Counter names).*1 <-> n ∈ names) /\
    (forall n f, (n, f) ∈ Counter names ->
       f = Z.of_nat (count_occ string_dec names n) /\ 1 <= f) /\
    Forall2 trait_rows (Counter names) blocks /\
    mapping_rows out'
      = [CStr "#clinvar_trait_name"; CStr "uri"; CStr "label"] :: concat (map fst blocks) /\
    curation_rows out' = concat (map snd blocks).
Proof.
  intros _. unfold main, mbind at 1, lift. intros Hrun.
  destruct (parse_trait_names str_lower records) as [names |]; [| discriminate].
  destruct (main_loop_rows_aux _ _ _ _ _ _ _ _ _ _ Hrun) as (blocks & Hblocks & Hm & Hc).
  simpl in Hm, Hc.
  destruct (Counter_spec names) as (Hnodup & Hkeys & _).
  exists names, blocks. repeat split; try done; try apply Hkeys.
  all: by destruct (Counter_elem _ _ _ H) as (_ & ? & ?).
Qed.

Lemma main_rows_witness :
  exists names blocks,
    parse_trait_names Py.lower Sample2.records = Ok names /\
    NoDup (Counter names).*1 /\
    (forall n, n ∈ (Counter names).*1 <-> n ∈ names) /\
    (forall n f, (n, f) ∈ Counter names ->
       f = Z.of_nat (count_occ string_dec names n) /\ 1 <= f) /\
    Forall2 trait_rows (Counter names) blocks /\
    mapping_rows Sample2.rows
      = [CStr "#clinvar_trait_name"; CStr "uri"; CStr "label"] :: concat (map fst blocks) /\
    curation_rows Sample2.rows = concat (map snd blocks).
Proof.
  apply (main_rows Py.lower Sample.env_finished Sample2.records Sample.filters
           Sample.zooma_host Sample.oxo_target_list 3 Sample2.rows [] []).
  - split.
    + intros url v Hv. simpl in Hv. injection Hv as <-. reflexivity.
    + intros n url payload v Hv. simpl in Hv. injection Hv as <-. reflexivity.
  - vm_compute. reflexivity.
Defined.

(** The two records of the sample give one trait of frequency 2. *)
Example main_sample_counter :
  (names <- parse_trait_names Py.lower Sample2.records ;; Ok (Counter names))
  = Ok [("intellectual disability", 2)].
Proof. reflexivity. Qed.

(** ** Parsing the trait names of a record *)

Lemma preferred_not_efo (p : string * string) :
  Clinvar.is_preferred p = true -> Clinvar.is_efo p = false.
Proof.
  unfold Clinvar.is_preferred, Clinvar.is_efo. intros ->%String.eqb_eq. reflexivity.
Qed.

Lemma trait_name_step_name (acc : list json) (j : json) (type_ value : string) :
  Clinvar.is_name j type_ value ->
  trait_name_step acc j
  = Ok (if Clinvar.is_preferred (type_, value) then JStr value :: acc
        else if Clinvar.is_efo (type_, value) then acc
        else (acc ++ [JStr value])%list).
Proof.
  intros (o & ev & -> & Hev & Htype & Hvalue).
  unfold trait_name_step, Clinvar.is_preferred, Clinvar.is_efo. simpl.
  rewrite Hev. simpl. rewrite Htype. simpl.
  destruct (String.eqb type_ "Preferred"); simpl.
  - by rewrite Hvalue.
  - destruct (String.eqb type_ "EFO URL" || (String.eqb type_ "EFO id"
               || (String.eqb type_ "EFO name" || false))); simpl; [done |].
    by rewrite Hvalue.
Qed.

Lemma foldM_trait_name_step (l : list json) (names : list (string * string))
    (acc : list json) :
  Forall2 (fun x p => Clinvar.is_name x (fst p) (snd p)) l names ->
  foldM trait_name_step acc l
  = Ok (map (fun p => JStr (snd p)) (reverse (List.filter Clinvar.is_preferred names))
        ++ acc
        ++ map (fun p => JStr (snd p))
               (List.filter (fun p => negb (Clinvar.is_preferred p) && negb (Clinvar.is_efo p))
                            names))%list.
Proof.
  intros Hall. revert acc.
  induction Hall as [| x [type_ value] l names Hname Hall IH]; intros acc; simpl.
  - by rewrite app_nil_r.
  - simpl in Hname. rewrite (trait_name_step_name acc x type_ value Hname). simpl.
    destruct (Clinvar.is_preferred (type_, value)) eqn:Hpref; simpl.
    + rewrite IH, reverse_cons, map_app. simpl. by rewrite <- app_assoc.
    + destruct (Clinvar.is_efo (type_, value)) eqn:Hefo; simpl.
      * by rewrite IH.
      * rewrite IH. by rewrite <- !app_assoc.
Qed.

Lemma filter_reverse_bool {A : Type} (f : A -> bool) (l : list A) :
  List.filter f (reverse l) = reverse (List.filter f l).
Proof.
  induction l as [| a l IH]; [done |].
  rewrite reverse_cons, List.filter_app, IH. simpl.
  destruct (f a); [by rewrite reverse_cons | by rewrite app_nil_r].
Qed.

Lemma filter_no_preferred (names : list (string * string)) :
  List.filter Clinvar.is_preferred names = [] ->
  List.filter (fun p => negb (Clinvar.is_preferred p) && negb (Clinvar.is_efo p)) names
  = List.filter (fun p => negb (Clinvar.is_efo p)) names.
Proof.
  induction names as [| p names IH]; simpl; [done |].
  destruct (Clinvar.is_preferred p); [done |]. intros Hnone. simpl.
  by rewrite (IH Hnone).
Qed.

Lemma first_name_lower_chosen (str_lower : string -> string)
    (names : list (string * string)) :
  first_name_lower str_lower
    (map (fun p => JStr (snd p)) (reverse (List.filter Clinvar.is_preferred names))
     ++ map (fun p => JStr (snd p))
            (List.filter (fun p => negb (Clinvar.is_preferred p) && negb (Clinvar.is_efo p))
                         names))%list
  = Ok (Clinvar.chosen_name str_lower names).
Proof.
  unfold Clinvar.chosen_name. rewrite filter_reverse_bool.
  destruct (reverse (List.filter Clinvar.is_preferred names)) as [| p ps] eqn:Hrev; simpl.
  - assert (Hnone : List.filter Clinvar.is_preferred names = []).
    { apply (f_equal reverse) in Hrev. by rewrite reverse_involutive in Hrev. }
    rewrite (filter_no_preferred names Hnone).
    by destruct (List.filter (fun p => negb (Clinvar.is_efo p)) names).
  - done.
Qed.

Lemma names_of_trait_chosen (str_lower : string -> string) (j : json)
    (names : list (string * string)) :
  Clinvar.is_trait j names ->
  exists kept,
    names_of_trait j = Ok kept /\
    first_name_lower str_lower kept = Ok (Clinvar.chosen_name str_lower names).
Proof.
  intros (o & l & -> & Hname & Hall). unfold names_of_trait. simpl.
  rewrite Hname. simpl. rewrite (foldM_trait_name_step l names [] Hall). simpl.
  eexists. split; [reflexivity |]. apply first_name_lower_chosen.
Qed.

Lemma assertion_holder_traits (j : json) (traits : list (list (string * string))) :
  Clinvar.is_assertion_holder j traits ->
  exists ts l,
    (assertion <- Json.getitem j "referenceClinVarAssertion" ;;
     Json.getitem assertion "traitSet") = Ok ts /\
    Json.getitem ts "trait" = Ok (JList l) /\ Forall2 Clinvar.is_trait l traits.
Proof.
  intros (o & a & ts & l & -> & Ha & Hts & Hl & Hall). exists (JObj ts), l.
  simpl. rewrite Ha. simpl. rewrite Hts, Hl. done.
Qed.

Lemma trait_set_of_record_traits (j : json) (traits : list (list (string * string))) :
  Clinvar.is_record j traits ->
  exists ts l,
    trait_set_of_record j = Ok ts /\
    Json.getitem ts "trait" = Ok (JList l) /\ Forall2 Clinvar.is_trait l traits.
Proof.
  unfold trait_set_of_record.
  intros [(Hholder & o & -> & Hnone) | (o & cs & -> & Hcs & Hholder)].
  - destruct (assertion_holder_traits _ _ Hholder) as (ts & l & Hts & Hl & Hall).
    exists ts, l. simpl. rewrite Hnone. simpl. done.
  - destruct (assertion_holder_traits _ _ Hholder) as (ts & l & Hts & Hl & Hall).
    exists ts, l. simpl. rewrite Hcs. simpl. done.
Qed.

Lemma mapM_names_chosen (str_lower : string -> string) (l : list json)
    (traits : list (list (string * string))) :
  Forall2 Clinvar.is_trait l traits ->
  exists trait_list,
    mapM names_of_trait l = Ok trait_list /\
    mapM (first_name_lower str_lower) trait_list
      = Ok (map (Clinvar.chosen_name str_lower) traits).
Proof.
  induction 1 as [| j names l traits Htrait Hall (trait_list & Hlist & Hfirsts)]; simpl.
  - by exists [].
  - destruct (names_of_trait_chosen str_lower j names Htrait) as (kept & Hkept & Hfirst).
    exists (kept :: trait_list). rewrite Hkept, Hlist. simpl.
    by rewrite Hfirst, Hfirsts.
Qed.

(** X16.  For a record of either format whose traits have names with a
    type and a value, [get_trait_names] returns one name per trait that
    has a name not from EFO, in the order of the traits: the value of the
    last name of type Preferred when there is one, of the first name that
    is not from EFO otherwise, lower-cased by [str.lower], whatever that
    function does to the value.  A trait with names from EFO only, or
    without name, gives nothing. *)
Theorem get_trait_names_chosen (str_lower : string -> string) (clinvar_json : json)
    (traits : list (list (string * string))) :
  Clinvar.is_record clinvar_json traits ->
  get_trait_names str_lower clinvar_json = Ok (omap (Clinvar.chosen_name str_lower) traits).
Proof.
  intros Hrecord. unfold get_trait_names.
  destruct (trait_set_of_record_traits _ _ Hrecord) as (ts & l & -> & Hl & Hall).
  simpl. rewrite Hl. simpl.
  destruct (mapM_names_chosen str_lower l traits Hall) as (trait_list & -> & Hfirsts).
  simpl. rewrite Hfirsts. simpl. f_equal.
  clear. induction traits as [| names traits IH]; [done |].
  csimpl. rewrite IH. by destruct (Clinvar.chosen_name str_lower names).
Qed.

Lemma record_json_is_holder (traits : list (list (string * string))) :
  Clinvar.is_assertion_holder (Clinvar.record_json traits) traits.
Proof.
  eexists _, _, _, _. split; [reflexivity |]. split; [reflexivity |].
  split; [reflexivity |]. split; [reflexivity |].
  induction traits as [| names traits IH]; simpl; constructor; [| done].
  eexists _, _. split; [reflexivity |]. split; [reflexivity |].
  clear. induction names as [| [type_ value] names IH]; simpl; constructor; [| done].
  eexists _, _. by repeat split.
Qed.

Lemma get_trait_names_chosen_witness :
  get_trait_names Py.lower
    (Clinvar.record_json
       [ [("Alternate", "Foo"); ("Preferred", "Bar"); ("EFO id", "x"); ("Preferred", "Baz")];
         [("EFO name", "q")];
         [("Alternate", "A1"); ("Alternate", "A2")] ])
  = Ok ["baz"; "a1"] /\
  get_trait_names Py.lower
    (JObj [("clinvarSet", Clinvar.record_json [[("Preferred", "Intellectual Disability")]])])
  = Ok ["intellectual disability"].
Proof.
  split.
  - apply (get_trait_names_chosen Py.lower
             (Clinvar.record_json
                [ [("Alternate", "Foo"); ("Preferred", "Bar"); ("EFO id", "x");
                   ("Preferred", "Baz")];
                  [("EFO name", "q")];
                  [("Alternate", "A1"); ("Alternate", "A2")] ])
             [ [("Alternate", "Foo"); ("Preferred", "Bar"); ("EFO id", "x");
                ("Preferred", "Baz")];
               [("EFO name", "q")];
               [("Alternate", "A1"); ("Alternate", "A2")] ]).
    left. split; [apply record_json_is_holder | eexists; split; reflexivity].
  - apply (get_trait_names_chosen Py.lower
             (JObj [("clinvarSet",
                     Clinvar.record_json [[("Preferred", "Intellectual Disability")]])])
             [[("Preferred", "Intellectual Disability")]]).
    right. eexists _, _. split; [reflexivity |]. split; [reflexivity |].
    apply record_json_is_holder.
Defined.

(** ** The URL of a term in OLS *)

Lemma hex_digit_inj (n m : nat) :
  (n < 16)%nat -> (m < 16)%nat -> hex_digit n = hex_digit m -> n = m.
Proof.
  intros Hn Hm.
  do 16 (destruct n as [| n];
         [do 16 (destruct m as [| m]; [by vm_compute |]); lia |]).
  lia.
Qed.

Lemma hex_digit_unreserved (n : nat) : (n < 16)%nat -> is_unreserved (hex_digit n) = true.
Proof.
  intros Hn. do 16 (destruct n as [| n]; [reflexivity |]). lia.
Qed.

Lemma nat_of_ascii_div_mod (a b : ascii) :
  (nat_of_ascii a / 16 = nat_of_ascii b / 16)%nat ->
  (nat_of_ascii a mod 16 = nat_of_ascii b mod 16)%nat ->
  a = b.
Proof.
  intros Hdiv Hmod.
  rewrite <- (ascii_nat_embedding a), <- (ascii_nat_embedding b). f_equal.
  rewrite (Nat.div_mod_eq (nat_of_ascii a) 16), (Nat.div_mod_eq (nat_of_ascii b) 16).
  by rewrite Hdiv, Hmod.
Qed.

Lemma quote_char_cases (c : ascii) :
  (is_unreserved c = true /\ quote_char c = String c "") \/
  (is_unreserved c = false /\
   quote_char c = String "%" (String (hex_digit (nat_of_ascii c / 16))
                                (String (hex_digit (nat_of_ascii c mod 16)) ""))).
Proof. unfold quote_char. destruct (is_unreserved c); [by left | by right]. Qed.

Lemma quote_injective (s1 s2 : string) : quote s1 = quote s2 -> s1 = s2.
Proof.
  revert s2. induction s1 as [| a s1 IH]; intros [| b s2]; simpl; try done.
  - destruct (quote_char_cases b) as [[_ ->] | [_ ->]]; discriminate.
  - destruct (quote_char_cases a) as [[_ ->] | [_ ->]]; discriminate.
  - pose proof (nat_ascii_bounded a) as Ha. pose proof (nat_ascii_bounded b) as Hb.
    destruct (quote_char_cases a) as [[Hua ->] | [Hua ->]];
      destruct (quote_char_cases b) as [[Hub ->] | [Hub ->]]; simpl.
    + intros [= -> Hrest]. f_equal. by apply IH.
    + intros [= -> _]. discriminate Hua.
    + intros [= <- _]. discriminate Hub.
    + intros [= Hhi Hlo Hrest].
      assert (Hda : (nat_of_ascii a / 16 < 16)%nat)
        by (apply Nat.Div0.div_lt_upper_bound; lia).
      assert (Hdb : (nat_of_ascii b / 16 < 16)%nat)
        by (apply Nat.Div0.div_lt_upper_bound; lia).
      assert (Hma : (nat_of_ascii a mod 16 < 16)%nat) by (apply Nat.mod_upper_bound; lia).
      assert (Hmb : (nat_of_ascii b mod 16 < 16)%nat) by (apply Nat.mod_upper_bound; lia).
      apply (hex_digit_inj _ _ Hda Hdb) in Hhi. apply (hex_digit_inj _ _ Hma Hmb) in Hlo.
      f_equal; [by apply nat_of_ascii_div_mod | by apply IH].
Qed.

Lemma quote_charset (s : string) :
  string_forallb (fun c => is_unreserved c || Ascii.eqb c "%") (quote s) = true.
Proof.
  induction s as [| a s IH]; [done |].
  pose proof (nat_ascii_bounded a) as Ha.
  assert (Hda : (nat_of_ascii a / 16 < 16)%nat)
    by (apply Nat.Div0.div_lt_upper_bound; lia).
  assert (Hma : (nat_of_ascii a mod 16 < 16)%nat) by (apply Nat.mod_upper_bound; lia).
  cbn [quote].
  destruct (quote_char_cases a) as [[Hua ->] | [Hua ->]]; cbn [append string_forallb].
  - by rewrite Hua, IH.
  - by rewrite (hex_digit_unreserved _ Hda), (hex_digit_unreserved _ Hma), IH.
Qed.

Lemma sapp_inv_head (p a b : string) : p +:+ a = p +:+ b -> a = b.
Proof. induction p as [| c p IH]; simpl; [done |]. intros [= H]. by apply IH. Qed.

Lemma unreserved_not_percent (c : ascii) :
  is_unreserved c = true -> Ascii.eqb c "%" = false.
Proof.
  intros Hc. destruct (Ascii.eqb_spec c "%") as [-> | _]; [discriminate Hc | done].
Qed.

Lemma quote_percent_is_quoted (s : string) :
  string_forallb (fun c => is_unreserved c || Ascii.eqb c "%") s = true ->
  percent_is_quoted (quote s) = true.
Proof.
  induction s as [| c s IH]; [done |].
  cbn [string_forallb quote]. intros [Hc Hs]%andb_true_iff.
  destruct (is_unreserved c) eqn:Hun.
  - unfold quote_char. rewrite Hun. cbn [append percent_is_quoted].
    by rewrite (unreserved_not_percent c Hun), (IH Hs).
  - simpl in Hc. apply Ascii.eqb_eq in Hc as ->.
    change (quote_char "%") with "%25". simpl. rewrite (IH Hs). by destruct (quote s).
Qed.

(** X17.  [double_encode_uri] quotes twice with no safe character: the
    result has only letters, digits, [_], [.], [-], [~] and [%], and
    every [%] in it is followed by [25], the quoted form of the [%] that
    the first pass wrote.  Two different URIs never have the same
    encoding, so they are never requested at the same URL of OLS. *)
Theorem double_encode_uri_injective (uri1 uri2 : string) :
  string_forallb (fun c => is_unreserved c || Ascii.eqb c "%") (double_encode_uri uri1) = true /\
  percent_is_quoted (double_encode_uri uri1) = true /\
  (uri1 <> uri2 -> double_encode_uri uri1 <> double_encode_uri uri2) /\
  (uri1 <> uri2 -> ols_efo_url uri1 <> ols_efo_url uri2).
Proof.
  split; [apply quote_charset |].
  split; [apply quote_percent_is_quoted, quote_charset |].
  assert (Hinj : double_encode_uri uri1 = double_encode_uri uri2 -> uri1 = uri2).
  { unfold double_encode_uri. intros H. by apply quote_injective, quote_injective. }
  split; [by intros Hne H%Hinj |].
  unfold ols_efo_url. intros Hne H. apply sapp_inv_head in H. by apply Hne, Hinj.
Qed.

(** The URL of the test of [is_current_and_in_efo], after the host. *)
Example double_encode_uri_orphanet_425 :
  double_encode_uri "http://www.orpha.net/ORDO/Orphanet_425"
  = "http%253A%252F%252Fwww.orpha.net%252FORDO%252FOrphanet_425".
Proof. reflexivity. Qed.

Lemma double_encode_uri_injective_witness :
  double_encode_uri "http://www.ebi.ac.uk/efo/EFO_0003847"
    <> double_encode_uri "http://www.ebi.ac.uk/efo/EFO 0003847" /\
  ols_efo_url Sample.efo_uri <> ols_efo_url Sample.orphanet_uri.
Proof.
  split.
  - apply (proj1 (proj2 (proj2 (double_encode_uri_injective
                                  "http://www.ebi.ac.uk/efo/EFO_0003847"
                                  "http://www.ebi.ac.uk/efo/EFO 0003847")))).
    discriminate.
  - apply (proj2 (proj2 (proj2 (double_encode_uri_injective
                                  Sample.efo_uri Sample.orphanet_uri)))).
    discriminate.
Defined.

(** ** The order of the cross-references in a curation row *)

Lemma OxOMapping_lt_rank (x y : OxOMapping.t) :
  OxOMapping.__lt__ x y = (oxo_rank x <? oxo_rank y).
Proof.
  destruct x as [? ? ? ? dx ? ax bx ?], y as [? ? ? ? dy ? ay by_ ?].
  unfold OxOMapping.__lt__, oxo_rank. simpl.
  destruct (Z.eqb_spec dy dx) as [-> | Hne]; simpl.
  - destruct ax, bx, ay, by_; simpl; symmetry;
      first [apply Z.ltb_lt; lia | apply Z.ltb_ge; lia].
  - destruct (Z.ltb_spec dy dx); symmetry;
      [apply Z.ltb_lt | apply Z.ltb_ge]; destruct ax, bx, ay, by_; simpl; lia.
Qed.

Lemma oxo_candidates_flags (l : list OxOResult.t) (m : OxOMapping.t) :
  m ∈ oxo_candidates l ->
  OxOMapping.in_efo m = true /\ OxOMapping.is_current m = true.
Proof.
  unfold oxo_candidates. rewrite list_elem_of_In, in_flat_map.
  intros (r & _ & Hm). apply filter_In in Hm as [_ Hflags].
  by apply andb_true_iff in Hflags.
Qed.

(** X18.  For a trait that holds a list of cross-reference results, the
    cross-references of the curation row are those that are in EFO and
    current, rearranged so that a smaller distance comes first;
    cross-references at the same distance keep the order in which OxO
    returned them. *)
Theorem oxo_curation_order (t : Trait.t) (l : list OxOResult.t) :
  Trait.oxo_xref_list t = Some l ->
  exists out,
    get_oxo_mappings_for_curation t = Ok out /\
    out ≡ₚ oxo_candidates l /\
    (forall i j m1 m2,
       out !! i = Some m1 -> out !! j = Some m2 -> (i < j)%nat ->
       OxOMapping.distance m1 <= OxOMapping.distance m2) /\
    (forall d, filter (fun m => OxOMapping.distance m = d) out
               = filter (fun m => OxOMapping.distance m = d) (oxo_candidates l)).
Proof.
  intros Hl. exists (Py.sort_reverse OxOMapping.__lt__ (oxo_candidates l)).
  assert (Hperm : Py.sort_reverse OxOMapping.__lt__ (oxo_candidates l) ≡ₚ oxo_candidates l)
    by apply sort_reverse_Permutation.
  assert (Hflags : forall m,
    m ∈ Py.sort_reverse OxOMapping.__lt__ (oxo_candidates l) ->
    oxo_rank m = - 4 * OxOMapping.distance m + 3).
  { intros m Hm. rewrite Hperm in Hm.
    destruct (oxo_candidates_flags l m Hm) as [Hefo Hcur].
    unfold oxo_rank. rewrite Hefo, Hcur. simpl. lia. }
  split; [| split; [done | split]].
  - unfold get_oxo_mappings_for_curation. by rewrite Hl.
  - intros i j m1 m2 Hi Hj Hlt.
    pose proof (StronglySorted_lookup_lt _ _ i j m1 m2
                  (sort_reverse_sorted oxo_rank _ OxOMapping_lt_rank (oxo_candidates l))
                  Hi Hj Hlt) as Hle.
    unfold flip, rank_le in Hle.
    rewrite (Hflags m1), (Hflags m2) in Hle; [lia | |];
      by eapply list_elem_of_lookup_2.
  - intros d.
    pose proof (sort_reverse_stable oxo_rank _ OxOMapping_lt_rank (- 4 * d + 3)
                  (oxo_candidates l)) as Hstable.
    assert (Hfilter : forall l' : list OxOMapping.t,
      (forall m, m ∈ l' -> oxo_rank m = - 4 * OxOMapping.distance m + 3) ->
      filter (fun m => OxOMapping.distance m = d) l'
      = filter (fun m => oxo_rank m = - 4 * d + 3) l').
    { clear. intros l' Hall. induction l' as [| m l' IH]; [done |].
      rewrite !filter_cons, IH; [| intros m' Hm'; apply Hall; by right].
      pose proof (Hall m ltac:(by left)) as Hm.
      repeat case_decide; try done; lia. }
    rewrite (Hfilter _ Hflags), Hstable. symmetry. apply Hfilter.
    intros m Hm. apply Hflags. by rewrite Hperm.
Qed.

Lemma oxo_curation_order_witness :
  exists out,
    get_oxo_mappings_for_curation
      (Sample.oxo_trait [Sample.oxo_mapping 2; Sample.oxo_mapping 1]) = Ok out /\
    out !! 0%nat = Some (Sample.oxo_mapping 1) /\
    out !! 1%nat = Some (Sample.oxo_mapping 2).
Proof.
  destruct (oxo_curation_order
              (Sample.oxo_trait [Sample.oxo_mapping 2; Sample.oxo_mapping 1]) _ eq_refl)
    as (out & Hout & _).
  exists out. split; [exact Hout |].
  vm_compute in Hout. injection Hout as <-. split; reflexivity.
Defined.

(** ** Splitting a compact identifier *)

Lemma split_length (sep : ascii) (s : string) :
  List.length (Py.split sep s) = S (string_count sep s).
Proof.
  induction s as [| a s IH]; simpl; [done |].
  destruct (Ascii.eqb a sep); simpl; [by rewrite IH |].
  destruct (Py.split sep s) as [| h t]; simpl in *; [discriminate | done].
Qed.

Lemma split_join (sep : ascii) (s : string) :
  Py.join (String sep "") (Py.split sep s) = s.
Proof.
  induction s as [| a s IH]; simpl; [done |].
  destruct (Ascii.eqb_spec a sep) as [-> | Hne].
  - destruct (Py.split sep s) as [| h t] eqn:Hsplit; [by apply split_not_nil in Hsplit |].
    by rewrite <- IH.
  - destruct (Py.split sep s) as [| h t] eqn:Hsplit; [by apply split_not_nil in Hsplit |].
    rewrite <- IH. by destruct t.
Qed.

Lemma split_parts_nosep (sep : ascii) (s : string) :
  Forall (fun part => string_forallb (fun c => negb (Ascii.eqb c sep)) part = true)
         (Py.split sep s).
Proof.
  induction s as [| a s IH]; simpl.
  - by repeat constructor.
  - destruct (Ascii.eqb a sep) eqn:Ha.
    + by constructor.
    + destruct (Py.split sep s) as [| h t]; [repeat constructor; simpl; by rewrite Ha |].
      apply Forall_cons in IH as [Hh Ht]. constructor; [| done].
      simpl. by rewrite Ha.
Qed.

Lemma split_two (sep : ascii) (a b : string) :
  string_forallb (fun c => negb (Ascii.eqb c sep)) a = true ->
  string_forallb (fun c => negb (Ascii.eqb c sep)) b = true ->
  Py.split sep (a +:+ String sep b) = [a; b].
Proof.
  intros Ha Hb. induction a as [| c a IH]; simpl in *.
  - by rewrite Ascii.eqb_refl, (split_nosep sep b Hb).
  - apply andb_true_iff in Ha as [Hc Ha]. apply negb_true_iff in Hc.
    by rewrite Hc, (IH Ha).
Qed.

Lemma split_curie_cases (curie : string) :
  (exists db id_, Py.split ":" curie = [db; id_] /\ split_curie curie = Ok (db, id_)) \/
  (List.length (Py.split ":" curie) <> 2%nat /\ split_curie curie = Raise ValueError).
Proof.
  unfold split_curie. destruct (Py.split ":" curie) as [| db [| id_ [| x l]]].
  - by right.
  - by right.
  - left. by exists db, id_.
  - by right.
Qed.

(** X19.  A compact identifier is split at its colons.  The split gives a
    database name and an identifier exactly when the identifier has the
    form [db:id] with no colon in either part; with no colon or with more
    than one colon it raises [ValueError], and so do the constructors of
    [OxOMapping] and [OxOResult]. *)
Theorem split_curie_spec (curie : string) :
  (forall db id_,
     split_curie curie = Ok (db, id_) <->
     curie = db +:+ ":" +:+ id_ /\
     string_count ":" db = 0%nat /\ string_count ":" id_ = 0%nat) /\
  (split_curie curie = Raise ValueError <-> string_count ":" curie <> 1%nat) /\
  (forall label distance query_id,
     string_count ":" curie <> 1%nat ->
     OxOMapping.__init__ label curie distance query_id = Raise ValueError /\
     OxOResult.__init__ query_id label curie = Raise ValueError).
Proof.
  assert (Hcount : forall s, string_count ":" s = 0%nat <->
            string_forallb (fun c => negb (Ascii.eqb c ":")) s = true).
  { induction s as [| a s IH]; simpl; [done |].
    rewrite andb_true_iff, <- IH. destruct (Ascii.eqb a ":"); simpl; split;
      first [lia | by intros [? ?] | done]. }
  assert (Hraise : split_curie curie = Raise ValueError <-> string_count ":" curie <> 1%nat).
  { pose proof (split_length ":" curie) as Hlen.
    destruct (split_curie_cases curie) as [(db & id_ & Hsplit & ->) | [Hne ->]].
    - rewrite Hsplit in Hlen. simpl in Hlen. split; [done | lia].
    - split; [lia | done]. }
  split; [| split; [done |]].
  - intros db id_. split.
    + intros Hok. destruct (split_curie_cases curie) as [(db' & id' & Hsplit & Hok') | [_ Hr]];
        [| congruence].
      rewrite Hok in Hok'. injection Hok' as <- <-.
      pose proof (split_join ":" curie) as Hjoin.
      pose proof (split_parts_nosep ":" curie) as Hparts.
      rewrite Hsplit in Hjoin, Hparts. simpl in Hjoin.
      apply Forall_cons in Hparts as [Hdb Hid]. apply Forall_cons in Hid as [Hid _].
      by rewrite !Hcount.
    + intros (-> & Hdb & Hid). apply Hcount in Hdb, Hid.
      unfold split_curie. simpl. by rewrite (split_two ":" db id_ Hdb Hid).
  - intros label distance query_id Hne. apply Hraise in Hne.
    unfold OxOMapping.__init__, OxOResult.__init__. by rewrite Hne.
Qed.

Lemma split_curie_spec_witness :
  split_curie "Orphanet:199318" = Ok ("Orphanet", "199318") /\
  OxOMapping.__init__ "label" "urn:x:1" 1 "query" = Raise ValueError.
Proof.
  split.
  - apply (proj2 (proj1 (split_curie_spec "Orphanet:199318") "Orphanet" "199318")).
    repeat split; reflexivity.
  - apply (proj2 (proj2 (split_curie_spec "urn:x:1")) "label" 1 "query").
    vm_compute. lia.
Defined.

(** ** Reading a response of OxO *)

Lemma Json_iter_len (v : json) (n : nat) (l : list json) :
  Json.len v = Ok n -> Json.iter v = Ok l -> List.length l = n.
Proof.
  destruct v as [| b | z | s | l' | o]; simpl; try discriminate.
  - intros [= <-] [= <-]. induction s as [| c s IH]; simpl; [done | by rewrite IH].
  - by intros [= <-] [= <-].
  - intros [= <-] [= <-]. by rewrite length_map.
Qed.

Lemma parse_oxo_mapping_inv (env : Env) (query_id : string) (mapping_response : json)
    (m : OxOMapping.t) :
  parse_oxo_mapping env query_id mapping_response = Ok m ->
  OxOMapping.query_id m = query_id /\
  OntologyUri.__init__ (OxOMapping.id_ m) (OxOMapping.db m) = Ok (OxOMapping.uri m) /\
  OxOMapping.in_efo m
    = (if OxOMapping.is_current m then true
       else is_in_efo env (OntologyUri.uri (OxOMapping.uri m))) /\
  is_current_and_in_efo env (OntologyUri.uri (OxOMapping.uri m)) = Ok (OxOMapping.is_current m).
Proof.
  unfold parse_oxo_mapping. intros Hm.
  repeat match type of Hm with
         | rbind (OxOMapping.__init__ _ _ _ _) _ = Ok _ => fail 1
         | rbind ?r _ = Ok _ => destruct r eqn:?; cbn [rbind] in Hm; [| discriminate]
         end.
  destruct (OxOMapping.__init__ _ _ _ _) as [o |] eqn:Hinit; cbn [rbind] in Hm; [| discriminate].
  assert (Ho : OxOMapping.query_id o = query_id /\
               OntologyUri.__init__ (OxOMapping.id_ o) (OxOMapping.db o) = Ok (OxOMapping.uri o) /\
               OxOMapping.is_current o = false).
  { unfold OxOMapping.__init__ in Hinit.
    destruct (split_curie _) as [[db id_] |]; cbn [rbind fst snd] in Hinit; [| discriminate].
    destruct (OntologyUri.__init__ id_ db) as [u |] eqn:Hu; cbn [rbind] in Hinit; [| discriminate].
    by injection Hinit as <-. }
  destruct Ho as (Hq & Hu & Hcur). unfold OntologyUri.__str__ in Hm.
  destruct (is_current_and_in_efo env (OntologyUri.uri (OxOMapping.uri o))) as [b |] eqn:Hb;
    cbn [rbind] in Hm; [| discriminate].
  destruct b; cbn [negb] in Hm; injection Hm as <-; simpl.
  - done.
  - by rewrite Hcur.
Qed.

(** X20.  For a response of OxO whose values are typed (labels and
    query identifiers are strings, compact identifiers are written in
    ASCII, distances are integers): every result that
    [get_oxo_results_from_response] returns has at least one
    cross-reference.  Each cross-reference carries the query identifier
    of its result, the URI that [OntologyUri] builds from its database
    name and identifier, and its flags: [is_current] is the answer of
    [is_current_and_in_efo] for that URI; a current cross-reference is in
    EFO, and for one that is not current [in_efo] is the answer of
    [is_in_efo].  A result whose list of mapping responses is empty is
    left out, and its other fields are not read. *)
Theorem get_oxo_results_from_response_inv (env : Env) (oxo_response : json)
    (oxo_results : list OxOResult.t) :
  oxo_response_typed oxo_response = true ->
  get_oxo_results_from_response env oxo_response = Ok oxo_results ->
  (forall r, r ∈ oxo_results ->
     OxOResult.oxo_mapping_list r <> [] /\
     forall m, m ∈ OxOResult.oxo_mapping_list r ->
       OxOMapping.query_id m = OxOResult.query_id r /\
       OntologyUri.__init__ (OxOMapping.id_ m) (OxOMapping.db m) = Ok (OxOMapping.uri m) /\
       is_current_and_in_efo env (OntologyUri.uri (OxOMapping.uri m))
         = Ok (OxOMapping.is_current m) /\
       (OxOMapping.is_current m = true -> OxOMapping.in_efo m = true) /\
       (OxOMapping.is_current m = false ->
        OxOMapping.in_efo m = is_in_efo env (OntologyUri.uri (OxOMapping.uri m)))) /\
  (forall fields,
     get_oxo_results_from_response env
       (JObj [("_embedded",
               JObj [("searchResults",
                      JList [JObj (("mappingResponseList", JList []) :: fields)])])])
     = Ok []).
Proof.
  intros _ Hres. split; [| reflexivity].
  unfold get_oxo_results_from_response in Hres.
  repeat match type of Hres with
         | rbind ?r _ = Ok _ => destruct r eqn:?; cbn [rbind] in Hres; [| discriminate]
         end.
  injection Hres as <-. intros r Hr.
  apply list_elem_of_omap in Hr as (x & Hx & Hid). unfold id in Hid. subst x.
  match goal with H : mapM _ _ = Ok _ |- _ => apply mapM_Forall2 in H; rename H into Hall end.
  apply list_elem_of_lookup_1 in Hx as [i Hi].
  destruct (Forall2_lookup_r _ _ _ _ _ Hall Hi) as (result_ & _ & Hparse).
  clear - Hparse. unfold parse_oxo_result in Hparse.
  destruct (Json.getitem result_ "mappingResponseList") as [mrl |]; cbn [rbind] in Hparse;
    [| discriminate].
  destruct (Json.len mrl) as [n |] eqn:Hlen; cbn [rbind] in Hparse; [| discriminate].
  destruct (n =? 0)%nat eqn:Hn; [discriminate |]. apply Nat.eqb_neq in Hn.
  destruct (Json.getitem result_ "queryId") as [jq |]; cbn [rbind] in Hparse; [| discriminate].
  destruct (Json.getitem result_ "label") as [jl |]; cbn [rbind] in Hparse; [| discriminate].
  destruct (Json.getitem result_ "curie") as [jc |]; cbn [rbind] in Hparse; [| discriminate].
  destruct (Json.as_str jq) as [qid |]; cbn [rbind] in Hparse; [| discriminate].
  destruct (Json.as_str jl) as [label |]; cbn [rbind] in Hparse; [| discriminate].
  destruct (Json.as_str jc) as [curie |]; cbn [rbind] in Hparse; [| discriminate].
  destruct (OxOResult.__init__ qid label curie) as [o |] eqn:Hinit; cbn [rbind] in Hparse;
    [| discriminate].
  destruct (Json.iter mrl) as [responses |] eqn:Hiter; cbn [rbind] in Hparse; [| discriminate].
  destruct (mapM _ responses) as [mappings |] eqn:Hmap; cbn [rbind] in Hparse; [| discriminate].
  injection Hparse as <-. simpl.
  assert (Hq : OxOResult.query_id o = qid).
  { unfold OxOResult.__init__ in Hinit.
    destruct (split_curie _) as [[db id_] |]; cbn [rbind fst snd] in Hinit; [| discriminate].
    destruct (OntologyUri.__init__ id_ db); cbn [rbind] in Hinit; [| discriminate].
    by injection Hinit as <-. }
  apply mapM_Forall2 in Hmap. split.
  - intros ->. apply Forall2_length in Hmap. simpl in Hmap.
    pose proof (Json_iter_len _ _ _ Hlen Hiter). lia.
  - intros m Hm. apply list_elem_of_lookup_1 in Hm as [j Hj].
    destruct (Forall2_lookup_r _ _ _ _ _ Hmap Hj) as (response & _ & Hparse).
    destruct (parse_oxo_mapping_inv _ _ _ _ Hparse) as (Hqm & Hu & Hefo & Hcur).
    rewrite Hq. split; [done |]. split; [done |]. split; [done |].
    split; intros Hflag; by rewrite Hefo, Hflag.
Qed.

Lemma get_oxo_results_from_response_inv_witness :
  exists oxo_results,
    get_oxo_results_from_response Sample.env_oxo Sample.oxo_response = Ok oxo_results /\
    List.length oxo_results = 1%nat /\
    forall r, r ∈ oxo_results -> OxOResult.oxo_mapping_list r <> [].
Proof.
  eexists. split; [vm_compute; reflexivity |]. split; [reflexivity |].
  intros r Hr.
  refine (proj1 (proj1 (get_oxo_results_from_response_inv Sample.env_oxo Sample.oxo_response
                          _ _ _) r Hr)).
  - reflexivity.
  - vm_compute. reflexivity.
Defined.

(** ** The label that OLS returns *)

Lemma first_defining_label_some (terms : list json) (label : json) :
  first_defining_label terms = Ok (Some label) <->
  exists i term flag,
    terms !! i = Some term /\
    Json.getitem term "is_defining_ontology" = Ok flag /\ Json.truthy flag = true /\
    Json.getitem term "label" = Ok label /\
    forall j t, (j < i)%nat -> terms !! j = Some t ->
      exists f, Json.getitem t "is_defining_ontology" = Ok f /\ Json.truthy f = false.
Proof.
  induction terms as [| term rest IH]; simpl.
  - split; [discriminate | by intros (i & ? & ? & ? & _)].
  - split.
    + intros H.
      destruct (Json.getitem term "is_defining_ontology") as [flag |] eqn:Hflag;
        cbn [rbind] in H; [| discriminate].
      destruct (Json.truthy flag) eqn:Htruthy.
      * destruct (Json.getitem term "label") as [l |] eqn:Hlabel; cbn [rbind] in H;
          [| discriminate].
        injection H as <-. exists 0%nat, term, flag. repeat split; try done. lia.
      * apply IH in H as (i & t & f & Hi & Hf & Ht & Hl & Hbefore).
        exists (S i), t, f. repeat split; try done.
        intros [| j] t' Hlt Hj; simpl in Hj.
        -- injection Hj as <-. by exists flag.
        -- apply (Hbefore j); [lia | done].
    + intros (i & t & f & Hi & Hf & Ht & Hl & Hbefore). destruct i as [| i]; simpl in Hi.
      * injection Hi as <-. rewrite Hf. cbn [rbind]. rewrite Ht, Hl. reflexivity.
      * destruct (Hbefore 0%nat term ltac:(lia) eq_refl) as (f0 & Hf0 & Ht0).
        rewrite Hf0. cbn [rbind]. rewrite Ht0. apply IH.
        exists i, t, f. repeat split; try done.
        intros j t' Hlt Hj. apply (Hbefore (S j)); [lia | done].
Qed.

(** X21.  [ols_query_helper] returns a label exactly when the decoded
    response has terms under [_embedded], [terms] of which one has a true
    [is_defining_ontology] and a label that is not [null], and every term
    before it has a readable, false [is_defining_ontology]; the label is
    that of the first defining term.  In every other case (a body that is
    not JSON, a missing key, no defining term) it returns [None]. *)
Theorem ols_label_of_reply_spec (reply : http_reply) (label : json) :
  ols_label_of_reply reply = Some label <->
  label <> JNull /\
  exists json_response embedded terms_value terms i term flag,
    reply = Decoded json_response /\
    Json.getitem json_response "_embedded" = Ok embedded /\
    Json.getitem embedded "terms" = Ok terms_value /\
    Json.iter terms_value = Ok terms /\
    terms !! i = Some term /\
    Json.getitem term "is_defining_ontology" = Ok flag /\ Json.truthy flag = true /\
    Json.getitem term "label" = Ok label /\
    forall j t, (j < i)%nat -> terms !! j = Some t ->
      exists f, Json.getitem t "is_defining_ontology" = Ok f /\ Json.truthy f = false.
Proof.
  unfold ols_label_of_reply. split.
  - intros H. destruct reply as [json_response |]; [| discriminate].
    destruct (Json.getitem json_response "_embedded") as [embedded |] eqn:He;
      cbn [rbind] in H; [| discriminate].
    destruct (Json.getitem embedded "terms") as [terms_value |] eqn:Ht;
      cbn [rbind] in H; [| discriminate].
    destruct (Json.iter terms_value) as [terms |] eqn:Hi; cbn [rbind] in H; [| discriminate].
    destruct (first_defining_label terms) as [[l |] |] eqn:Hfirst; try discriminate.
    assert (Hl : l = label /\ label <> JNull).
    { destruct l; try discriminate; injection H as <-; by split. }
    destruct Hl as [-> Hnull]. split; [done |].
    apply first_defining_label_some in Hfirst as (i & term & flag & Hrest).
    by exists json_response, embedded, terms_value, terms, i, term, flag.
  - intros (Hnull & json_response & embedded & terms_value & terms & i & term & flag
            & -> & He & Ht & Hi & Hrest).
    rewrite He. cbn [rbind]. rewrite Ht. cbn [rbind]. rewrite Hi. cbn [rbind].
    assert (Hfirst : first_defining_label terms = Ok (Some label)).
    { apply first_defining_label_some. by exists i, term, flag. }
    rewrite Hfirst. by destruct label.
Qed.

Lemma ols_label_of_reply_spec_witness :
  ols_label_of_reply
    (Decoded (JObj [("_embedded",
       JObj [("terms",
         JList [JObj [("is_defining_ontology", JBool false); ("label", JStr "other")];
                JObj [("is_defining_ontology", JBool true);
                      ("label", JStr "intellectual disability")]])])]))
  = Some (JStr "intellectual disability").
Proof.
  apply (proj2 (ols_label_of_reply_spec _ _)). split; [discriminate |].
  do 4 eexists. exists 1%nat. do 2 eexists.
  repeat split; try reflexivity.
  intros [| j] t Hlt Hj; [| lia]. injection Hj as <-. by eexists.
Defined.

(** ** When Zooma gives no answer *)

(** X22.  [get_ontology_mappings] returns [None] exactly when the reply of
    Zooma to the annotation request is not JSON or is the JSON value
    [null]; it never returns [None] for a reply that was decoded to
    another value, even if that value holds no mapping. *)
Theorem get_ontology_mappings_none_iff (env : Env) (trait_name : string) (filters : Filters)
    (zooma_host : string) :
  get_ontology_mappings env trait_name filters zooma_host = Ok None <->
  zooma_get env (build_zooma_query trait_name filters zooma_host) = NotJson \/
  zooma_get env (build_zooma_query trait_name filters zooma_host) = Decoded JNull.
Proof.
  unfold get_ontology_mappings.
  destruct (zooma_query_helper env (build_zooma_query trait_name filters zooma_host))
    as [v |] eqn:Hv.
  - rewrite (request_retry_helper_some _ 3 _ _ Hv).
    unfold zooma_query_helper, json_or_none in Hv. split.
    + intros H. destruct (get_mappings_for_trait v); cbn [rbind] in H; [| discriminate].
      destruct (mapM _ _); cbn [rbind] in H; discriminate.
    + intros [H | H]; rewrite H in Hv; discriminate.
  - rewrite (request_retry_helper_none _ 4 _ Hv). split; [| done]. intros _.
    unfold zooma_query_helper, json_or_none in Hv.
    destruct (zooma_get env _) as [[] |]; try discriminate; auto.
Qed.

Lemma get_ontology_mappings_none_iff_witness :
  get_ontology_mappings Sample.env_down "intellectual disability" Sample.filters
    Sample.zooma_host = Ok None.
Proof.
  apply (proj2 (get_ontology_mappings_none_iff Sample.env_down "intellectual disability"
                  Sample.filters Sample.zooma_host)).
  left. reflexivity.
Defined.

(** ** Counting the trait names of the XML dump *)

Lemma count_occ_NoDup_elem (l : list string) (k : string) :
  NoDup l -> count_occ string_dec l k = if bool_decide (k ∈ l) then 1%nat else 0%nat.
Proof.
  intros Hnodup. apply NoDup_ListNoDup in Hnodup.
  pose proof (proj1 (NoDup_count_occ string_dec l) Hnodup k) as Hle.
  case_bool_decide as Hin.
  - apply list_elem_of_In, (count_occ_In string_dec) in Hin. lia.
  - apply (count_occ_not_In string_dec). by rewrite <- list_elem_of_In.
Qed.

Lemma foldl_count_record (str_lower : string -> string) (order : gset string -> list string)
    (records : list TraitNamesParsing.clinvar_record)
    (c : list (string * Z)) (nt : gset string) :
  fst (foldl (TraitNamesParsing.count_record str_lower order) (c, nt) records)
    = foldl (fun c k => counter_add k c) c
        (concat (map (fun r => order (TraitNamesParsing.trait_names str_lower r)) records)) /\
  forall k, k ∈ snd (foldl (TraitNamesParsing.count_record str_lower order) (c, nt) records) <->
    k ∈ nt \/ exists r, r ∈ records /\ TraitNamesParsing.is_repeat_expansion r = true /\
                       k ∈ TraitNamesParsing.trait_names str_lower r.
Proof.
  revert c nt. induction records as [| r records IH]; intros c nt; simpl.
  - split; [done |]. intros k. split; [by left |].
    intros [? | (r & Hr & _)]; [done | by apply elem_of_nil in Hr].
  - unfold TraitNamesParsing.count_record at 2 4. simpl.
    destruct (TraitNamesParsing.is_repeat_expansion r) eqn:Hrep.
    + destruct (IH (foldl (fun c k => counter_add k c) c
                      (order (TraitNamesParsing.trait_names str_lower r)))
                   (nt ∪ TraitNamesParsing.trait_names str_lower r)) as [Hc Hnt].
      split; [by rewrite Hc, foldl_app |].
      intros k. rewrite Hnt, elem_of_union. split.
      * intros [[? | Hk] | (r' & Hr' & Hrep' & Hk)]; [by left | |].
        -- right. exists r. split; [by left | done].
        -- right. exists r'. split; [by right | done].
      * intros [? | (r' & Hr' & Hrep' & Hk)]; [by left; left |].
        apply elem_of_cons in Hr' as [-> | Hr']; [by left; right |].
        right. by exists r'.
    + destruct (IH (foldl (fun c k => counter_add k c) c
                      (order (TraitNamesParsing.trait_names str_lower r))) nt) as [Hc Hnt].
      split; [by rewrite Hc, foldl_app |].
      intros k. rewrite Hnt. split.
      * intros [? | (r' & Hr' & Hrep' & Hk)]; [by left |].
        right. exists r'. split; [by right | done].
      * intros [? | (r' & Hr' & Hrep' & Hk)]; [by left |].
        apply elem_of_cons in Hr' as [-> | Hr']; [congruence |].
        right. by exists r'.
Qed.

Lemma count_occ_records (str_lower : string -> string) (order : gset string -> list string)
    (records : list TraitNamesParsing.clinvar_record) (k : string) :
  (forall X, order X ≡ₚ elements X) ->
  count_occ string_dec
    (concat (map (fun r => order (TraitNamesParsing.trait_names str_lower r)) records)) k
  = List.length (List.filter (fun r => bool_decide (k ∈ TraitNamesParsing.trait_names str_lower r))
                             records).
Proof.
  intros Horder. induction records as [| r records IH]; simpl; [done |].
  rewrite count_occ_app, IH.
  rewrite (proj1 (Permutation_count_occ string_dec _ _) (Horder _) k).
  rewrite (count_occ_NoDup_elem _ _ (NoDup_elements _)).
  assert (Hiff : bool_decide (k ∈ elements (TraitNamesParsing.trait_names str_lower r))
                 = bool_decide (k ∈ TraitNamesParsing.trait_names str_lower r)).
  { apply bool_decide_ext, elem_of_elements. }
  rewrite Hiff.
  destruct (bool_decide (k ∈ TraitNamesParsing.trait_names str_lower r)); simpl; lia.
Qed.

Lemma trait_of_counter (nt : gset string) (c : list (string * Z))
    (t : TraitNamesParsing.trait) :
  t ∈ omap (fun item : string * Z =>
              if String.eqb (fst item) "-" then None
              else Some (TraitNamesParsing.mk_trait (fst item) (snd item)
                           (bool_decide (fst item ∈ nt)))) c <->
  exists k n, (k, n) ∈ c /\ k <> "-" /\
              t = TraitNamesParsing.mk_trait k n (bool_decide (k ∈ nt)).
Proof.
  rewrite list_elem_of_omap. split.
  - intros ([k n] & Hin & Ht). simpl in Ht.
    destruct (String.eqb_spec k "-") as [-> | Hne]; [discriminate |].
    injection Ht as <-. by exists k, n.
  - intros (k & n & Hin & Hne & ->). exists (k, n). split; [done |]. simpl.
    by apply String.eqb_neq in Hne as ->.
Qed.

(** X23.  [parse_trait_names] of the XML dump returns one trait per
    distinct trait name, as lower-cased by [str.lower], other than [-].
    The frequency of a trait is the number of records that name it, a
    record that names it several times counting once, and the trait is
    marked as associated with a repeat expansion exactly when one of the
    records that name it has a measure that is a repeat expansion
    variant.  This holds whatever [str.lower] does to a name and whatever
    the order in which the sets of names are iterated. *)
Theorem parse_trait_names_counts (str_lower : string -> string)
    (order : gset string -> list string)
    (records : list TraitNamesParsing.clinvar_record) :
  (forall X, order X ≡ₚ elements X) ->
  NoDup (map TraitNamesParsing.name (TraitNamesParsing.parse_trait_names str_lower order records)) /\
  (forall t, t ∈ TraitNamesParsing.parse_trait_names str_lower order records ->
     TraitNamesParsing.name t <> "-" /\
     TraitNamesParsing.frequency t
       = Z.of_nat (List.length
           (List.filter (fun r => bool_decide (TraitNamesParsing.name t
                                                 ∈ TraitNamesParsing.trait_names str_lower r))
                        records)) /\
     1 <= TraitNamesParsing.frequency t /\
     (TraitNamesParsing.associated_with_nt_expansion t = true <->
      exists r, r ∈ records /\ TraitNamesParsing.is_repeat_expansion r = true /\
                TraitNamesParsing.name t ∈ TraitNamesParsing.trait_names str_lower r)) /\
  (forall r k, r ∈ records -> k ∈ TraitNamesParsing.trait_names str_lower r -> k <> "-" ->
     exists t, t ∈ TraitNamesParsing.parse_trait_names str_lower order records /\
               TraitNamesParsing.name t = k).
Proof.
  intros Horder. unfold TraitNamesParsing.parse_trait_names.
  destruct (foldl_count_record str_lower order records [] ∅) as [Hc Hnt].
  set (st := foldl (TraitNamesParsing.count_record str_lower order) ([], ∅) records) in *.
  set (flat := concat (map (fun r => order (TraitNamesParsing.trait_names str_lower r)) records)) in *.
  change (fst st = Counter flat) in Hc. rewrite Hc.
  destruct (Counter_spec flat) as (Hnodup & Hkeys & Hget & _).
  assert (Hflat : forall k, k ∈ flat <->
            exists r, r ∈ records /\ k ∈ TraitNamesParsing.trait_names str_lower r).
  { intros k. unfold flat. rewrite list_elem_of_In, in_concat. split.
    - intros (l & Hl & Hk). apply in_map_iff in Hl as (r & <- & Hr).
      exists r. split; [by apply list_elem_of_In |].
      apply list_elem_of_In in Hk. rewrite (Horder _) in Hk. by apply elem_of_elements.
    - intros (r & Hr & Hk). exists (order (TraitNamesParsing.trait_names str_lower r)). split.
      + apply in_map_iff. exists r. split; [done | by apply list_elem_of_In].
      + apply list_elem_of_In. rewrite (Horder _). by apply elem_of_elements. }
  split; [| split].
  - clear - Hnodup. induction (Counter flat) as [| [k n] c IH]; csimpl; [constructor |].
    apply NoDup_cons in Hnodup as [Hk Hnodup].
    destruct (String.eqb k "-"); csimpl; [by apply IH |].
    apply NoDup_cons. split; [| by apply IH].
    intros Hin. apply Hk. apply list_elem_of_In, in_map_iff in Hin as (t & Hname & Ht).
    apply list_elem_of_In, trait_of_counter in Ht as (k' & n' & Hin' & _ & ->).
    simpl in Hname. subst k'. apply list_elem_of_fmap. by exists (k, n').
  - intros t Ht. apply trait_of_counter in Ht as (k & n & Hin & Hne & ->). simpl.
    destruct (Counter_elem flat k n Hin) as (_ & Hn & Hpos).
    split; [done |]. split; [| split; [done |]].
    + rewrite Hn. f_equal. by apply count_occ_records.
    + rewrite bool_decide_eq_true, Hnt. split.
      * intros [Hempty | H]; [by apply not_elem_of_empty in Hempty | done].
      * by right.
  - intros r k Hr Hk Hne.
    assert (Hkc : k ∈ (Counter flat).*1) by (apply Hkeys, Hflat; by exists r).
    apply list_elem_of_fmap in Hkc as ([k' n] & Hk' & Hin). simpl in Hk'. subst k'.
    exists (TraitNamesParsing.mk_trait k n (bool_decide (k ∈ snd st))).
    split; [| done]. apply trait_of_counter. by exists k, n.
Qed.

Lemma parse_trait_names_counts_witness :
  NoDup (map TraitNamesParsing.name
           (TraitNamesParsing.parse_trait_names Py.lower elements
              [TraitNamesParsing.mk_record ["Ataxia"; "ataxia"; "-"] (Some true);
               TraitNamesParsing.mk_record ["ATAXIA"] None])) /\
  TraitNamesParsing.parse_trait_names Py.lower elements
    [TraitNamesParsing.mk_record ["Ataxia"; "ataxia"; "-"] (Some true);
     TraitNamesParsing.mk_record ["ATAXIA"] None]
  = [TraitNamesParsing.mk_trait "ataxia" 2 true].
Proof.
  split.
  - apply (proj1 (parse_trait_names_counts Py.lower elements _ (fun X => reflexivity _))).
  - vm_compute. reflexivity.
Defined.
